(** * CivicMindAI: query routing and multi-strategy retrieval engine

  A shallow embedding of the Python modules written out by the repository's
  generator scripts:

  - [agent_controller.py] (src/script_11.py): [Router], [Controller]
  - [cag_module.py]       (src/script_7.py):  [CAG]
  - [rag_module.py]       (src/script_8.py):  [RAG]
  - [kag_module.py]       (src/script_9.py):  [KAG]
  - [slm_module.py]       (src/script_10.py): [SLM]

  together with the cache file [civic_cache.json] that src/script_2.py
  writes ([CAG.civic_cache]).

  Text is modelled as [string] over 7-bit ASCII: [lower], [title], [strip]
  and the regular-expression classes [\b], [\s] follow Python on that range;
  a character above 127 is carried through unchanged as an uncased,
  non-word, non-space symbol, and [len] is [String.length] there.  Clock
  readings ([datetime.now()]) are left out of the records; an exception is
  a [Raise] in the [result] type.  The router's confidence is kept as the
  exact quotient of the two integers the code divides; the double that the
  division returns is [Confidence.reported]. *)

From Stdlib Require Import String Ascii List Bool Arith ZArith QArith Lia DecimalString.
From Stdlib Require PrimFloat.
From stdpp Require Import gmap strings.
Import ListNotations.

Open Scope string_scope.
Open Scope list_scope.
Open Scope nat_scope.

(** ** Python values shared by all modules *)

(** The outcome of a call that may raise. *)
Inductive result (A : Type) : Type :=
| Ok (a : A)
| Raise (exn : string).
Arguments Ok {A} a.
Arguments Raise {A} exn.

Module Py.

(** *** Characters *)

Definition code (c : ascii) : nat := nat_of_ascii c.

Definition between (lo hi : nat) (c : ascii) : bool :=
  (lo <=? code c) && (code c <=? hi).

Definition is_upper : ascii -> bool := between 65 90.
Definition is_lower : ascii -> bool := between 97 122.
Definition is_digit : ascii -> bool := between 48 57.
Definition is_cased (c : ascii) : bool := is_upper c || is_lower c.

(** [str.isspace] on one character: TAB..CR, FS..US and the blank. *)
Definition is_space (c : ascii) : bool :=
  between 9 13 c || between 28 32 c.

(** [\w] of the [re] module. *)
Definition is_word (c : ascii) : bool :=
  is_upper c || is_lower c || is_digit c || (code c =? 95).

Definition to_lower (c : ascii) : ascii :=
  if is_upper c then ascii_of_nat (code c + 32) else c.

Definition to_upper (c : ascii) : ascii :=
  if is_lower c then ascii_of_nat (code c - 32) else c.

(** *** Strings *)

Definition nl : ascii := "010"%char.

(** The two-character paragraph separator ["\n\n"]. *)
Definition nlnl : string := String nl (String nl "").

Fixpoint map_str (f : ascii -> ascii) (s : string) : string :=
  match s with
  | "" => ""
  | String c s' => String (f c) (map_str f s')
  end.

(** [s.lower()] *)
Definition lower (s : string) : string := map_str to_lower s.

(** [sub in s] *)
Fixpoint contains (sub s : string) : bool :=
  String.prefix sub s ||
  match s with
  | "" => false
  | String _ s' => contains sub s'
  end.

(** [any(k in s for k in ks)] *)
Definition any_in (ks : list string) (s : string) : bool :=
  existsb (fun k => contains k s) ks.

(** [s.title()]: a cased character is upper-cased when it follows an
    uncased one (or nothing) and lower-cased otherwise. *)
Fixpoint title_from (prev_cased : bool) (s : string) : string :=
  match s with
  | "" => ""
  | String c s' =>
      String (if prev_cased then to_lower c else to_upper c)
             (title_from (is_cased c) s')
  end.

Definition title (s : string) : string := title_from false s.

(** [s.lstrip()], [s.rstrip()], [s.strip()] *)
Fixpoint lstrip (s : string) : string :=
  match s with
  | "" => ""
  | String c s' => if is_space c then lstrip s' else s
  end.

Fixpoint rstrip (s : string) : string :=
  match s with
  | "" => ""
  | String c s' =>
      match rstrip s' with
      | "" => if is_space c then "" else String c ""
      | r => String c r
      end
  end.

Definition strip (s : string) : string := lstrip (rstrip s).

(** Truth value of a string: non-empty. *)
Definition truthy (s : string) : bool :=
  match s with "" => false | _ => true end.

(** [s.split("\n\n")]: scanned left to right, separators do not overlap,
    and the result always has at least one field. *)
Fixpoint split_nlnl (s : string) : list string :=
  match s with
  | "" => [""]
  | String c s' =>
      match s' with
      | String d rest =>
          if Ascii.eqb c nl && Ascii.eqb d nl then "" :: split_nlnl rest
          else match split_nlnl s' with
               | p :: ps => String c p :: ps
               | [] => [String c ""]
               end
      | "" => [String c ""]
      end
  end.

(** [str(n)] for a non-negative integer. *)
Definition str_of_nat (n : nat) : string :=
  NilEmpty.string_of_uint (Nat.to_uint n).

(** [xs[:n]] for any integer [n]: a negative [n] counts from the end. *)
Definition slice_to {A : Type} (n : Z) (xs : list A) : list A :=
  if (0 <=? n)%Z then firstn (Z.to_nat n) xs
  else firstn (length xs - Z.to_nat (- n)) xs.

(** *** Dictionaries in insertion order *)

Definition dict (K V : Type) : Type := list (K * V).

Section Dict.
Context {K V : Type} (eqb : K -> K -> bool).

(** [d.get(k)] *)
Fixpoint get (k : K) (d : dict K V) : option V :=
  match d with
  | [] => None
  | (k', v) :: d' => if eqb k k' then Some v else get k d'
  end.

(** [k in d] *)
Definition mem (k : K) (d : dict K V) : bool :=
  match get k d with Some _ => true | None => false end.

(** [d[k] = f(d[k])] for a key already present: the key keeps its place. *)
Fixpoint update (k : K) (f : V -> V) (d : dict K V) : dict K V :=
  match d with
  | [] => []
  | (k', v) :: d' =>
      if eqb k k' then (k', f v) :: d' else (k', v) :: update k f d'
  end.
End Dict.

Definition keys {K V : Type} (d : dict K V) : list K := map fst d.
Definition values {K V : Type} (d : dict K V) : list V := map snd d.

(** A dictionary with string keys, as read from a JSON object. *)
Definition sget {V : Type} : string -> dict string V -> option V :=
  get String.eqb.
Definition smem {V : Type} : string -> dict string V -> bool :=
  mem (V := V) String.eqb.

(** [max(xs, key=f)]: the running best is replaced only by an element of a
  strictly greater key, so the first element of greatest key is returned;
  [None] stands for the [ValueError] on an empty argument. *)
Fixpoint max_from {A : Type} (f : A -> nat) (best : A) (xs : list A) : A :=
  match xs with
  | [] => best
  | x :: xs' => max_from f (if f best <? f x then x else best) xs'
  end.

Definition max_by {A : Type} (f : A -> nat) (xs : list A) : option A :=
  match xs with
  | [] => None
  | x :: xs' => Some (max_from f x xs')
  end.

Definition sum (xs : list nat) : nat := fold_left Nat.add xs 0.

End Py.

(** ** Regular expressions of the shapes used by the routing table *)

Module Re.

Inductive regex : Type :=
| Lit (s : string)            (* literal text *)
| Words (ws : list string)    (* (w1|w2|...) over literal words *)
| Alt (a b : regex)           (* a|b *)
| Seq (a b : regex)           (* ab *)
| Bnd                         (* \b *)
| Spaces                      (* \s+ *)
| AnyStar.                    (* .* *)

(** A continuation receives the character before the current position
    (needed by [\b]) and the rest of the subject. *)
Definition cont : Type := option ascii -> string -> bool.

Fixpoint eat (lit : string) (prev : option ascii) (s : string)
  : option (option ascii * string) :=
  match lit with
  | "" => Some (prev, s)
  | String c lit' =>
      match s with
      | String d s' => if Ascii.eqb c d then eat lit' (Some d) s' else None
      | "" => None
      end
  end.

Definition eat_then (k : cont) (prev : option ascii) (s : string)
           (lit : string) : bool :=
  match eat lit prev s with
  | Some (p, s') => k p s'
  | None => false
  end.

Definition word_at (c : option ascii) : bool :=
  match c with Some x => Py.is_word x | None => false end.

Definition next_char (s : string) : option ascii :=
  match s with String c _ => Some c | "" => None end.

(** [\b]: exactly one side of the position is a word character. *)
Definition at_boundary (prev : option ascii) (s : string) : bool :=
  xorb (word_at prev) (word_at (next_char s)).

Fixpoint spaces_then (k : cont) (s : string) : bool :=
  match s with
  | String c s' => Py.is_space c && (spaces_then k s' || k (Some c) s')
  | "" => false
  end.

Fixpoint any_then (k : cont) (prev : option ascii) (s : string) : bool :=
  k prev s ||
  match s with
  | String c s' => negb (Ascii.eqb c Py.nl) && any_then k (Some c) s'
  | "" => false
  end.

Fixpoint run (r : regex) (k : cont) (prev : option ascii) (s : string)
  : bool :=
  match r with
  | Lit l => eat_then k prev s l
  | Words ws => existsb (eat_then k prev s) ws
  | Alt a b => run a k prev s || run b k prev s
  | Seq a b => run a (run b k) prev s
  | Bnd => at_boundary prev s && k prev s
  | Spaces => spaces_then k s
  | AnyStar => any_then k prev s
  end.

Fixpoint search_from (r : regex) (prev : option ascii) (s : string) : bool :=
  run r (fun _ _ => true) prev s ||
  match s with
  | String c s' => search_from r (Some c) s'
  | "" => false
  end.

(** [bool(re.search(r, s))] *)
Definition search (r : regex) (s : string) : bool := search_from r None s.

(** [\b( ... )\b] *)
Definition bounded (r : regex) : regex := Seq Bnd (Seq r Bnd).

(** [a\s+b] *)
Definition spaced (a b : regex) : regex := Seq a (Seq Spaces b).

End Re.

(** ** agent_controller.py: query analysis *)

Module Router.
Import Re.

(** The four AI modules, named as the keys of the routing table. *)
Inductive module_name : Type := CAG | RAG | KAG | SLM.

Definition module_eqb (a b : module_name) : bool :=
  match a, b with
  | CAG, CAG | RAG, RAG | KAG, KAG | SLM, SLM => true
  | _, _ => false
  end.

(** The key as the Python string. *)
Definition name (m : module_name) : string :=
  match m with
  | CAG => "CAG" | RAG => "RAG" | KAG => "KAG" | SLM => "SLM"
  end.

(** A pattern of the table: its source text and the expression it denotes. *)
Record pattern : Type := { source : string; compiled : regex }.

Record config : Type :=
  { keywords : list string;
    patterns : list pattern;
    description : string }.

(** [_initialize_routing_patterns] *)
Definition routing_patterns : Py.dict module_name config :=
  [ (CAG,
     {| keywords :=
          [ "helpline"; "contact"; "number"; "phone"; "emergency";
            "fire"; "police"; "ambulance"; "hospital";
            "office hours"; "timing"; "schedule"; "website";
            "zone contact"; "collector office"; "mayor office" ];
        patterns :=
          [ {| source := "\b(helpline|contact|number|phone)\b";
               compiled :=
                 bounded (Words ["helpline"; "contact"; "number"; "phone"]) |};
            {| source := "\b(emergency|fire|police|ambulance)\b";
               compiled :=
                 bounded (Words ["emergency"; "fire"; "police"; "ambulance"]) |};
            {| source := "\b(office hours|timing|schedule)\b";
               compiled :=
                 bounded (Words ["office hours"; "timing"; "schedule"]) |};
            {| source := "\b(zone|area)\s+(contact|number)\b";
               compiled :=
                 Seq Bnd (Seq (spaced (Words ["zone"; "area"])
                                      (Words ["contact"; "number"])) Bnd) |} ];
        description := "Static information, contacts, helplines" |});
    (RAG,
     {| keywords :=
          [ "latest"; "recent"; "update"; "current"; "new"; "report";
            "schedule"; "timings"; "rules"; "guidelines"; "notification";
            "2025"; "october"; "september"; "today" ];
        patterns :=
          [ {| source := "\b(latest|recent|update|current|new)\b";
               compiled :=
                 bounded (Words ["latest"; "recent"; "update"; "current"; "new"]) |};
            {| source := "\b(rules|guidelines|notification)\s+(2025|2024)\b";
               compiled :=
                 Seq Bnd (Seq (spaced (Words ["rules"; "guidelines"; "notification"])
                                      (Words ["2025"; "2024"])) Bnd) |};
            {| source := "\b(schedule|timing)\s+(for|of)\b";
               compiled :=
                 Seq Bnd (Seq (spaced (Words ["schedule"; "timing"])
                                      (Words ["for"; "of"])) Bnd) |};
            {| source := "\b(what is|show me)\s+.*(schedule|timing|rule)\b";
               compiled :=
                 Seq Bnd
                   (Seq (Words ["what is"; "show me"])
                      (Seq Spaces
                         (Seq AnyStar
                            (Seq (Words ["schedule"; "timing"; "rule"]) Bnd)))) |} ];
        description := "Recent updates, schedules, document-based info" |});
    (KAG,
     {| keywords :=
          [ "how to"; "procedure"; "steps"; "process"; "apply";
            "get"; "obtain"; "registration"; "application";
            "who handles"; "responsible"; "department";
            "repair"; "complaint"; "issue" ];
        patterns :=
          [ {| source := "\b(how to|procedure|steps|process)\b";
               compiled :=
                 bounded (Words ["how to"; "procedure"; "steps"; "process"]) |};
            {| source := "\b(apply|get|obtain)\s+(for|a|an)\b";
               compiled :=
                 Seq Bnd (Seq (spaced (Words ["apply"; "get"; "obtain"])
                                      (Words ["for"; "a"; "an"])) Bnd) |};
            {| source := "\b(who handles|responsible|department)\b";
               compiled :=
                 bounded (Words ["who handles"; "responsible"; "department"]) |};
            {| source := "\b(repair|complaint|issue)\s+(in|at|for)\b";
               compiled :=
                 Seq Bnd (Seq (spaced (Words ["repair"; "complaint"; "issue"])
                                      (Words ["in"; "at"; "for"])) Bnd) |} ];
        description := "Procedures, step-by-step guidance, multi-hop reasoning" |});
    (SLM,
     {| keywords :=
          [ "hello"; "hi"; "hey"; "who are you"; "what are you";
            "thank"; "thanks"; "bye"; "goodbye"; "help";
            "chat"; "talk"; "conversation" ];
        patterns :=
          [ {| source := "\b(hello|hi|hey|good\s+(morning|afternoon|evening))\b";
               compiled :=
                 bounded
                   (Alt (Words ["hello"; "hi"; "hey"])
                        (spaced (Lit "good")
                                (Words ["morning"; "afternoon"; "evening"]))) |};
            {| source := "\b(who|what)\s+are\s+you\b";
               compiled :=
                 Seq Bnd
                   (Seq (spaced (Words ["who"; "what"])
                                (spaced (Lit "are") (Lit "you"))) Bnd) |};
            {| source := "\b(thank|thanks|appreciate)\b";
               compiled := bounded (Words ["thank"; "thanks"; "appreciate"]) |};
            {| source := "\b(bye|goodbye|see\s+you)\b";
               compiled :=
                 bounded (Alt (Words ["bye"; "goodbye"])
                              (spaced (Lit "see") (Lit "you"))) |} ];
        description := "General chat, greetings, identity questions" |}) ].

Definition score_dict : Type := Py.dict module_name nat.
Definition match_dict : Type := Py.dict module_name (list string).

(** The two dictionaries that the scoring loop mutates. *)
Definition tally : Type := (score_dict * match_dict)%type.

(** [scores[module] += w; matched_patterns[module].append(note)] *)
Definition record_match (m : module_name) (w : nat) (note : string)
           (t : tally) : tally :=
  (Py.update module_eqb m (fun n => n + w) (fst t),
   Py.update module_eqb m (fun l => l ++ [note]) (snd t)).

Definition keyword_step (ql : string) (m : module_name)
           (t : tally) (keyword : string) : tally :=
  if Py.contains keyword ql
  then record_match m 1 ("keyword: " +:+ keyword) t
  else t.

Definition pattern_step (ql : string) (m : module_name)
           (t : tally) (p : pattern) : tally :=
  if search (compiled p) ql
  then record_match m 2 ("pattern: " +:+ source p) t
  else t.

(** The body of [for module, config in self.routing_patterns.items()]. *)
Definition module_step (ql : string) (t : tally)
           (entry : module_name * config) : tally :=
  let (m, cfg) := entry in
  fold_left (pattern_step ql m) (patterns cfg)
    (fold_left (keyword_step ql m) (keywords cfg) t).

Definition initial_tally : tally :=
  ([(CAG, 0); (RAG, 0); (KAG, 0); (SLM, 0)],
   [(CAG, []); (RAG, []); (KAG, []); (SLM, [])]).

Definition tally_of (query_lower : string) : tally :=
  fold_left (module_step query_lower) routing_patterns initial_tally.

(** [scores.get]; every module is a key, so the default is never used. *)
Definition score_of (scores : score_dict) (m : module_name) : nat :=
  match Py.get module_eqb m scores with Some n => n | None => 0 end.

Definition matched_of (matched : match_dict) (m : module_name) : list string :=
  match Py.get module_eqb m matched with Some l => l | None => [] end.

(** The [reason] text, kept as the data the f-string is built from. *)
Inductive reason : Type :=
| NoSpecificPatterns
| HighestScore (best_score : nat) (matched : list string).

Record analysis : Type :=
  { selected_module : module_name;
    scores : score_dict;
    matched_patterns : match_dict;
    why : reason;
    confidence : Q }.   (* the operands of the division, as an exact quotient *)

(** [analyze_query]; [Raise] is the [ValueError] of [max] on an empty
    dictionary. *)
Definition analyze_query (query : string) : result analysis :=
  let query_lower := Py.lower query in
  let (scores, matched_patterns) := tally_of query_lower in
  match Py.max_by (score_of scores) (Py.keys scores) with
  | None => Raise "ValueError"
  | Some best_module =>
      let best_score := score_of scores best_module in
      let (best_module, reason) :=
        if best_score =? 0
        then (SLM, NoSpecificPatterns)
        else (best_module,
              HighestScore best_score (matched_of matched_patterns best_module))
      in
      Ok {| selected_module := best_module;
            scores := scores;
            matched_patterns := matched_patterns;
            why := reason;
            confidence :=
              Z.of_nat best_score
              # Pos.of_nat (Nat.max (Py.sum (Py.values scores)) 1) |}
  end.

(** The fixed priority order Cache > Document > Graph > Conversational. *)
Definition priority (m : module_name) : nat :=
  match m with CAG => 0 | RAG => 1 | KAG => 2 | SLM => 3 end.

End Router.

Definition NL : string := String Py.nl "".

(** ** cag_module.py: cache-augmented generation *)

Module CAG.

(** One category of the cache file: key to value, in file order. *)
Definition partition : Type := Py.dict string string.

(** [self.cache_data]: category name to category. *)
Definition cache : Type := Py.dict string partition.

(** [self.cache_data.get(category, {})] *)
Definition category (name : string) (cache_data : cache) : partition :=
  match Py.sget name cache_data with Some p => p | None => [] end.

(** The dictionaries returned by the searches, by their ['type']. *)
Inductive cached : Type :=
| emergency_contact (service number availability : string)
| all_emergency_contacts (contacts : partition)
| government_contact (office number timing : string)
| civic_service (service helpline timing : string)
| zone_contact (zone contact services : string)
| quick_info (info_type details : string)
| websites (sites : Py.dict string string).

Definition type_of (c : cached) : string :=
  match c with
  | emergency_contact _ _ _ => "emergency_contact"
  | all_emergency_contacts _ => "all_emergency_contacts"
  | government_contact _ _ _ => "government_contact"
  | civic_service _ _ _ => "civic_service"
  | zone_contact _ _ _ => "zone_contact"
  | quick_info _ _ => "quick_info"
  | websites _ => "websites"
  end.

(** A hit of a keyword table: the keyword, its cache key and the value. *)
Record hit : Type := { hit_keyword : string; hit_key : string; hit_value : string }.

(** The loop shared by the keyword tables:
    [for keyword, key in table.items():
       if keyword in query: if key in data: return ...] *)
Fixpoint first_hit (table : Py.dict string string) (data : partition)
         (query : string) : option hit :=
  match table with
  | [] => None
  | (keyword, key) :: rest =>
      if Py.contains keyword query then
        match Py.sget key data with
        | Some v => Some {| hit_keyword := keyword; hit_key := key; hit_value := v |}
        | None => first_hit rest data query
        end
      else first_hit rest data query
  end.

Definition emergency_keywords : Py.dict string string :=
  [ ("fire", "fire");
    ("police", "police");
    ("ambulance", "ambulance");
    ("medical", "ambulance");
    ("hospital", "ambulance");
    ("flood", "flood_helpline");
    ("water emergency", "cmwssb_complaint");
    ("electricity", "electricity_complaint");
    ("gas", "gas_leak");
    ("women", "women_helpline");
    ("child", "child_helpline");
    ("corporation", "chennai_corporation") ].

Definition availability_of (contact_key : string) : string :=
  if existsb (String.eqb contact_key) ["fire"; "police"; "ambulance"]
  then "24x7" else "Office hours".

Definition _search_emergency_contacts (cache_data : cache) (query : string)
  : option cached :=
  let emergency_data := category "emergency_contacts" cache_data in
  match first_hit emergency_keywords emergency_data query with
  | Some h =>
      Some (emergency_contact (Py.title (hit_keyword h)) (hit_value h)
                              (availability_of (hit_key h)))
  | None =>
      if Py.contains "emergency" query && Py.contains "all" query
      then Some (all_emergency_contacts emergency_data)
      else None
  end.

Definition gov_keywords : Py.dict string string :=
  [ ("collector", "collector_office");
    ("mayor", "mayor_office");
    ("district", "district_collector");
    ("cm", "cm_cell");
    ("chief minister", "cm_cell");
    ("police control", "tn_police_control") ].

Definition _search_government_contacts (cache_data : cache) (query : string)
  : option cached :=
  let gov_data := category "government_contacts" cache_data in
  match first_hit gov_keywords gov_data query with
  | Some h =>
      Some (government_contact (Py.title (hit_keyword h)) (hit_value h)
                               "Office hours (9:30 AM - 5:30 PM)")
  | None => None
  end.

Definition service_keywords : Py.dict string string :=
  [ ("property tax", "property_tax");
    ("water tax", "water_tax");
    ("birth certificate", "birth_certificate");
    ("death certificate", "death_certificate");
    ("trade license", "trade_license");
    ("building permit", "building_permit");
    ("marriage", "marriage_registration") ].

Definition _search_civic_services (cache_data : cache) (query : string)
  : option cached :=
  let services_data := category "civic_services_helplines" cache_data in
  match first_hit service_keywords services_data query with
  | Some h =>
      Some (civic_service (Py.title (hit_keyword h)) (hit_value h) "Office hours")
  | None => None
  end.

Definition zone_keywords : Py.dict string string :=
  [ ("north", "zone_1_north");
    ("north east", "zone_2_north_east");
    ("central", "zone_3_central");
    ("south west", "zone_4_south_west");
    ("south", "zone_5_south");
    ("adyar", "zone_6_adyar");
    ("anna nagar", "zone_7_anna_nagar");
    ("teynampet", "zone_8_teynampet") ].

Definition _search_zone_info (cache_data : cache) (query : string)
  : option cached :=
  let zones_data := category "zone_contacts" cache_data in
  match first_hit zone_keywords zones_data query with
  | Some h =>
      Some (zone_contact (Py.title (hit_keyword h)) (hit_value h)
                         "Water supply, complaints, maintenance")
  | None => None
  end.

(** A quick-info keyword names one cache key or a list of them. *)
Inductive info_key : Type :=
| one_key (k : string)
| key_list (ks : list string).

Definition info_keywords : Py.dict string info_key :=
  [ ("office hours", one_key "corporation_office_hours");
    ("timing", one_key "corporation_office_hours");
    ("water supply", one_key "water_supply_timings");
    ("garbage", one_key "garbage_collection");
    ("tax due", one_key "property_tax_due_date");
    ("website", key_list ["corporation_website"; "cmwssb_website"]) ].

(** [{k: quick_data.get(k) for k in info_key if k in quick_data}] *)
Fixpoint pick (ks : list string) (quick_data : partition) : Py.dict string string :=
  match ks with
  | [] => []
  | k :: ks' =>
      match Py.sget k quick_data with
      | Some v => (k, v) :: pick ks' quick_data
      | None => pick ks' quick_data
      end
  end.

Fixpoint quick_loop (table : Py.dict string info_key) (quick_data : partition)
         (query : string) : option cached :=
  match table with
  | [] => None
  | (keyword, key) :: rest =>
      if Py.contains keyword query then
        match key with
        | key_list ks => Some (websites (pick ks quick_data))
        | one_key k =>
            match Py.sget k quick_data with
            | Some v => Some (quick_info (Py.title keyword) v)
            | None => quick_loop rest quick_data query
            end
        end
      else quick_loop rest quick_data query
  end.

Definition _search_quick_info (cache_data : cache) (query : string)
  : option cached :=
  quick_loop info_keywords (category "quick_info" cache_data) query.

(** The first-pass keyword lists of [search_cache]. *)
Definition emergency_gate : list string :=
  ["emergency"; "helpline"; "contact"; "phone"; "number"].
Definition government_gate : list string :=
  ["office"; "collector"; "mayor"; "government"].
Definition civic_gate : list string :=
  ["tax"; "certificate"; "license"; "permit"].
Definition zone_gate : list string :=
  ["zone"; "area"; "ward"; "anna nagar"; "adyar"].
Definition quick_gate : list string :=
  ["timing"; "hours"; "schedule"; "website"].

Definition search_cache (cache_data : cache) (query : string) : option cached :=
  let query_lower := Py.lower query in
  if Py.any_in emergency_gate query_lower then
    _search_emergency_contacts cache_data query_lower
  else if Py.any_in government_gate query_lower then
    _search_government_contacts cache_data query_lower
  else if Py.any_in civic_gate query_lower then
    _search_civic_services cache_data query_lower
  else if Py.any_in zone_gate query_lower then
    _search_zone_info cache_data query_lower
  else if Py.any_in quick_gate query_lower then
    _search_quick_info cache_data query_lower
  else None.

(** The dictionary returned by [get_response]: ['message'] is set on the
    two regular branches, ['error'] on the [except] branch. *)
Record response : Type :=
  { success : bool;
    data : option cached;
    source : string;
    message : option string;
    error : option string }.

(** The dictionary built by the [except] branch of [get_response]. *)
Definition failed (exn : string) : response :=
  {| success := false;
     data := None;
     source := "CAG";
     message := None;
     error := Some exn |}.

(** [get_response].  Every search is total on a cache of this type, so the
    [except] branch is not taken; a result dictionary is never empty, so
    [if cached_result] tests for [None]. *)
Definition get_response (cache_data : cache) (query : string) : response :=
  match search_cache cache_data query with
  | Some cached_result =>
      {| success := true;
         data := Some cached_result;
         source := "CAG";
         message := Some ("Retrieved from cache: " +:+ type_of cached_result);
         error := None |}
  | None =>
      {| success := false;
         data := None;
         source := "CAG";
         message := Some "No cached information found for this query";
         error := None |}
  end.

(** [name.replace('_', ' ')] *)
Definition underscores_to_spaces : string -> string :=
  Py.map_str (fun c => if Ascii.eqb c "_" then " "%char else c).

Definition bullet (entry : string * string) : string :=
  "• " +:+ Py.title (underscores_to_spaces (fst entry)) +:+ ": " +:+ snd entry.

Definition format_cached (d : cached) : string :=
  match d with
  | emergency_contact service number availability =>
      "🚨 **" +:+ service +:+ " Emergency**" +:+ NL +:+
      "📞 **Contact:** " +:+ number +:+ NL +:+
      "⏰ **Availability:** " +:+ availability
  | government_contact office number timing =>
      "🏛️ **" +:+ office +:+ "**" +:+ NL +:+
      "📞 **Contact:** " +:+ number +:+ NL +:+
      "⏰ **Timing:** " +:+ timing
  | civic_service service helpline timing =>
      "📋 **" +:+ service +:+ "**" +:+ NL +:+
      "📞 **Helpline:** " +:+ helpline +:+ NL +:+
      "⏰ **Timing:** " +:+ timing
  | zone_contact zone contact services =>
      "📍 **" +:+ zone +:+ " Zone**" +:+ NL +:+
      "📞 **Contact:** " +:+ contact +:+ NL +:+
      "🔧 **Services:** " +:+ services
  | quick_info info_type details =>
      "ℹ️ **" +:+ info_type +:+ "**" +:+ NL +:+
      "📝 **Details:** " +:+ details
  | websites sites =>
      "🌐 **Official Websites:**" +:+ NL +:+
      String.concat NL (map bullet sites)
  | all_emergency_contacts contacts =>
      "🚨 **All Emergency Contacts:**" +:+ NL +:+
      String.concat NL (map bullet contacts)
  end.

(** [format_response]; subscripting a missing ['data'] raises. *)
Definition format_response (response_data : response) : result string :=
  if negb (success response_data) then
    Ok "I couldn't find that information in my cache. Let me search other sources for you."
  else
    match data response_data with
    | Some d => Ok (format_cached d)
    | None => Raise "AttributeError"
    end.

(** The cache file written by the repository (src/script_2.py). *)
Definition civic_cache : cache :=
  [ ("emergency_contacts",
     [ ("fire", "101"); ("police", "100"); ("ambulance", "108");
       ("chennai_corporation", "1913");
       ("cmwssb_complaint", "044-45674567");
       ("electricity_complaint", "044-25675765");
       ("gas_leak", "1906"); ("women_helpline", "1091");
       ("child_helpline", "1098"); ("disaster_management", "108");
       ("flood_helpline", "1913") ]);
    ("government_contacts",
     [ ("collector_office", "044-28520314");
       ("mayor_office", "044-25384681");
       ("district_collector", "044-25620314");
       ("cm_cell", "044-25675765");
       ("tn_police_control", "044-28447095") ]);
    ("civic_services_helplines",
     [ ("property_tax", "1913"); ("water_tax", "044-28451300");
       ("birth_certificate", "044-25384680");
       ("death_certificate", "044-25384680");
       ("trade_license", "044-25384689");
       ("building_permit", "044-25384690");
       ("marriage_registration", "044-25384685") ]);
    ("zone_contacts",
     [ ("zone_1_north", "044-28451300 Ext.233");
       ("zone_2_north_east", "044-28451300 Ext.213");
       ("zone_3_central", "044-28451300 Ext.212");
       ("zone_4_south_west", "044-28451300 Ext.386");
       ("zone_5_south", "044-28451300 Ext.211");
       ("zone_6_adyar", "044-24912345");
       ("zone_7_anna_nagar", "044-26152345");
       ("zone_8_teynampet", "044-24332345") ]);
    ("quick_info",
     [ ("corporation_office_hours", "9:30 AM to 5:30 PM (Monday to Friday)");
       ("emergency_services", "24x7 Available");
       ("water_supply_timings", "6 AM to 8 AM and 6 PM to 8 PM");
       ("garbage_collection", "Daily 6 AM to 10 AM");
       ("property_tax_due_date", "31st March every year");
       ("water_tax_frequency", "Bi-monthly");
       ("corporation_website", "https://chennaicorporation.gov.in");
       ("cmwssb_website", "https://cmwssb.tn.gov.in") ]) ].

End CAG.

(** ** slm_module.py: conversational strategy *)

Module SLM.

(** [_initialize_fallback_responses] *)
Definition fallback_responses : Py.dict string string :=
  [ ("greeting",
     "Hello! I'm CivicMindAI, your Chennai civic assistant. I can help you with civic services, government procedures, emergency contacts, and more. What can I assist you with today?");
    ("who_are_you",
     "I'm CivicMindAI, an AI-powered civic assistant specifically designed to help Chennai residents with civic issues. I use advanced AI technologies like RAG, KAG, and CAG to provide accurate and up-to-date information about municipal services, government procedures, and civic amenities.");
    ("capabilities",
     "I can help you with:" +:+ NL +:+
     "• Emergency contact numbers" +:+ NL +:+
     "• Civic service procedures (water, tax, certificates)" +:+ NL +:+
     "• Government office information" +:+ NL +:+
     "• Municipal service complaints" +:+ NL +:+
     "• Zone-specific contacts" +:+ NL +:+
     "• Latest civic updates and guidelines");
    ("thanks",
     "You're welcome! I'm here to help Chennai residents with civic issues anytime. Feel free to ask if you have more questions about municipal services, government procedures, or civic amenities.");
    ("goodbye",
     "Goodbye! Thank you for using CivicMindAI. Remember, I'm always here to help with your Chennai civic needs. Have a great day!");
    ("help",
     "I'm your Chennai civic assistant! You can ask me about:" +:+ NL +:+
     "• Emergency numbers (fire, police, ambulance)" +:+ NL +:+
     "• Water supply issues and CMWSSB services" +:+ NL +:+
     "• Property tax payment procedures" +:+ NL +:+
     "• Garbage collection schedules" +:+ NL +:+
     "• Birth/death certificate applications" +:+ NL +:+
     "• Municipal office contacts" +:+ NL +:+
     "• And much more civic information!");
    ("how_it_works",
     "I use four advanced AI technologies:" +:+ NL +:+
     "🔍 **RAG**: Searches official documents and web sources" +:+ NL +:+
     "🧠 **KAG**: Uses knowledge graphs for step-by-step procedures" +:+ NL +:+
     "⚡ **CAG**: Provides instant answers from cached information" +:+ NL +:+
     "🤖 **SLM**: Handles general conversation (that's me!)" +:+ NL +:+
     "" +:+ NL +:+
     "I automatically choose the best method based on your question type.");
    ("about_chennai",
     "Chennai, the capital of Tamil Nadu, is served by several civic bodies:" +:+ NL +:+
     "• Greater Chennai Corporation (GCC) - Municipal services" +:+ NL +:+
     "• CMWSSB - Water supply and sewerage" +:+ NL +:+
     "• TANGEDCO - Electricity" +:+ NL +:+
     "• Tamil Nadu Police - Law and order" +:+ NL +:+
     "" +:+ NL +:+
     "I can help you interact with all these services efficiently!");
    ("feedback",
     "I appreciate your feedback! While I can't store it permanently, your input helps me understand how to better assist Chennai residents. If you have specific suggestions about civic services, I recommend contacting the relevant departments directly using the contact numbers I can provide.");
    ("default",
     "I understand you're asking about something civic-related, but I need more specific information to help you properly. Could you please ask about:" +:+ NL +:+
     "• A specific civic service (water, tax, certificates)" +:+ NL +:+
     "• An emergency contact number" +:+ NL +:+
     "• A government procedure" +:+ NL +:+
     "• A municipal office contact" +:+ NL +:+
     "" +:+ NL +:+
     "What exactly can I help you with today?") ].

(** [classify_query_type]: ordered intent rules, first match wins. *)
Definition classify_query_type (query : string) : string :=
  let query_lower := Py.lower query in
  if Py.any_in ["hello"; "hi"; "hey"; "good morning"; "good afternoon";
                "good evening"] query_lower
  then "greeting"
  else if Py.any_in ["who are you"; "what are you"; "tell me about yourself";
                     "introduce yourself"] query_lower
  then "who_are_you"
  else if Py.any_in ["what can you do"; "your capabilities";
                     "what do you help with"; "services"] query_lower
  then "capabilities"
  else if Py.any_in ["thank"; "thanks"; "appreciate"] query_lower
  then "thanks"
  else if Py.any_in ["bye"; "goodbye"; "see you"; "exit"; "quit"] query_lower
  then "goodbye"
  else if Py.any_in ["help"; "assist"; "support"; "guide"] query_lower
  then "help"
  else if Py.any_in ["how do you work"; "how does this work";
                     "explain your system"] query_lower
  then "how_it_works"
  else if Py.any_in ["about chennai"; "chennai city";
                     "tell me about chennai"] query_lower
  then "about_chennai"
  else if Py.any_in ["feedback"; "suggestion"; "improve"; "better"] query_lower
  then "feedback"
  else "default".

(** The module object.  [chat_completion] stands for the external call
    [openai.ChatCompletion.create(...).choices[0].message.content] on the
    user query; [clock] is the [%H:%M:%S] reading used by the footer. *)
Record SLMModule : Type :=
  { model : string;
    client_available : bool;
    chat_completion : string -> result string;
    clock : string }.

(** [generate_openai_response] *)
Definition generate_openai_response (self : SLMModule) (query : string)
  : option string :=
  if negb (client_available self) then None
  else match chat_completion self query with
       | Ok content => Some (Py.strip content)
       | Raise _ => None
       end.

(** The ['data'] dictionary, by its ['method']. *)
Inductive payload : Type :=
| openai_api (response model : string)
| fallback_response (response query_type : string).

Definition response_of (p : payload) : string :=
  match p with
  | openai_api r _ => r
  | fallback_response r _ => r
  end.

Definition method_of (p : payload) : string :=
  match p with
  | openai_api _ _ => "OpenAI API"
  | fallback_response _ _ => "Fallback Response"
  end.

Record response : Type :=
  { success : bool;
    data : option payload;
    source : string;
    message : string;
    error : option string }.

Definition predefined (query : string) : response :=
  let query_type := classify_query_type query in
  match Py.sget "default" fallback_responses with
  | None =>
      (* [self.fallback_responses['default']] raises; the [except] branch *)
      {| success := false; data := None; source := "SLM";
         message := ""; error := Some "KeyError" |}
  | Some default =>
      let fallback_response_text :=
        match Py.sget query_type fallback_responses with
        | Some r => r
        | None => default
        end in
      {| success := true;
         data := Some (fallback_response fallback_response_text query_type);
         source := "SLM";
         message := "Fallback response for query type: " +:+ query_type;
         error := None |}
  end.

(** [get_response] *)
Definition get_response (self : SLMModule) (query : string) : response :=
  if client_available self then
    match generate_openai_response self query with
    | Some openai_response =>
        if Py.truthy openai_response then
          {| success := true;
             data := Some (openai_api openai_response (model self));
             source := "SLM";
             message := "Response generated using " +:+ model self;
             error := None |}
        else predefined query
    | None => predefined query
    end
  else predefined query.

(** [format_response] *)
Definition format_response (self : SLMModule) (response_data : response)
  : result string :=
  if negb (success response_data) then
    Ok "I apologize, but I'm having trouble processing your request right now. Please try asking about specific civic services, and I'll do my best to help!"
  else
    match data response_data with
    | None => Raise "TypeError"
    | Some (openai_api response_text model) =>
        Ok (response_text +:+ NL +:+ NL +:+
            "💬 *Response generated via " +:+ model +:+ " at " +:+
            clock self +:+ "*")
    | Some (fallback_response response_text query_type) =>
        Ok (response_text +:+ NL +:+ NL +:+
            "🤖 *Predefined response for " +:+ query_type +:+ " query*")
    end.

(** The text of a response, empty when there is none. *)
Definition response_text (r : response) : string :=
  match data r with Some p => response_of p | None => "" end.

(** The module as constructed without an API key. *)
Definition offline : SLMModule :=
  {| model := "gpt-3.5-turbo";
     client_available := false;
     chat_completion := fun _ => Raise "unavailable";
     clock := "00:00:00" |}.

End SLM.

(** ** rag_module.py: document strategy *)

Module RAG.

(** A document chunk (its [timestamp] is a clock reading, left out). *)
Record chunk : Type :=
  { id : string;
    content : string;
    source : string;
    chunk_id : nat }.

(** The state of the loop of [_split_document]. *)
Record splitter : Type :=
  { chunks : list chunk;
    current_chunk : string;
    next_id : nat }.

(** [if current_chunk.strip(): chunks.append({...}); chunk_id += 1] *)
Definition flush (filename : string) (st : splitter) : splitter :=
  if Py.truthy (Py.strip (current_chunk st)) then
    {| chunks :=
         chunks st ++
         [ {| id := filename +:+ "_" +:+ Py.str_of_nat (next_id st);
              content := Py.strip (current_chunk st);
              source := filename;
              chunk_id := next_id st |} ];
       current_chunk := current_chunk st;
       next_id := next_id st + 1 |}
  else st.

(** The body of [for paragraph in paragraphs]. *)
Definition split_step (filename : string) (chunk_size : nat)
           (st : splitter) (paragraph : string) : splitter :=
  if String.length (current_chunk st +:+ paragraph) <? chunk_size then
    {| chunks := chunks st;
       current_chunk := current_chunk st +:+ paragraph +:+ Py.nlnl;
       next_id := next_id st |}
  else
    let st' := flush filename st in
    {| chunks := chunks st';
       current_chunk := paragraph +:+ Py.nlnl;
       next_id := next_id st' |}.

(** [_split_document(content, filename, chunk_size)] *)
Definition _split_document (content filename : string) (chunk_size : nat)
  : list chunk :=
  let paragraphs := Py.split_nlnl content in
  let st := fold_left (split_step filename chunk_size) paragraphs
              {| chunks := []; current_chunk := ""; next_id := 0 |} in
  chunks (flush filename st).

(** The default [chunk_size]. *)
Definition default_chunk_size : nat := 500.

(** A local search result: a chunk with its similarity score and rank. *)
Record doc_hit : Type :=
  { hit_chunk : chunk;
    score : Q;
    rank : nat }.

(** The module object.  The embedding model and the FAISS index are
    external; [search_documents] is whatever ranked list they yield (the
    empty list when there is no index, no document, or the search fails). *)
Record RAGModule : Type :=
  { documents : list chunk;
    search_documents : string -> nat -> list doc_hit }.

Record web_result : Type :=
  { title : string;
    url : string;
    snippet : string;        (* the ['content'] entry *)
    origin : string;         (* the ['source'] entry *)
    date : string;
    relevance_score : option Q }.

Definition mock_results (query : string) : list web_result :=
  [ {| title := "Chennai Corporation Latest Updates - October 2025";
       url := "https://chennaicorporation.gov.in/latest-updates";
       snippet := "Recent updates on " +:+ query +:+
                  " in Chennai. New initiatives launched for better civic services.";
       origin := "Chennai Corporation Official";
       date := "2025-10-04";
       relevance_score := None |};
    {| title := "CMWSSB News: " +:+ query +:+ " Services Enhanced";
       url := "https://cmwssb.tn.gov.in/news";
       snippet := "Chennai Metro Water board announces improvements in " +:+
                  query +:+ " related services across the city.";
       origin := "CMWSSB Official";
       date := "2025-10-03";
       relevance_score := None |};
    {| title := "Tamil Nadu Government Portal - " +:+ query;
       url := "https://tn.gov.in/citizen-services";
       snippet := "Official government guidelines and procedures for " +:+
                  query +:+ " in Tamil Nadu.";
       origin := "TN Government";
       date := "2025-10-02";
       relevance_score := None |} ].

(** [result['relevance_score'] = 0.85] *)
Definition with_relevance (r : web_result) : web_result :=
  {| title := title r; url := url r; snippet := snippet r;
     origin := origin r; date := date r;
     relevance_score := Some (85 # 100) |}.

(** [search_web(query, num_results)] *)
Definition search_web (query : string) (num_results : Z) : list web_result :=
  map with_relevance (Py.slice_to num_results (mock_results query)).

Record sources : Type :=
  { found_documents : list doc_hit;     (* ['documents'] *)
    web_sources : list web_result;
    total_sources : nat }.

Record response : Type :=
  { success : bool;
    data : option sources;
    query_of : string;
    message : string }.

Definition no_sources_message : string :=
  "No relevant documents or web sources found".

(** [get_response]; a list is true when it is not empty. *)
Definition get_response (self : RAGModule) (query : string) : response :=
  let doc_results := search_documents self query 3 in
  let web_results := search_web query 2 in
  let all_results :=
    {| found_documents := doc_results;
       web_sources := web_results;
       total_sources := length doc_results + length web_results |} in
  if negb (Nat.eqb (length doc_results) 0)
     || negb (Nat.eqb (length web_results) 0)
  then
    {| success := true;
       data := Some all_results;
       query_of := query;
       message := "Found " +:+ Py.str_of_nat (total_sources all_results) +:+
                  " relevant sources" |}
  else
    {| success := false;
       data := None;
       query_of := query;
       message := no_sources_message |}.

End RAG.

(** ** kag_module.py: knowledge graph construction *)

Module KAG.

(** A JSON value stored as a node or edge attribute. *)
Inductive value : Type :=
| VStr (s : string)
| VNum (n : Z)
| VList (l : list string)
| VObj (o : Py.dict string Z).

Definition attrs : Type := gmap string value.

(** A [networkx.DiGraph]: attribute dictionaries of the nodes and of the
    directed edges. *)
Record graph : Type :=
  { nodes : gmap string attrs;
    edges : gmap (string * string) attrs }.

Definition empty_graph : graph := {| nodes := ∅; edges := ∅ |}.

(** [G.add_node(n, **attr)]: a new node gets [attr]; on an existing node
    the attributes are updated. *)
Definition add_node (n : string) (attr : attrs) (g : graph) : graph :=
  {| nodes := <[ n := attr ∪ default ∅ (nodes g !! n) ]> (nodes g);
     edges := edges g |}.

(** What [add_edge] does to an endpoint: created without attributes when
    it is not yet a node. *)
Definition ensure_node (n : string) (ns : gmap string attrs)
  : gmap string attrs :=
  match ns !! n with
  | Some _ => ns
  | None => <[ n := ∅ ]> ns
  end.

(** [G.add_edge(u, v, **attr)] *)
Definition add_edge (u v : string) (attr : attrs) (g : graph) : graph :=
  {| nodes := ensure_node v (ensure_node u (nodes g));
     edges := <[ (u, v) := attr ∪ default ∅ (edges g !! (u, v)) ]> (edges g) |}.

(** The graph snapshot ([civic_knowledge.json]). *)
Record department : Type :=
  { dept_id : string; dept_name : string; dept_type : string }.
Record service : Type :=
  { service_id : string; service_name : string; service_department : string }.
Record issue : Type :=
  { issue_id : string; issue_name : string; issue_service : string }.
Record procedure : Type :=
  { title : string;
    proc_department : string;
    steps : list string;
    timeline : option value;
    fees : option value;
    contact : option value }.
Record relationship : Type :=
  { rel_from : string; rel_to : string; rel_type : string }.

Record knowledge : Type :=
  { departments : list department;
    services : list service;
    issues : list issue;
    procedures : Py.dict string procedure;
    relationships : list relationship }.

(** [self.knowledge_data = {}] *)
Definition no_knowledge : knowledge :=
  {| departments := []; services := []; issues := [];
     procedures := []; relationships := [] |}.

Definition relation (r : string) : attrs := {[ "relation" := VStr r ]}.

Definition add_department (g : graph) (dept : department) : graph :=
  add_node (dept_id dept)
    (<[ "name" := VStr (dept_name dept) ]>
       (<[ "type" := VStr "department" ]>
          {[ "node_type" := VStr (dept_type dept) ]})) g.

Definition add_service (g : graph) (s : service) : graph :=
  add_edge (service_id s) (service_department s) (relation "managed_by")
    (add_node (service_id s)
       (<[ "name" := VStr (service_name s) ]>
          (<[ "type" := VStr "service" ]>
             {[ "department" := VStr (service_department s) ]})) g).

Definition add_issue (g : graph) (i : issue) : graph :=
  add_edge (issue_id i) (issue_service i) (relation "relates_to")
    (add_node (issue_id i)
       (<[ "name" := VStr (issue_name i) ]>
          (<[ "type" := VStr "issue" ]>
             {[ "service" := VStr (issue_service i) ]})) g).

Definition add_procedure (g : graph) (entry : string * procedure) : graph :=
  let (proc_id, proc_data) := entry in
  add_node proc_id
    (<[ "name" := VStr (title proc_data) ]>
       (<[ "type" := VStr "procedure" ]>
          (<[ "department" := VStr (proc_department proc_data) ]>
             (<[ "steps" := VList (steps proc_data) ]>
                (<[ "timeline" := default (VStr "Unknown") (timeline proc_data) ]>
                   (<[ "fees" := default (VStr "N/A") (fees proc_data) ]>
                      {[ "contact" := default (VStr "N/A") (contact proc_data) ]}))))))
    g.

Definition add_relationship (g : graph) (rel : relationship) : graph :=
  add_edge (rel_from rel) (rel_to rel) (relation (rel_type rel)) g.

(** The graph-building statements of [build_knowledge_graph], in order. *)
Definition build (kd : knowledge) (g : graph) : graph :=
  let g1 := fold_left add_department (departments kd) g in
  let g2 := fold_left add_service (services kd) g1 in
  let g3 := fold_left add_issue (issues kd) g2 in
  let g4 := fold_left add_procedure (procedures kd) g3 in
  fold_left add_relationship (relationships kd) g4.

(** The module object; [logger] tells whether [self.logger] is bound. *)
Record KAGModule : Type :=
  { knowledge_data : knowledge;
    knowledge_graph : graph;
    logger : bool }.

(** A method acts on the object and returns or raises. *)
Definition effect : Type := (KAGModule * result unit)%type.

(** A call [self.logger.info/warning/error(...)]. *)
Definition log (self : KAGModule) : result unit :=
  if logger self then Ok tt else Raise "AttributeError".

(** [load_knowledge].  [file] is [None] when the path does not exist and
    [Some (Raise _)] when reading or parsing fails.  Each branch ends in a
    logging call; when that call raises inside [try], the handler's own
    logging call raises again and the exception leaves the method. *)
Definition load_knowledge (file : option (result knowledge))
           (self : KAGModule) : effect :=
  let self' :=
    match file with
    | Some (Ok kd) =>
        {| knowledge_data := kd;
           knowledge_graph := knowledge_graph self;
           logger := logger self |}
    | _ => self
    end in
  (self', log self').

(** [build_knowledge_graph].  On a snapshot of this type no statement of
    the [try] body raises before the final logging call. *)
Definition build_knowledge_graph (self : KAGModule) : effect :=
  let self' :=
    {| knowledge_data := knowledge_data self;
       knowledge_graph := build (knowledge_data self) (knowledge_graph self);
       logger := logger self |} in
  (self', log self').

(** [KAGModule(knowledge_file)]: the logger is bound last. *)
Definition init (file : option (result knowledge)) : result KAGModule :=
  let self :=
    {| knowledge_data := no_knowledge;
       knowledge_graph := empty_graph;
       logger := false |} in
  match load_knowledge file self with
  | (_, Raise e) => Raise e
  | (self1, Ok _) =>
      match build_knowledge_graph self1 with
      | (_, Raise e) => Raise e
      | (self2, Ok _) =>
          Ok {| knowledge_data := knowledge_data self2;
                knowledge_graph := knowledge_graph self2;
                logger := true |}
      end
  end.

(** The node ids a snapshot declares. *)
Definition declared (kd : knowledge) : list string :=
  map dept_id (departments kd) ++ map service_id (services kd) ++
  map issue_id (issues kd) ++ Py.keys (procedures kd).



End KAG.

(** ** agent_controller.py: dispatch *)

Module Controller.
Import Router.

(** What [route_query] asks of a module object. *)
Record AIModule : Type :=
  { response : Type;
    get_response : string -> result response;
    succeeded : response -> bool;            (* [response.get('success', False)] *)
    format_response : response -> result string }.

Definition of_cag (cache_data : CAG.cache) : AIModule :=
  {| response := CAG.response;
     get_response := fun q => Ok (CAG.get_response cache_data q);
     succeeded := CAG.success;
     format_response := CAG.format_response |}.

Definition of_slm (slm : SLM.SLMModule) : AIModule :=
  {| response := SLM.response;
     get_response := fun q => Ok (SLM.get_response slm q);
     succeeded := SLM.success;
     format_response := SLM.format_response slm |}.

(** The controller object: a module that failed to initialise is absent,
    and its availability flag is false. *)
Record AgentController : Type :=
  { rag_module : option AIModule;
    kag_module : option AIModule;
    cag_module : option AIModule;
    slm_module : option AIModule }.

Definition available (m : option AIModule) : bool :=
  match m with Some _ => true | None => false end.

Definition rag_available (self : AgentController) := available (rag_module self).
Definition kag_available (self : AgentController) := available (kag_module self).
Definition cag_available (self : AgentController) := available (cag_module self).
Definition slm_available (self : AgentController) := available (slm_module self).

(** The module object behind a routing key. *)
Definition module_of (self : AgentController) (m : module_name)
  : option AIModule :=
  match m with
  | CAG => cag_module self
  | RAG => rag_module self
  | KAG => kag_module self
  | SLM => slm_module self
  end.

Record controller_response : Type :=
  { success : bool;
    response_text : string;
    selected_module : string;
    routing_analysis : analysis;
    error : option string }.

(** [response = m.get_response(query); formatted = m.format_response(response)] *)
Definition ask (m : AIModule) (query : string) : result (bool * string) :=
  match get_response m query with
  | Raise e => Raise e
  | Ok r =>
      match format_response m r with
      | Raise e => Raise e
      | Ok formatted => Ok (succeeded m r, formatted)
      end
  end.

Definition no_modules_text : string :=
  "I apologize, but I'm currently unable to process your request. Please try again later.".

Definition routing_error_text : string :=
  "I encountered an error processing your request. Please try rephrasing your question.".

(** The [try] body of [route_query]: the reply and the final value of
    [selected_module]. *)
Definition dispatch (self : AgentController) (query : string)
           (selected : module_name) : result (bool * string * string) :=
  let served (m : AIModule) (label : string) :=
    match ask m query with
    | Ok (ok, formatted) => Ok (ok, formatted, label)
    | Raise e => Raise e
    end in
  match selected, cag_module self, rag_module self, kag_module self,
        slm_module self with
  | CAG, Some m, _, _, _ => served m (name selected)
  | RAG, _, Some m, _, _ => served m (name selected)
  | KAG, _, _, Some m, _ => served m (name selected)
  | SLM, _, _, _, Some m => served m (name selected)
  | _, _, _, _, Some slm => served slm "SLM"
  | _, _, _, _, None => Ok (false, no_modules_text, name selected)
  end.

(** [route_query]; [analyze_query] is called outside the [try]. *)
Definition route_query (self : AgentController) (query : string)
  : result controller_response :=
  match analyze_query query with
  | Raise e => Raise e
  | Ok analysis =>
      let selected := Router.selected_module analysis in
      match dispatch self query selected with
      | Ok (ok, formatted, label) =>
          Ok {| success := ok;
                response_text := formatted;
                selected_module := label;
                routing_analysis := analysis;
                error := None |}
      | Raise e =>
          Ok {| success := false;
                response_text := routing_error_text;
                selected_module := name selected;
                routing_analysis := analysis;
                error := Some e |}
      end
  end.

End Controller.

(** ** kag_module.py: queries over the graph *)

Module KAGQuery.
Import KAG.

(** The keyword table of [find_procedure]. *)
Definition procedure_keywords : Py.dict string string :=
  [ ("water connection", "water_connection_new");
    ("new water connection", "water_connection_new");
    ("apply water", "water_connection_new");
    ("property tax", "property_tax_payment");
    ("pay tax", "property_tax_payment");
    ("tax payment", "property_tax_payment");
    ("street light", "street_light_repair");
    ("light repair", "street_light_repair");
    ("street lamp", "street_light_repair");
    ("birth certificate", "birth_certificate");
    ("birth cert", "birth_certificate") ].

(** The dictionary returned by [find_procedure]. *)
Record procedure_info : Type :=
  { procedure_id : string;
    info_title : value;          (* [node_data['name']] *)
    info_department : value;     (* [node_data['department']] *)
    details : procedure }.

(** The loop of [find_procedure]; subscripting a node that lacks the
    attribute raises [KeyError]. *)
Fixpoint find_loop (table : Py.dict string string) (g : graph)
         (kd : knowledge) (query_lower : string)
  : result (option procedure_info) :=
  match table with
  | [] => Ok None
  | (keyword, proc_id) :: rest =>
      if Py.contains keyword query_lower then
        match nodes g !! proc_id with
        | Some node_data =>
            match Py.sget proc_id (procedures kd) with
            | Some proc_data =>
                match node_data !! "name", node_data !! "department" with
                | Some name, Some dept =>
                    Ok (Some {| procedure_id := proc_id;
                                info_title := name;
                                info_department := dept;
                                details := proc_data |})
                | _, _ => Raise "KeyError"
                end
            | None => find_loop rest g kd query_lower
            end
        | None => find_loop rest g kd query_lower
        end
      else find_loop rest g kd query_lower
  end.

(** [find_procedure] *)
Definition find_procedure (self : KAGModule) (query : string)
  : result (option procedure_info) :=
  find_loop procedure_keywords (knowledge_graph self) (knowledge_data self)
            (Py.lower query).

(** One step of a reasoning chain. *)
Record reasoning_step : Type :=
  { step : nat;
    action : string;
    outcome : string;             (* the ['result'] entry *)
    node : option string;
    step_details : option string }.

(** [multi_hop_reasoning] *)
Definition multi_hop_reasoning (query : string) : list reasoning_step :=
  let query_lower := Py.lower query in
  if Py.contains "repair" query_lower
     && (Py.contains "water" query_lower || Py.contains "pipeline" query_lower)
  then
    [ {| step := 1; action := "Identify Issue";
         outcome := "Water pipeline repair needed";
         node := Some "pipeline_leak"; step_details := None |};
      {| step := 2; action := "Find Responsible Service";
         outcome := "Water Supply Service";
         node := Some "water_supply"; step_details := None |};
      {| step := 3; action := "Find Responsible Department";
         outcome := "Chennai Metro Water Supply and Sewerage Board (CMWSSB)";
         node := Some "cmwssb"; step_details := None |};
      {| step := 4; action := "Get Contact Information";
         outcome := "Call CMWSSB complaint cell: 044-45674567";
         node := None;
         step_details := Some "Available 24x7 for emergency repairs" |} ]
    ++ (if Py.contains "anna nagar" query_lower
        then [ {| step := 5; action := "Area-specific Contact";
                  outcome := "Anna Nagar falls under North Zone";
                  node := None;
                  step_details := Some "Zone contact: 044-28451300 Ext.233" |} ]
        else [])
  else if Py.contains "property tax" query_lower
          && (Py.contains "pay" query_lower || Py.contains "how" query_lower)
  then
    [ {| step := 1; action := "Identify Service";
         outcome := "Property Tax Payment";
         node := Some "property_tax"; step_details := None |};
      {| step := 2; action := "Find Department";
         outcome := "Greater Chennai Corporation (GCC)";
         node := Some "gcc"; step_details := None |};
      {| step := 3; action := "Get Procedure";
         outcome := "Online payment procedure available";
         node := Some "property_tax_payment"; step_details := None |} ]
  else [].

End KAGQuery.

(** ** Construction of the module objects and of the controller *)

Module Startup.

(** *** [CAGModule.__init__] *)

(** The cache object while it is constructed; [cag_logger] tells whether
    [self.logger] is bound. *)
Record CAGObject : Type :=
  { cache_data : CAG.cache;
    cag_logger : bool }.

(** A call [self.logger.info/warning/error(...)]. *)
Definition cag_log (self : CAGObject) : result unit :=
  if cag_logger self then Ok tt else Raise "AttributeError".

(** [load_cache].  [file] is [None] when the path does not exist and
    [Some (Raise _)] when reading or parsing fails.  Each branch ends in a
    logging call, and so does the handler of a logging call that raised. *)
Definition load_cache (file : option (result CAG.cache)) (self : CAGObject)
  : CAGObject * result unit :=
  let self' :=
    match file with
    | Some (Ok c) => {| cache_data := c; cag_logger := cag_logger self |}
    | _ => self
    end in
  (self', cag_log self').

(** [CAGModule(cache_file_path)]: the logger is bound after [load_cache]. *)
Definition cag_init (file : option (result CAG.cache)) : result CAG.cache :=
  let self := {| cache_data := []; cag_logger := false |} in
  match load_cache file self with
  | (_, Raise e) => Raise e
  | (self1, Ok _) => Ok (cache_data self1)
  end.

(** *** [RAGModule.__init__] *)

Record RAGObject : Type :=
  { documents : list RAG.chunk;
    rag_logger : bool }.

Definition rag_log (self : RAGObject) : result unit :=
  if rag_logger self then Ok tt else Raise "AttributeError".

(** [s.endswith(suffix)] *)
Fixpoint ends_with (suffix s : string) : bool :=
  String.eqb suffix s ||
  match s with
  | "" => false
  | String _ s' => ends_with suffix s'
  end.

(** The loop of [load_documents] over the directory listing: each [.txt]
    file is read and split, and a read that fails ends the loop with the
    chunks gathered so far; the flag tells whether the loop ran to its end. *)
Fixpoint read_files (listing : list (string * result string))
         (acc : list RAG.chunk) : list RAG.chunk * bool :=
  match listing with
  | [] => (acc, true)
  | (filename, file) :: rest =>
      if ends_with ".txt" filename then
        match file with
        | Ok content =>
            read_files rest
              (acc ++ RAG._split_document content filename
                                          RAG.default_chunk_size)
        | Raise _ => (acc, false)
        end
      else read_files rest acc
  end.

(** [load_documents].  [dir] is [None] when the directory does not exist.
    Every path through the method ends in a logging call. *)
Definition load_documents (dir : option (list (string * result string)))
           (self : RAGObject) : RAGObject * result unit :=
  let self' :=
    match dir with
    | None => self
    | Some listing =>
        {| documents := fst (read_files listing (documents self));
           rag_logger := rag_logger self |}
    end in
  (self', rag_log self').

(** [create_index]: with no documents it warns and returns; otherwise it
    builds the index and logs, or logs the failure. *)
Definition create_index (self : RAGObject) : RAGObject * result unit :=
  (self, rag_log self).

(** [RAGModule(docs_path)]; [searcher] stands for the search that the
    embedding model and the index built over the documents provide. *)
Definition rag_init (dir : option (list (string * result string)))
           (searcher : list RAG.chunk -> string -> nat -> list RAG.doc_hit)
  : result RAG.RAGModule :=
  let self := {| documents := []; rag_logger := false |} in
  match load_documents dir self with
  | (_, Raise e) => Raise e
  | (self1, Ok _) =>
      match create_index self1 with
      | (_, Raise e) => Raise e
      | (self2, Ok _) =>
          Ok {| RAG.documents := documents self2;
                RAG.search_documents := searcher (documents self2) |}
      end
  end.

(** *** [SLMModule.__init__] *)

(** [api_key or os.getenv('OPENAI_API_KEY')] *)
Definition key_or (api_key env_key : option string) : option string :=
  match api_key with
  | Some k => if Py.truthy k then Some k else env_key
  | None => env_key
  end.

Definition key_truthy (k : option string) : bool :=
  match k with Some s => Py.truthy s | None => false end.

(** [SLMModule(api_key, model)]: the logger is bound before any use. *)
Definition slm_init (openai_installed : bool) (api_key env_key : option string)
           (model : string) (chat_completion : string -> result string)
           (clock : string) : SLM.SLMModule :=
  {| SLM.model := model;
     SLM.client_available := openai_installed && key_truthy (key_or api_key env_key);
     SLM.chat_completion := chat_completion;
     SLM.clock := clock |}.

(** *** [AgentController.__init__] *)

(** What the constructors find outside the program. *)
Record environment : Type :=
  { docs_dir : option (list (string * result string));
    knowledge_file : option (result KAG.knowledge);
    cache_file : option (result CAG.cache);
    searcher : list RAG.chunk -> string -> nat -> list RAG.doc_hit;
    openai_installed : bool;
    env_api_key : option string;
    chat_completion : string -> result string;
    clock : string }.

Section Controller.
(** The methods of the document and graph objects that are not modelled
    here are taken as given. *)
Context (of_rag : RAG.RAGModule -> Controller.AIModule)
        (of_kag : KAG.KAGModule -> Controller.AIModule).

(** [try: self.x_module = XModule(); self.x_available = True
     except Exception: self.x_available = False] *)
Definition attempt {A : Type} (made : result A)
           (wrap : A -> Controller.AIModule) : option Controller.AIModule :=
  match made with
  | Ok m => Some (wrap m)
  | Raise _ => None
  end.

(** [AgentController()] *)
Definition controller_init (env : environment) : Controller.AgentController :=
  {| Controller.rag_module :=
       attempt (rag_init (docs_dir env) (searcher env)) of_rag;
     Controller.kag_module := attempt (KAG.init (knowledge_file env)) of_kag;
     Controller.cag_module :=
       attempt (cag_init (cache_file env)) Controller.of_cag;
     Controller.slm_module :=
       Some (Controller.of_slm
               (slm_init (openai_installed env) None (env_api_key env)
                         "gpt-3.5-turbo" (chat_completion env) (clock env))) |}.

End Controller.

End Startup.

(** ** agent_controller.py: the status report *)

Module Status.
Import Router Controller.

(** [self.routing_patterns[m]['description']] *)
Definition description_of (m : module_name) : result string :=
  match Py.get module_eqb m routing_patterns with
  | Some c => Ok (description c)
  | None => Raise "KeyError"
  end.

Record module_status : Type :=
  { is_available : bool;
    status_description : string }.

Record status : Type :=
  { modules : Py.dict string module_status;
    total_available : nat;
    controller_status : string }.

(** [get_module_status]; a flag counts as 1 in the sum when it is set. *)
Definition get_module_status (self : AgentController) : result status :=
  match description_of RAG, description_of KAG,
        description_of CAG, description_of SLM with
  | Ok rag, Ok kag, Ok cag, Ok slm =>
      Ok {| modules :=
              [ ("RAG", {| is_available := rag_available self;
                           status_description := rag |});
                ("KAG", {| is_available := kag_available self;
                           status_description := kag |});
                ("CAG", {| is_available := cag_available self;
                           status_description := cag |});
                ("SLM", {| is_available := slm_available self;
                           status_description := slm |}) ];
            total_available :=
              Py.sum (map Nat.b2n [ rag_available self; kag_available self;
                                    cag_available self; slm_available self ]);
            controller_status := "Active" |}
  | _, _, _, _ => Raise "KeyError"
  end.

End Status.

(** ** agent_controller.py: the confidence as the code returns it *)

Module Confidence.
Import Router.

(** [float(n)] for a natural number: exact below 2^53, where adding 1.0 is
    exact. *)
Fixpoint float_of_nat (n : nat) : PrimFloat.float :=
  match n with
  | 0 => PrimFloat.zero
  | S n' => PrimFloat.add (float_of_nat n') PrimFloat.one
  end.

(** [a / b] on two integers: the binary64 division of their conversions,
    which is the correctly rounded quotient below 2^53. *)
Definition true_div (a b : nat) : PrimFloat.float :=
  PrimFloat.div (float_of_nat a) (float_of_nat b).

(** [best_score / max(sum(scores.values()), 1)], the ['confidence'] entry
    as [analyze_query] returns it. *)
Definition reported (a : analysis) : PrimFloat.float :=
  true_div (Z.to_nat (Qnum (confidence a))) (Pos.to_nat (Qden (confidence a))).

End Confidence.

(** * Vocabulary of the statements *)

Module RouterSpec.
Import Router.

(** The entry of a module in the routing table. *)
Definition config_of (m : module_name) : config :=
  match Py.get module_eqb m routing_patterns with
  | Some cfg => cfg
  | None => {| keywords := []; patterns := []; description := "" |}
  end.

(** How many of the module's keywords occur in the lower-cased query. *)
Definition keyword_hits (query_lower : string) (m : module_name) : nat :=
  length (List.filter (fun kw => Py.contains kw query_lower) (keywords (config_of m))).

(** How many of the module's patterns match somewhere in it. *)
Definition pattern_hits (query_lower : string) (m : module_name) : nat :=
  length (List.filter (fun p => Re.search (compiled p) query_lower)
                 (patterns (config_of m))).

(** The score as the specification words it: weight 1 for a keyword,
    weight 2 for a pattern. *)
Definition weighted_hits (query : string) (m : module_name) : nat :=
  keyword_hits (Py.lower query) m + 2 * pattern_hits (Py.lower query) m.

(** The score dictionary that the scoring loop leaves for a query. *)
Definition query_scores (query : string) : score_dict :=
  fst (tally_of (Py.lower query)).

Definition score (query : string) (m : module_name) : nat :=
  score_of (query_scores query) m.

(** No keyword and no pattern of any module matches the query. *)
Definition nothing_matches (query : string) : Prop :=
  forall m : module_name,
    (forall kw, In kw (keywords (config_of m)) ->
                Py.contains kw (Py.lower query) = false) /\
    (forall p, In p (patterns (config_of m)) ->
               Re.search (compiled p) (Py.lower query) = false).

(** A score dictionary with the four keys in their insertion order. *)
Definition four (a b c d : nat) : score_dict :=
  [(CAG, a); (RAG, b); (KAG, c); (SLM, d)].

(** What a match of module [m] with weight [w] adds to the score of [m']. *)
Definition share (m m' : module_name) (w : nat) : nat :=
  if module_eqb m m' then w else 0.

(** [m] attains the highest score on the query. *)
Definition top (query : string) (m : module_name) : Prop :=
  forall m', score query m' <= score query m.

End RouterSpec.

Module CacheSpec.
Import CAG.

(** The keyword tables of the cache strategy. *)
Inductive table_id : Type := Emergency | Government | Civic | Zone | Quick.

(** The first-pass test of [search_cache]: the table a query is sent to. *)
Definition route (query_lower : string) : option table_id :=
  if Py.any_in emergency_gate query_lower then Some Emergency
  else if Py.any_in government_gate query_lower then Some Government
  else if Py.any_in civic_gate query_lower then Some Civic
  else if Py.any_in zone_gate query_lower then Some Zone
  else if Py.any_in quick_gate query_lower then Some Quick
  else None.

(** The entries of the quick-info table that name one cache key. *)
Definition quick_keywords : Py.dict string string :=
  [ ("office hours", "corporation_office_hours");
    ("timing", "corporation_office_hours");
    ("water supply", "water_supply_timings");
    ("garbage", "garbage_collection");
    ("tax due", "property_tax_due_date") ].

(** Keyword to cache key. *)
Definition table (t : table_id) : Py.dict string string :=
  match t with
  | Emergency => emergency_keywords
  | Government => gov_keywords
  | Civic => service_keywords
  | Zone => zone_keywords
  | Quick => quick_keywords
  end.

(** The cache category a table reads. *)
Definition partition_name (t : table_id) : string :=
  match t with
  | Emergency => "emergency_contacts"
  | Government => "government_contacts"
  | Civic => "civic_services_helplines"
  | Zone => "zone_contacts"
  | Quick => "quick_info"
  end.

(** The result type a table declares. *)
Definition kind (t : table_id) : string :=
  match t with
  | Emergency => "emergency_contact"
  | Government => "government_contact"
  | Civic => "civic_service"
  | Zone => "zone_contact"
  | Quick => "quick_info"
  end.

(** The result a table builds from a keyword, its key and the cached value. *)
Definition found (t : table_id) (keyword key value : string) : cached :=
  match t with
  | Emergency =>
      emergency_contact (Py.title keyword) value (availability_of key)
  | Government =>
      government_contact (Py.title keyword) value
                         "Office hours (9:30 AM - 5:30 PM)"
  | Civic => civic_service (Py.title keyword) value "Office hours"
  | Zone =>
      zone_contact (Py.title keyword) value
                   "Water supply, complaints, maintenance"
  | Quick => quick_info (Py.title keyword) value
  end.

(** The value cached under a key of the table's category. *)
Definition loaded (cache_data : cache) (t : table_id) (key : string)
  : option string :=
  Py.sget key (category (partition_name t) cache_data).

(** No entry of [pre] is both named in the query and loaded. *)
Definition none_earlier (cache_data : cache) (t : table_id)
           (pre : Py.dict string string) (query_lower : string) : Prop :=
  forall kw key,
    In (kw, key) pre ->
    Py.contains kw query_lower = true ->
    loaded cache_data t key = None.

(** The zone a result names, if it is a zone contact. *)
Definition zone_of (r : cached) : option string :=
  match r with
  | zone_contact zone _ _ => Some zone
  | _ => None
  end.

(** A cache whose zone category lacks the North entry. *)
Definition north_east_only : cache :=
  [ ("zone_contacts", [ ("zone_2_north_east", "044-28451300 Ext.213") ]) ].

End CacheSpec.

Module ControllerSpec.
Import Router Controller.

(** The router's pick for a query. *)
Definition pick (query : string) : module_name :=
  match analyze_query query with
  | Ok a => Router.selected_module a
  | Raise _ => SLM
  end.

(** The footer that [SLM.format_response] puts under a predefined text. *)
Definition predefined_footer (query_type : string) : string :=
  NL +:+ NL +:+ "🤖 *Predefined response for " +:+ query_type +:+ " query*".

(** The completion service gave nothing usable for the query. *)
Definition no_completion (slm : SLM.SLMModule) (query : string) : Prop :=
  SLM.generate_openai_response slm query = None \/
  SLM.generate_openai_response slm query = Some "".

(** A controller on which only the conversational module initialised. *)
Definition only_slm : AgentController :=
  {| rag_module := None;
     kag_module := None;
     cag_module := None;
     slm_module := Some (of_slm SLM.offline) |}.

(** A controller whose cache module initialised on an empty cache. *)
Definition empty_cache : AgentController :=
  {| rag_module := None;
     kag_module := None;
     cag_module := Some (of_cag []);
     slm_module := Some (of_slm SLM.offline) |}.

(** A cache module whose search raises (a cache file of another shape):
    [get_response] answers with the dictionary of its [except] branch. *)
Definition failing_cag : AIModule :=
  {| response := CAG.response;
     get_response := fun _ => Ok (CAG.failed "TypeError");
     succeeded := CAG.success;
     format_response := CAG.format_response |}.

(** A controller holding that cache module. *)
Definition failing_cache : AgentController :=
  {| rag_module := None;
     kag_module := None;
     cag_module := Some failing_cag;
     slm_module := Some (of_slm SLM.offline) |}.

End ControllerSpec.

Module ChunkSpec.

(** The chunk bodies of a document, in order. *)
Definition bodies (content filename : string) (chunk_size : nat) : list string :=
  map RAG.content (RAG._split_document content filename chunk_size).

(** The length of the longest text of a list. *)
Definition longest (ps : list string) : nat :=
  fold_right Nat.max 0 (map String.length ps).

(** The length of the largest paragraph of a document. *)
Definition largest_paragraph (content : string) : nat :=
  longest (Py.split_nlnl content).

(** A text that is not empty and has no white space at either end. *)
Definition tidy (p : string) : Prop := p <> "" /\ Py.strip p = p.

(** [s.replace("\n\n", "")]: the text with its paragraph separators removed. *)
Definition remove_nlnl (s : string) : string :=
  String.concat "" (Py.split_nlnl s).

(** The loop invariant for the size bound: the closed bodies are within
    the bound, and so is the running chunk before its last separator. *)
Definition bounded_state (bound : nat) (st : RAG.splitter) : Prop :=
  Forall (fun b => String.length b <= bound)
         (map RAG.content (RAG.chunks st)) /\
  (RAG.current_chunk st = "" \/
   exists x, RAG.current_chunk st = x +:+ Py.nlnl /\ String.length x <= bound).

(** [n] copies of a character. *)
Fixpoint run_of (c : ascii) (n : nat) : string :=
  match n with
  | 0 => ""
  | S n' => String c (run_of c n')
  end.

(** A document of two tidy paragraphs that do not fit one chunk. *)
Definition two_paragraphs : string :=
  run_of "a" 300 +:+ Py.nlnl +:+ run_of "b" 300.

End ChunkSpec.

Module GraphSpec.
Import KAG.

Definition has_node (g : graph) (n : string) : Prop := is_Some (nodes g !! n).

Definition has_edge (g : graph) (u v : string) : Prop :=
  is_Some (edges g !! (u, v)).

(** Not yet a node, or a node without attributes. *)
Definition bare (g : graph) (n : string) : Prop :=
  nodes g !! n = None \/ nodes g !! n = Some ∅.

(** A snapshot with one department and one relationship, neither endpoint
    of which is a declared node. *)
Definition stray_relationship : relationship :=
  {| rel_from := "pothole"; rel_to := "roads_dept"; rel_type := "handled_by" |}.

Definition stray_snapshot : knowledge :=
  {| departments :=
       [ {| dept_id := "gcc"; dept_name := "Greater Chennai Corporation";
            dept_type := "government" |} ];
     services := [];
     issues := [];
     procedures := [];
     relationships := [ stray_relationship ] |}.

(** A module object holding a snapshot and an empty graph. *)
Definition holding (kd : knowledge) (with_logger : bool) : KAGModule :=
  {| knowledge_data := kd;
     knowledge_graph := empty_graph;
     logger := with_logger |}.

End GraphSpec.

(** * Vocabulary of the further properties *)

Module RouterNotes.
Import Router RouterSpec.

(** A dictionary with the four keys in their insertion order. *)
Definition quad {V : Type} (a b c d : V) : Py.dict module_name V :=
  [(CAG, a); (RAG, b); (KAG, c); (SLM, d)].

(** What module [m] contributes to the notes of module [m']. *)
Definition notes_for (m m' : module_name) (l : list string) : list string :=
  if module_eqb m m' then l else [].

(** The notes of the keywords of a list that occur in the query. *)
Definition keyword_notes (query_lower : string) (kws : list string)
  : list string :=
  map (fun kw => "keyword: " +:+ kw)
      (List.filter (fun kw => Py.contains kw query_lower) kws).

(** The notes of the patterns of a list that match the query. *)
Definition pattern_notes (query_lower : string) (ps : list pattern)
  : list string :=
  map (fun p => "pattern: " +:+ source p)
      (List.filter (fun p => Re.search (compiled p) query_lower) ps).

(** The notes of a module: its matched keywords, then its matched
    patterns, each in table order. *)
Definition notes_of (query : string) (m : module_name) : list string :=
  keyword_notes (Py.lower query) (keywords (config_of m))
  ++ pattern_notes (Py.lower query) (patterns (config_of m)).

(** The most a module can score: every keyword and every pattern of its
    entry matched. *)
Definition cap (m : module_name) : nat :=
  length (keywords (config_of m)) + 2 * length (patterns (config_of m)).

(** The most the four scores can add up to. *)
Definition total_cap : nat := cap CAG + cap RAG + cap KAG + cap SLM.

(** A double between 0.0 and 1.0. *)
Definition in_unit (f : PrimFloat.float) : bool :=
  PrimFloat.leb PrimFloat.zero f && PrimFloat.leb f PrimFloat.one.

(** Every quotient [b / t] with [b <= t] and [1 <= t <= n] is between 0.0
    and 1.0. *)
Definition quotients_in_unit (n : nat) : bool :=
  forallb (fun t => forallb (fun b => in_unit (Confidence.true_div b t))
                            (seq 0 (S t)))
          (seq 1 n).

End RouterNotes.

Module DispatchSpec.
Import Router Controller ControllerSpec.

(** The module object that [route_query] consults for a routing key: the
    picked module when it is present, otherwise the conversational one. *)
Definition consulted (self : AgentController) (selected : module_name)
  : option AIModule :=
  match module_of self selected with
  | Some m => Some m
  | None => slm_module self
  end.

(** The four labels a response can carry. *)
Definition module_names : list string := ["CAG"; "RAG"; "KAG"; "SLM"].

(** A module object whose [get_response] raises. *)
Definition raising_module : AIModule :=
  {| response := unit;
     get_response := fun _ => Raise "RuntimeError";
     succeeded := fun _ => false;
     format_response := fun _ => Ok "" |}.

(** A controller whose only module is one that raises, as the
    conversational module. *)
Definition raising_fallback : AgentController :=
  {| rag_module := None;
     kag_module := None;
     cag_module := None;
     slm_module := Some raising_module |}.

(** A controller on which no module initialised. *)
Definition no_modules : AgentController :=
  {| rag_module := None;
     kag_module := None;
     cag_module := None;
     slm_module := None |}.

End DispatchSpec.

Module CacheMore.
Import CAG CacheSpec.

(** The two cache keys behind the "website" keyword. *)
Definition website_keys : list string :=
  ["corporation_website"; "cmwssb_website"].

(** What [search_cache] can return for a query: a keyword hit of the table
    the query is sent to, the list of all emergency contacts, or the list
    of websites. *)
Definition explained (cache_data : cache) (query_lower : string)
           (r : cached) : Prop :=
  (exists t keyword key value,
      route query_lower = Some t /\
      In (keyword, key) (table t) /\
      Py.contains keyword query_lower = true /\
      loaded cache_data t key = Some value /\
      r = found t keyword key value) \/
  (route query_lower = Some Emergency /\
   Py.contains "emergency" query_lower = true /\
   Py.contains "all" query_lower = true /\
   r = all_emergency_contacts (category "emergency_contacts" cache_data)) \/
  (route query_lower = Some Quick /\
   Py.contains "website" query_lower = true /\
   r = websites (pick website_keys (category "quick_info" cache_data))).

(** What a lookup returns when the category behind the table is missing or
    empty: the two list results, without entries. *)
Definition list_answer (t : table_id) (query_lower : string) : option cached :=
  match t with
  | Emergency =>
      if Py.contains "emergency" query_lower && Py.contains "all" query_lower
      then Some (all_emergency_contacts [])
      else None
  | Quick =>
      if Py.contains "website" query_lower then Some (websites []) else None
  | _ => None
  end.

Definition answered (r : option cached) : bool :=
  match r with Some _ => true | None => false end.

End CacheMore.

Module ConversationalSpec.
Import SLM.

(** The footers of [format_response]. *)
Definition predefined_note (query : string) : string :=
  "🤖 *Predefined response for " +:+ classify_query_type query +:+ " query*".

Definition generated_note (self : SLMModule) : string :=
  "💬 *Response generated via " +:+ model self +:+ " at " +:+
  clock self +:+ "*".

End ConversationalSpec.

Module ChunkMore.
Import RAG ChunkSpec.

(** The [k]-th chunk of a file as the splitter labels it. *)
Definition numbered (filename : string) (k : nat) (c : chunk) : Prop :=
  chunk_id c = k /\
  id c = filename +:+ "_" +:+ Py.str_of_nat k /\
  source c = filename /\
  tidy (content c).

(** The loop invariant for the labels: the counter is the number of chunks
    closed so far, each labelled by its position. *)
Definition labelled (filename : string) (st : splitter) : Prop :=
  next_id st = length (chunks st) /\
  forall k c, nth_error (chunks st) k = Some c -> numbered filename k c.

(** The single chunk of a short document. *)
Definition whole (content filename : string) : chunk :=
  {| id := filename +:+ "_0";
     content := Py.strip content;
     source := filename;
     chunk_id := 0 |}.

(** The three addresses of the simulated web search. *)
Definition simulated_urls : list string :=
  [ "https://chennaicorporation.gov.in/latest-updates";
    "https://cmwssb.tn.gov.in/news";
    "https://tn.gov.in/citizen-services" ].

End ChunkMore.

Module GraphMore.
Import KAG GraphSpec KAGQuery.

(** Every edge of the graph joins two of its nodes. *)
Definition closed (g : graph) : Prop :=
  forall u v, has_edge g u v -> has_node g u /\ has_node g v.

(** [g'] has every node and every edge of [g]. *)
Definition extends (g g' : graph) : Prop :=
  (forall u v, has_edge g u v -> has_edge g' u v) /\
  (forall n, has_node g n -> has_node g' n).

(** The node of a procedure carries the procedure's title and department. *)
Definition carries (g : graph) (proc_id : string) (p : procedure) : Prop :=
  exists a,
    nodes g !! proc_id = Some a /\
    a !! "name" = Some (VStr (title p)) /\
    a !! "department" = Some (VStr (proc_department p)).

(** What [find_procedure] reports for a procedure of the snapshot. *)
Definition info_of (proc_id : string) (p : procedure) : procedure_info :=
  {| procedure_id := proc_id;
     info_title := VStr (title p);
     info_department := VStr (proc_department p);
     details := p |}.

(** A result of [find_procedure] that the snapshot and the query explain. *)
Definition explained (kd : knowledge) (query_lower : string)
           (table : Py.dict string string) (info : procedure_info) : Prop :=
  exists keyword p,
    In (keyword, procedure_id info) table /\
    Py.contains keyword query_lower = true /\
    Py.sget (procedure_id info) (procedures kd) = Some p /\
    info = info_of (procedure_id info) p.

(** A snapshot with one procedure. *)
Definition tax_procedure : procedure :=
  {| title := "Property Tax Payment";
     proc_department := "gcc";
     steps := ["Visit the portal"; "Enter the assessment number"; "Pay"];
     timeline := Some (VStr "Immediate");
     fees := None;
     contact := Some (VStr "1913") |}.

Definition tax_snapshot : knowledge :=
  {| departments :=
       [ {| dept_id := "gcc"; dept_name := "Greater Chennai Corporation";
            dept_type := "government" |} ];
     services := [];
     issues := [];
     procedures := [ ("property_tax_payment", tax_procedure) ];
     relationships := [] |}.

End GraphMore.

(** * Properties *)

(** ** Router *)

Section RouterFacts.
Import Router RouterSpec.

Lemma four_eq a b c d a' b' c' d' :
  a = a' -> b = b' -> c = c' -> d = d' -> four a b c d = four a' b' c' d'.
Proof. congruence. Qed.

Lemma bump_four m w a b c d :
  Py.update module_eqb m (fun n => n + w) (four a b c d)
  = four (a + share m CAG w) (b + share m RAG w)
         (c + share m KAG w) (d + share m SLM w).
Proof.
  destruct m; cbn; apply four_eq; lia.
Qed.

Lemma keyword_fold ql m kws : forall (t : tally) a b c d,
  fst t = four a b c d ->
  let k := length (List.filter (fun kw => Py.contains kw ql) kws) in
  fst (fold_left (keyword_step ql m) kws t)
  = four (a + share m CAG k) (b + share m RAG k)
         (c + share m KAG k) (d + share m SLM k).
Proof.
  induction kws as [|kw kws IH]; intros t a b c d Ht; cbn [fold_left List.filter length].
  - unfold share; destruct m; cbn; rewrite Ht; apply four_eq; lia.
  - unfold keyword_step at 2. destruct (Py.contains kw ql) eqn:E.
    + erewrite IH
        by (unfold record_match; cbn [fst]; rewrite Ht; apply bump_four).
      unfold share; destruct m; cbn; rewrite ?E; cbn; apply four_eq; lia.
    + erewrite IH by exact Ht. reflexivity.
Qed.

Lemma pattern_fold ql m ps : forall (t : tally) a b c d,
  fst t = four a b c d ->
  let k := length (List.filter (fun p => Re.search (compiled p) ql) ps) in
  fst (fold_left (pattern_step ql m) ps t)
  = four (a + share m CAG (2 * k)) (b + share m RAG (2 * k))
         (c + share m KAG (2 * k)) (d + share m SLM (2 * k)).
Proof.
  induction ps as [|p ps IH]; intros t a b c d Ht; cbn [fold_left List.filter length].
  - unfold share; destruct m; cbn; rewrite Ht; apply four_eq; lia.
  - unfold pattern_step at 2. destruct (Re.search (compiled p) ql) eqn:E.
    + erewrite IH
        by (unfold record_match; cbn [fst]; rewrite Ht; apply bump_four).
      unfold share; destruct m; cbn; rewrite ?E; cbn; apply four_eq; lia.
    + erewrite IH by exact Ht. reflexivity.
Qed.

Lemma module_fold ql m cfg (t : tally) a b c d :
  fst t = four a b c d ->
  let w := length (List.filter (fun kw => Py.contains kw ql) (keywords cfg))
           + 2 * length (List.filter (fun p => Re.search (compiled p) ql)
                                     (patterns cfg)) in
  fst (module_step ql t (m, cfg))
  = four (a + share m CAG w) (b + share m RAG w)
         (c + share m KAG w) (d + share m SLM w).
Proof.
  intros Ht. unfold module_step.
  erewrite pattern_fold by (apply keyword_fold; exact Ht).
  unfold share; destruct m; cbn [module_eqb]; apply four_eq; lia.
Qed.

(** The scoring loop leaves, for each module, its weighted hit count. *)
Lemma query_scores_four query :
  query_scores query
  = four (weighted_hits query CAG) (weighted_hits query RAG)
         (weighted_hits query KAG) (weighted_hits query SLM).
Proof.
  unfold query_scores, tally_of, routing_patterns.
  cbn [fold_left].
  erewrite module_fold; cycle 1.
  { erewrite module_fold; cycle 1.
    { erewrite module_fold; cycle 1.
      { erewrite module_fold by reflexivity. reflexivity. }
      reflexivity. }
    reflexivity. }
  unfold weighted_hits, keyword_hits, pattern_hits, share.
  cbn [module_eqb config_of keywords patterns].
  apply four_eq; cbn -[Nat.mul List.filter length]; lia.
Qed.

Lemma score_weighted query m : score query m = weighted_hits query m.
Proof.
  unfold score. rewrite query_scores_four. destruct m; reflexivity.
Qed.

Lemma max_from_ge_best {A : Type} (f : A -> nat) (xs : list A) :
  forall best, f best <= f (Py.max_from f best xs).
Proof.
  induction xs as [|y ys IH]; intros best; cbn [Py.max_from]; [lia|].
  destruct (Nat.ltb_spec (f best) (f y)) as [Hlt|Hge].
  - specialize (IH y). lia.
  - apply IH.
Qed.

(** [max] returns an element that no element exceeds, and every element
    listed before it is strictly smaller. *)
Lemma max_from_first {A : Type} (f : A -> nat) (xs : list A) : forall best,
  exists pre post,
    best :: xs = pre ++ Py.max_from f best xs :: post /\
    (forall x, In x pre -> f x < f (Py.max_from f best xs)) /\
    (forall x, In x post -> f x <= f (Py.max_from f best xs)).
Proof.
  induction xs as [|y ys IH]; intros best; cbn [Py.max_from].
  - exists [], []. split; [reflexivity|]. split; intros x [].
  - destruct (Nat.ltb_spec (f best) (f y)) as [Hlt|Hge].
    + destruct (IH y) as (pre & post & Heq & Hpre & Hpost).
      exists (best :: pre), post. rewrite Heq.
      split; [reflexivity|]. split; [|exact Hpost].
      intros x [<-|Hx]; [|auto].
      pose proof (max_from_ge_best f ys y). lia.
    + destruct (IH best) as (pre & post & Heq & Hpre & Hpost).
      destruct pre as [|p pre]; cbn [app] in Heq; injection Heq as Hb Hys.
      * exists [], (y :: post).
        split; [cbn [app]; congruence|]. split; [intros x []|].
        intros x [<-|Hx].
        -- pose proof (max_from_ge_best f ys best). lia.
        -- apply Hpost. congruence.
      * subst p. exists (best :: y :: pre), post.
        split; [cbn [app]; congruence|]. split; [|exact Hpost].
        intros x [<-|[<-|Hx]].
        -- apply Hpre. now left.
        -- assert (f best < f (Py.max_from f best ys))
             by (apply Hpre; now left). lia.
        -- apply Hpre. now right.
Qed.

(** Over the four keys in insertion order, [max] picks a top-scoring
    module of the least priority index. *)
Lemma max_four (f : module_name -> nat) :
  let r := Py.max_from f CAG [RAG; KAG; SLM] in
  (forall m, f m <= f r) /\
  (forall m, f m = f r -> priority r <= priority m).
Proof.
  intros r.
  destruct (max_from_first f [RAG; KAG; SLM] CAG)
    as (pre & post & Heq & Hpre & Hpost).
  fold r in Heq, Hpre, Hpost. clearbody r.
  assert (Hin : forall m, In m pre \/ m = r \/ In m post).
  { intros m.
    assert (Hm : In m (CAG :: [RAG; KAG; SLM]))
      by (destruct m; cbn; tauto).
    rewrite Heq in Hm. apply in_app_or in Hm.
    destruct Hm as [Hm|[Hm|Hm]]; auto. }
  split.
  - intros m. destruct (Hin m) as [Hm|[->|Hm]].
    + apply Nat.lt_le_incl, Hpre, Hm.
    + lia.
    + apply Hpost, Hm.
  - intros m Hm.
    assert (Hnot : ~ In m pre).
    { intros Hc. apply Hpre in Hc. lia. }
    clear Hin Hpost Hm.
    destruct pre as [|p1 [|p2 [|p3 [|p4 pre]]]];
      cbn [app] in Heq; injection Heq as H1 H2; subst;
      try discriminate;
      repeat match goal with
             | H : _ :: _ = _ :: _ |- _ => injection H as ? ?; subst
             | H : [] = _ :: _ |- _ => discriminate H
             | H : _ :: _ = [] |- _ => discriminate H
             end;
      try (destruct pre; discriminate);
      destruct m; cbn [priority]; try lia; exfalso; apply Hnot; cbn; tauto.
Qed.

(** [analyze_query] returns, and what it returns. *)
Lemma analyze_query_returns query :
  let best := Py.max_from (score query) CAG [RAG; KAG; SLM] in
  exists a,
    analyze_query query = Ok a /\
    scores a = query_scores query /\
    selected_module a = (if score query best =? 0 then SLM else best) /\
    confidence a
    = (Z.of_nat (score query best)
       # Pos.of_nat (Nat.max (Py.sum (Py.values (query_scores query))) 1)).
Proof.
  intros best. unfold analyze_query.
  pose proof (query_scores_four query) as Hfour.
  unfold query_scores in Hfour.
  destruct (tally_of (Py.lower query)) as [sc mp] eqn:Et.
  cbn [fst] in Hfour.
  assert (Hs : forall m, score_of sc m = score query m).
  { intros m. unfold score, query_scores. now rewrite Et. }
  assert (Hbest : Py.max_by (score_of sc) (Py.keys sc)
                  = Some (Py.max_from (score_of sc) CAG [RAG; KAG; SLM])).
  { rewrite Hfour at 2. reflexivity. }
  rewrite Hbest.
  assert (Hb : Py.max_from (score_of sc) CAG [RAG; KAG; SLM] = best).
  { unfold best. cbn [Py.max_from]. now rewrite !Hs. }
  rewrite Hb, Hs.
  unfold query_scores. rewrite Et. cbn [fst].
  destruct (score query best =? 0); eexists; repeat split.
Qed.

(** C1 (router tie-break).  When two distinct modules share the highest
    score of a query and that score is not zero, [analyze_query] returns an
    analysis whose selected module is itself top-scoring and comes first,
    among all top-scoring modules, in the order CAG, RAG, KAG, SLM
    (Cache > Document > Graph > Conversational). *)
Theorem router_tie_break (query : string) (m1 m2 : module_name) :
  m1 <> m2 ->
  score query m1 = score query m2 ->
  0 < score query m1 ->
  top query m1 ->
  exists a,
    analyze_query query = Ok a /\
    scores a = query_scores query /\
    top query (selected_module a) /\
    forall m, top query m -> priority (selected_module a) <= priority m.
Proof.
  intros _ _ Hpos Htop.
  destruct (analyze_query_returns query) as (a & Ha & Hsc & Hsel & _).
  destruct (max_four (score query)) as [Hmax Hfirst].
  set (best := Py.max_from (score query) CAG [RAG; KAG; SLM]) in *.
  assert (Hbest : score query best = score query m1).
  { apply Nat.le_antisymm; [apply Htop | apply Hmax]. }
  assert (Hnz : (score query best =? 0) = false)
    by (apply Nat.eqb_neq; lia).
  rewrite Hnz in Hsel.
  exists a. rewrite Hsel.
  split; [exact Ha|]. split; [exact Hsc|]. split.
  - intros m. apply Hmax.
  - intros m Hm. apply Hfirst.
    apply Nat.le_antisymm; [apply Hmax | apply Hm].
Qed.

Lemma router_tie_break_witness :
  exists a,
    analyze_query "new phone" = Ok a /\
    scores a = query_scores "new phone" /\
    top "new phone" (selected_module a) /\
    forall m, top "new phone" m -> priority (selected_module a) <= priority m.
Proof.
  apply (router_tie_break "new phone" CAG RAG).
  - discriminate.
  - vm_compute. reflexivity.
  - vm_compute. lia.
  - intros m; destruct m; vm_compute; lia.
Defined.

(** C2 (router scoring).  For every query and module, the score that
    [analyze_query] reports is the number of the module's keywords that
    occur in the lower-cased query plus twice the number of its patterns
    that match somewhere in it; the count of a module looks at that
    module's table only, and one query can score for several modules. *)
Theorem router_scoring :
  (forall (query : string) (m : module_name),
      exists a,
        analyze_query query = Ok a /\
        score_of (scores a) m
        = keyword_hits (Py.lower query) m
          + 2 * pattern_hits (Py.lower query) m) /\
  (exists query a,
      analyze_query query = Ok a /\
      0 < score_of (scores a) CAG /\ 0 < score_of (scores a) RAG).
Proof.
  split.
  - intros query m.
    destruct (analyze_query_returns query) as (a & Ha & Hsc & _).
    exists a. split; [exact Ha|].
    rewrite Hsc. apply (score_weighted query m).
  - exists "new phone".
    destruct (analyze_query_returns "new phone") as (a & Ha & Hsc & _).
    exists a. split; [exact Ha|]. rewrite Hsc.
    split; vm_compute; lia.
Qed.

Lemma no_hits {A : Type} (f : A -> bool) (l : list A) :
  (forall x, In x l -> f x = false) -> length (List.filter f l) = 0.
Proof.
  induction l as [|x l IH]; intros H; cbn; [reflexivity|].
  rewrite (H x) by now left. apply IH. intros y Hy. apply H. now right.
Qed.

(** C8 (all-zero fallback).  When no keyword and no pattern of any module
    matches the query, [analyze_query] selects SLM (Conversational),
    reports score 0 for every module, and reports confidence 0. *)
Theorem all_zero_fallback (query : string) :
  nothing_matches query ->
  exists a,
    analyze_query query = Ok a /\
    selected_module a = SLM /\
    (forall m, score_of (scores a) m = 0) /\
    confidence a = 0%Q.
Proof.
  intros Hnone.
  assert (Hzero : forall m, score query m = 0).
  { intros m. rewrite score_weighted. unfold weighted_hits.
    destruct (Hnone m) as [Hk Hp].
    unfold keyword_hits, pattern_hits.
    rewrite (no_hits _ _ Hk), (no_hits _ _ Hp). reflexivity. }
  destruct (analyze_query_returns query) as (a & Ha & Hsc & Hsel & Hconf).
  exists a. split; [exact Ha|].
  rewrite Hzero in Hsel, Hconf. cbn in Hsel.
  split; [exact Hsel|]. split.
  - intros m. rewrite Hsc. apply Hzero.
  - rewrite Hconf, query_scores_four, <- !score_weighted, !Hzero.
    reflexivity.
Qed.

Lemma all_zero_fallback_witness :
  nothing_matches "xyzzy" /\
  exists a,
    analyze_query "xyzzy" = Ok a /\
    selected_module a = SLM /\
    (forall m, score_of (scores a) m = 0) /\
    confidence a = 0%Q.
Proof.
  assert (H : nothing_matches "xyzzy").
  { intros m; destruct m; split; intros x Hin; cbn in Hin;
      repeat (destruct Hin as [<-|Hin]; [vm_compute; reflexivity|]);
      destruct Hin. }
  split; [exact H | apply (all_zero_fallback "xyzzy" H)].
Defined.

End RouterFacts.

(** ** Strings *)

Section StringFacts.

Lemma prefix_app_l (a b : string) : forall s,
  String.prefix (a +:+ b) s = true -> String.prefix a s = true.
Proof.
  induction a as [|c a IH]; intros s H; [now destruct s|].
  destruct s as [|d s]; [discriminate H|].
  change (String c a +:+ b) with (String c (a +:+ b)) in H.
  cbn [String.prefix] in *.
  destruct (Ascii.ascii_dec c d); [apply IH, H | discriminate].
Qed.

(** A text that contains [a ++ b] contains [a]. *)
Lemma contains_app_l (a b : string) : forall s,
  Py.contains (a +:+ b) s = true -> Py.contains a s = true.
Proof.
  induction s as [|c s IH]; cbn [Py.contains]; intros H.
  - rewrite orb_false_r in *. eapply prefix_app_l, H.
  - apply orb_true_iff in H. apply orb_true_iff.
    destruct H as [H|H]; [left; eapply prefix_app_l, H | right; auto].
Qed.

Lemma app_cons (c : ascii) (a b : string) :
  String c a +:+ b = String c (a +:+ b).
Proof. reflexivity. Qed.

Lemma app_empty_r (a : string) : a +:+ "" = a.
Proof. induction a as [|c a IH]; [reflexivity|]. now rewrite app_cons, IH. Qed.

Lemma app_assoc_str (a b c : string) : (a +:+ b) +:+ c = a +:+ (b +:+ c).
Proof.
  induction a as [|x a IH]; [reflexivity|]. now rewrite !app_cons, IH.
Qed.

Lemma length_app_str (a b : string) :
  String.length (a +:+ b) = String.length a + String.length b.
Proof.
  induction a as [|x a IH]; [reflexivity|].
  rewrite app_cons. cbn [String.length]. now rewrite IH.
Qed.

Lemma lstrip_length (s : string) : String.length (Py.lstrip s) <= String.length s.
Proof.
  induction s as [|c s IH]; cbn [Py.lstrip String.length]; [lia|].
  destruct (Py.is_space c); cbn [String.length]; lia.
Qed.

Lemma rstrip_length (s : string) : String.length (Py.rstrip s) <= String.length s.
Proof.
  induction s as [|c s IH]; cbn [Py.rstrip String.length]; [lia|].
  destruct (Py.rstrip s); [destruct (Py.is_space c)|];
    cbn [String.length] in *; lia.
Qed.

Lemma strip_length (s : string) : String.length (Py.strip s) <= String.length s.
Proof.
  unfold Py.strip. pose proof (lstrip_length (Py.rstrip s)).
  pose proof (rstrip_length s). lia.
Qed.

(** White space at the end of a text does not survive [rstrip]. *)
Lemma rstrip_app_blank (a b : string) :
  Py.rstrip b = "" -> Py.rstrip (a +:+ b) = Py.rstrip a.
Proof.
  intros Hb. induction a as [|c a IH]; [exact Hb|].
  rewrite app_cons. cbn [Py.rstrip]. now rewrite IH.
Qed.

Lemma rstrip_app_solid (a b : string) :
  Py.rstrip b <> "" -> Py.rstrip (a +:+ b) = a +:+ Py.rstrip b.
Proof.
  intros Hb. induction a as [|c a IH]; [reflexivity|].
  rewrite !app_cons. cbn [Py.rstrip]. rewrite IH.
  destruct (a +:+ Py.rstrip b) eqn:E; [|reflexivity].
  destruct a; [change (Py.rstrip b = "") in E; congruence | discriminate E].
Qed.

Lemma rstrip_nlnl : Py.rstrip Py.nlnl = "".
Proof. reflexivity. Qed.

(** A fixed point of [strip] is a fixed point of both one-sided strips. *)
Lemma strip_fixed (s : string) :
  Py.strip s = s -> Py.rstrip s = s /\ Py.lstrip s = s.
Proof.
  unfold Py.strip. intros H.
  assert (Hr : Py.rstrip s = s).
  { assert (Hlen : String.length (Py.rstrip s) = String.length s).
    { pose proof (lstrip_length (Py.rstrip s)). pose proof (rstrip_length s).
      rewrite H in *. lia. }
    clear H. induction s as [|c s IH]; [reflexivity|].
    cbn [Py.rstrip] in *.
    destruct (Py.rstrip s) as [|d r] eqn:E.
    - destruct (Py.is_space c); cbn [String.length] in Hlen; [lia|].
      destruct s; [reflexivity | cbn [String.length] in Hlen; lia].
    - f_equal. apply IH. cbn [String.length] in *. lia. }
  split; [exact Hr | now rewrite Hr in H].
Qed.

Lemma lstrip_app_solid (a b : string) :
  a <> "" -> Py.lstrip a = a -> Py.lstrip (a +:+ b) = a +:+ b.
Proof.
  destruct a as [|c a]; [congruence|]. intros _ H.
  rewrite app_cons. cbn [Py.lstrip] in *.
  destruct (Py.is_space c); [|reflexivity].
  pose proof (lstrip_length a) as Hl. rewrite H in Hl.
  cbn [String.length] in Hl. lia.
Qed.

End StringFacts.

(** ** Cache strategy *)

Section CacheFacts.
Import CAG CacheSpec.

(** The keyword loop returns the first table entry that is named in the
    query and loaded. *)
Lemma first_hit_found (data : partition) (query : string)
      (pre post : Py.dict string string) (keyword key value : string) :
  Py.contains keyword query = true ->
  Py.sget key data = Some value ->
  (forall kw k, In (kw, k) pre -> Py.contains kw query = true ->
                Py.sget k data = None) ->
  first_hit (pre ++ (keyword, key) :: post) data query
  = Some {| hit_keyword := keyword; hit_key := key; hit_value := value |}.
Proof.
  intros Hk Hv. induction pre as [|[kw k] pre IH]; intros Hpre; cbn.
  - now rewrite Hk, Hv.
  - destruct (Py.contains kw query) eqn:E.
    + rewrite (Hpre kw k) by (auto; now left).
      apply IH. intros kw' k' Hin. apply Hpre. now right.
    + apply IH. intros kw' k' Hin. apply Hpre. now right.
Qed.

Lemma first_hit_sound (data : partition) (query : string)
      (table : Py.dict string string) (h : hit) :
  first_hit table data query = Some h ->
  exists pre post,
    table = pre ++ (hit_keyword h, hit_key h) :: post /\
    Py.contains (hit_keyword h) query = true /\
    Py.sget (hit_key h) data = Some (hit_value h) /\
    (forall kw k, In (kw, k) pre -> Py.contains kw query = true ->
                  Py.sget k data = None).
Proof.
  induction table as [|[kw k] table IH]; cbn; [discriminate|].
  destruct (Py.contains kw query) eqn:E.
  - destruct (Py.sget k data) as [v|] eqn:Ev.
    + intros [= <-]. exists [], table. cbn. repeat split; auto.
      intros ? ? [].
    + intros H. destruct (IH H) as (pre & post & -> & Hc & Hv & Hpre).
      exists ((kw, k) :: pre), post. repeat split; auto.
      intros kw' k' [[= <- <-]|Hin]; eauto.
  - intros H. destruct (IH H) as (pre & post & -> & Hc & Hv & Hpre).
    exists ((kw, k) :: pre), post. repeat split; auto.
    intros kw' k' [[= <- <-]|Hin]; [congruence | eauto].
Qed.

(** The quick-info loop agrees with the keyword loop on the entries that
    name one key, as long as the query does not ask for the websites. *)
Lemma quick_loop_first_hit (data : partition) (query : string) (h : hit) :
  first_hit quick_keywords data query = Some h ->
  quick_loop info_keywords data query
  = Some (quick_info (Py.title (hit_keyword h)) (hit_value h)).
Proof.
  unfold quick_keywords, info_keywords. cbn.
  repeat match goal with
         | |- context [Py.contains ?k query] =>
             destruct (Py.contains k query)
         | |- context [Py.sget ?k data] =>
             destruct (Py.sget k data)
         end;
    intros [= <-] || discriminate; reflexivity.
Qed.

(** [search_cache] sends the lower-cased query to the table chosen by the
    first-pass test. *)
Lemma search_cache_route (cache_data : cache) (query : string) :
  search_cache cache_data query
  = match route (Py.lower query) with
    | Some Emergency => _search_emergency_contacts cache_data (Py.lower query)
    | Some Government => _search_government_contacts cache_data (Py.lower query)
    | Some Civic => _search_civic_services cache_data (Py.lower query)
    | Some Zone => _search_zone_info cache_data (Py.lower query)
    | Some Quick => _search_quick_info cache_data (Py.lower query)
    | None => None
    end.
Proof.
  unfold search_cache, route.
  repeat match goal with
         | |- context [Py.any_in ?g ?q] => destruct (Py.any_in g q)
         end; reflexivity.
Qed.

(** C6 (cache round-trip), as the code has it.  Take a keyword of a
    table whose cache key is loaded.  A query that the first-pass test sends
    to that table, that contains the keyword, and that names no earlier
    loaded entry of the table, gets the table's result for that keyword,
    of the table's declared type.  In particular "fire emergency number"
    gets an [emergency_contact] whose number is the loaded fire contact. *)
Theorem cache_round_trip (cache_data : cache) :
  (forall (query : string) (t : table_id)
          (pre post : Py.dict string string) (keyword key value : string),
      route (Py.lower query) = Some t ->
      table t = pre ++ (keyword, key) :: post ->
      Py.contains keyword (Py.lower query) = true ->
      loaded cache_data t key = Some value ->
      none_earlier cache_data t pre (Py.lower query) ->
      search_cache cache_data query = Some (found t keyword key value) /\
      type_of (found t keyword key value) = kind t) /\
  (forall value : string,
      loaded cache_data Emergency "fire" = Some value ->
      search_cache cache_data "fire emergency number"
      = Some (emergency_contact "Fire" value "24x7")).
Proof.
  assert (Hgen : forall (query : string) (t : table_id)
          (pre post : Py.dict string string) (keyword key value : string),
      route (Py.lower query) = Some t ->
      table t = pre ++ (keyword, key) :: post ->
      Py.contains keyword (Py.lower query) = true ->
      loaded cache_data t key = Some value ->
      none_earlier cache_data t pre (Py.lower query) ->
      search_cache cache_data query = Some (found t keyword key value) /\
      type_of (found t keyword key value) = kind t).
  { intros query t pre post keyword key value Hroute Htable Hkw Hval Hpre.
    split; [|destruct t; reflexivity].
    rewrite search_cache_route, Hroute.
    pose proof (first_hit_found _ _ pre post _ _ _ Hkw Hval Hpre) as Hhit.
    rewrite <- Htable in Hhit.
    destruct t; cbn [table partition_name] in Hhit.
    - unfold _search_emergency_contacts. now rewrite Hhit.
    - unfold _search_government_contacts. now rewrite Hhit.
    - unfold _search_civic_services. now rewrite Hhit.
    - unfold _search_zone_info. now rewrite Hhit.
    - unfold _search_quick_info.
      now rewrite (quick_loop_first_hit _ _ _ Hhit). }
  split; [exact Hgen|].
  intros value Hval.
  apply (Hgen "fire emergency number" Emergency []
              (tl emergency_keywords) "fire" "fire" value);
    try reflexivity; [exact Hval | intros ? ? []].
Qed.

Lemma cache_round_trip_witness :
  search_cache civic_cache "Water supply TIMING"
  = Some (quick_info "Timing" "9:30 AM to 5:30 PM (Monday to Friday)") /\
  search_cache civic_cache "fire emergency number"
  = Some (emergency_contact "Fire" "101" "24x7").
Proof.
  split.
  - apply (proj1 (cache_round_trip civic_cache)
                 "Water supply TIMING" Quick
                 [("office hours", "corporation_office_hours")]
                 (skipn 2 quick_keywords)
                 "timing" "corporation_office_hours"
                 "9:30 AM to 5:30 PM (Monday to Friday)");
      try reflexivity.
    intros kw key [[= <- <-]|[]]. vm_compute. discriminate.
  - apply (proj2 (cache_round_trip civic_cache) "101"). reflexivity.
Defined.

(** C6 as stated fails: a keyword of the emergency table occurs in the
    query and its key is loaded, yet nothing is found, because the
    first-pass test matches no category; and a civic-service keyword is
    not found when the query also holds a first-pass emergency word. *)
Lemma cache_round_trip_counterexample :
  (In ("fire", "fire") emergency_keywords /\
   Py.contains "fire" (Py.lower "fire station") = true /\
   loaded civic_cache Emergency "fire" = Some "101" /\
   search_cache civic_cache "fire station" = None) /\
  (In ("property tax", "property_tax") service_keywords /\
   Py.contains "property tax" (Py.lower "property tax helpline") = true /\
   loaded civic_cache Civic "property_tax" = Some "1913" /\
   search_cache civic_cache "property tax helpline" = None).
Proof.
  repeat split; try reflexivity; cbn; tauto.
Qed.

Lemma north_east_names_north (query : string) :
  Py.contains "north east" query = true -> Py.contains "north" query = true.
Proof. apply (contains_app_l "north" " east"). Qed.

Lemma zone_lookup_not_north_east (cache_data : cache) (north : string)
      (query : string) (r : cached) :
  loaded cache_data Zone "zone_1_north" = Some north ->
  _search_zone_info cache_data query = Some r ->
  zone_of r <> Some "North East".
Proof.
  unfold loaded, _search_zone_info. cbn [partition_name].
  intros Hn. unfold zone_keywords. cbn [first_hit].
  destruct (Py.contains "north" query) eqn:En.
  - rewrite Hn. intros [= <-]. cbn. discriminate.
  - destruct (Py.contains "north east" query) eqn:Ene;
      [apply north_east_names_north in Ene; congruence|].
    repeat match goal with
           | |- context [Py.contains ?k query] =>
               destruct (Py.contains k query)
           | |- context [Py.sget ?k ?d] =>
               destruct (Py.sget k d)
           end;
      intros [= <-] || discriminate; vm_compute; discriminate.
Qed.

(** C9 (zone-table shadowing), as the code has it.  When the loaded zone
    category has the key [zone_1_north], every text containing
    "north east" gets the North contact from the zone lookup, and neither
    the zone lookup nor [search_cache] ever returns the North East entry. *)
Theorem zone_shadowing (cache_data : cache) (north : string) :
  loaded cache_data Zone "zone_1_north" = Some north ->
  (forall query : string,
      Py.contains "north east" query = true ->
      _search_zone_info cache_data query
      = Some (zone_contact "North" north
                           "Water supply, complaints, maintenance")) /\
  (forall (query : string) (r : cached),
      _search_zone_info cache_data query = Some r ->
      zone_of r <> Some "North East") /\
  (forall (query : string) (r : cached),
      search_cache cache_data query = Some r ->
      zone_of r <> Some "North East").
Proof.
  intros Hn. split; [|split].
  - intros query Hne. apply north_east_names_north in Hne.
    unfold loaded in Hn. cbn [partition_name] in Hn.
    unfold _search_zone_info, zone_keywords. cbn [first_hit].
    now rewrite Hne, Hn.
  - intros query r. now apply zone_lookup_not_north_east with (north := north).
  - intros query r. rewrite search_cache_route.
    destruct (route (Py.lower query)) as [[]|]; [ | | | | |discriminate].
    + unfold _search_emergency_contacts.
      destruct (first_hit _ _ _);
        [|destruct (_ && _)]; intros [= <-] || discriminate; discriminate.
    + unfold _search_government_contacts.
      destruct (first_hit _ _ _); intros [= <-] || discriminate; discriminate.
    + unfold _search_civic_services.
      destruct (first_hit _ _ _); intros [= <-] || discriminate; discriminate.
    + now apply zone_lookup_not_north_east with (north := north).
    + unfold _search_quick_info, info_keywords. cbn [quick_loop].
      repeat match goal with
             | |- context [Py.contains ?k ?q] =>
                 destruct (Py.contains k q)
             | |- context [Py.sget ?k ?d] =>
                 destruct (Py.sget k d)
             end;
        intros [= <-] || discriminate; discriminate.
Qed.

Lemma zone_shadowing_witness :
  loaded civic_cache Zone "zone_1_north" = Some "044-28451300 Ext.233" /\
  _search_zone_info civic_cache "north east zone"
  = Some (zone_contact "North" "044-28451300 Ext.233"
                       "Water supply, complaints, maintenance").
Proof.
  split; [reflexivity|].
  apply (proj1 (zone_shadowing civic_cache "044-28451300 Ext.233" eq_refl)).
  reflexivity.
Defined.

(** C9 as stated fails: on a cache whose zone category has the North East
    key but not the North key, a query containing "north east" gets the
    North East entry. *)
Lemma zone_shadowing_counterexample :
  Py.contains "north east" "north east zone" = true /\
  _search_zone_info north_east_only "north east zone"
  = Some (zone_contact "North East" "044-28451300 Ext.213"
                       "Water supply, complaints, maintenance") /\
  search_cache north_east_only "north east zone"
  = Some (zone_contact "North East" "044-28451300 Ext.213"
                       "Water supply, complaints, maintenance").
Proof. repeat split; reflexivity. Qed.

End CacheFacts.

(** ** Conversational strategy *)

Section ConversationalFacts.
Import SLM.

(** The predefined answer is always a successful, non-empty entry of the
    canned-response table, filed under the query's type. *)
Lemma predefined_canned (query : string) :
  exists text,
    predefined query
    = {| success := true;
         data := Some (fallback_response text (classify_query_type query));
         source := "SLM";
         message := "Fallback response for query type: "
                    +:+ classify_query_type query;
         error := None |} /\
    In (classify_query_type query, text) fallback_responses /\
    text <> "".
Proof.
  unfold predefined, classify_query_type.
  repeat match goal with
         | |- context [Py.any_in ?ks ?q] => destruct (Py.any_in ks q)
         end;
    (eexists; split; [reflexivity|]; split;
     [cbn; tauto | discriminate]).
Qed.

(** [get_response] either hands out the predefined answer, which it does
    whenever the completion service gives nothing usable, or a non-empty
    generated text. *)
Lemma get_response_cases (self : SLMModule) (query : string) :
  (get_response self query = predefined query) \/
  (exists c r,
      generate_openai_response self query = Some (String c r) /\
      get_response self query
      = {| success := true;
           data := Some (openai_api (String c r) (model self));
           source := "SLM";
           message := "Response generated using " +:+ model self;
           error := None |}).
Proof.
  unfold get_response.
  destruct (client_available self); [|now left].
  destruct (generate_openai_response self query) as [[|c r]|];
    [now left | right; eauto | now left].
Qed.

Lemma get_response_no_completion (self : SLMModule) (query : string) :
  generate_openai_response self query = None \/
  generate_openai_response self query = Some "" ->
  get_response self query = predefined query.
Proof.
  unfold get_response. intros [-> | ->]; now destruct (client_available self).
Qed.

(** C4 (conversational totality).  For every module state and every input
    text, [get_response] reports success and carries a non-empty response
    text; it never reports a failure or an empty result. *)
Theorem conversational_totality (self : SLMModule) (query : string) :
  success (get_response self query) = true /\
  (exists p, data (get_response self query) = Some p /\ response_of p <> "") /\
  response_text (get_response self query) <> "" /\
  error (get_response self query) = None.
Proof.
  destruct (get_response_cases self query) as [-> | (c & r & _ & ->)].
  - destruct (predefined_canned query) as (text & -> & _ & Hne).
    unfold response_text. cbn. repeat split; eauto.
  - unfold response_text. cbn. repeat split; eauto; discriminate.
Qed.

(** Formatting an answer of [get_response] never raises. *)
Lemma format_response_answers (self : SLMModule) (query : string) :
  success (get_response self query) = true /\
  exists text, format_response self (get_response self query) = Ok text.
Proof.
  destruct (get_response_cases self query) as [-> | (c & r & _ & ->)].
  - destruct (predefined_canned query) as (text & -> & _ & _).
    split; [reflexivity|]. unfold format_response. cbn. eauto.
  - split; [reflexivity|]. unfold format_response. cbn. eauto.
Qed.

End ConversationalFacts.

(** ** Dispatch *)

Section ControllerFacts.
Import Router RouterSpec Controller ControllerSpec.

Lemma pick_analysis (query : string) :
  exists a, analyze_query query = Ok a /\ Router.selected_module a = pick query.
Proof.
  destruct (analyze_query_returns query) as (a & Ha & _).
  exists a. unfold pick. now rewrite Ha.
Qed.

(** What the [try] body does when the picked module is absent and the
    conversational module is present. *)
Lemma dispatch_absent (self : AgentController) (slm : AIModule)
      (query : string) (selected : module_name) :
  slm_module self = Some slm ->
  module_of self selected = None ->
  dispatch self query selected
  = match ask slm query with
    | Ok (ok, formatted) => Ok (ok, formatted, "SLM")
    | Raise e => Raise e
    end.
Proof.
  unfold dispatch. intros Hs Hm.
  destruct selected; cbn [module_of] in Hm; try congruence;
    rewrite ?Hm, ?Hs;
    repeat match goal with
           | |- context [match ?x with Some _ => _ | None => _ end] =>
               destruct x
           end; reflexivity.
Qed.

(** What it does when the picked module is present. *)
Lemma dispatch_present (self : AgentController) (m : AIModule)
      (query : string) (selected : module_name) :
  module_of self selected = Some m ->
  dispatch self query selected
  = match ask m query with
    | Ok (ok, formatted) => Ok (ok, formatted, name selected)
    | Raise e => Raise e
    end.
Proof.
  unfold dispatch. intros Hm.
  destruct selected; cbn [module_of] in Hm; rewrite ?Hm;
    repeat match goal with
           | |- context [match ?x with Some _ => _ | None => _ end] =>
               destruct x
           end; reflexivity.
Qed.

(** C3 (fallback), as the code has it.  If the router's pick is absent and
    the conversational module is present, [route_query] returns a successful
    response labelled "SLM" whose text is the conversational module's
    formatted answer: an entry of the canned-response table followed by the
    predefined-response footer whenever the completion service gives
    nothing usable.  If the pick is present and its answer is unsuccessful,
    that answer is returned as it is, unsuccessful and under the pick's own
    label. *)
Theorem fallback_on_unavailable (self : AgentController)
        (slm : SLM.SLMModule) (query : string) :
  (slm_module self = Some (of_slm slm) ->
   module_of self (pick query) = None ->
   exists r,
     route_query self query = Ok r /\
     success r = true /\
     selected_module r = "SLM" /\
     SLM.format_response slm (SLM.get_response slm query)
     = Ok (response_text r) /\
     (no_completion slm query ->
      exists query_type text,
        In (query_type, text) SLM.fallback_responses /\
        response_text r = text +:+ predefined_footer query_type)) /\
  (forall (m : AIModule) (resp : response m) (text : string),
      module_of self (pick query) = Some m ->
      get_response m query = Ok resp ->
      succeeded m resp = false ->
      format_response m resp = Ok text ->
      exists r,
        route_query self query = Ok r /\
        success r = false /\
        selected_module r = name (pick query) /\
        response_text r = text).
Proof.
  destruct (pick_analysis query) as (a & Ha & Hpick).
  split.
  - intros Hslm Habsent.
    destruct (format_response_answers slm query) as (Hok & text & Htext).
    unfold route_query. rewrite Ha, Hpick.
    rewrite (dispatch_absent self (of_slm slm)) by assumption.
    unfold ask. cbn [get_response format_response succeeded of_slm].
    rewrite Htext, Hok. eexists. split; [reflexivity|]. cbn.
    repeat split.
    intros Hnone.
    rewrite (get_response_no_completion slm query Hnone) in Htext.
    destruct (predefined_canned query) as (canned & Hp & Hin & _).
    rewrite Hp in Htext. unfold SLM.format_response in Htext.
    cbn in Htext. injection Htext as <-.
    exists (SLM.classify_query_type query), canned. split; [exact Hin|].
    reflexivity.
  - intros m resp text Hm Hresp Hfail Htext.
    unfold route_query. rewrite Ha, Hpick.
    rewrite (dispatch_present self m) by assumption.
    unfold ask. rewrite Hresp, Htext, Hfail.
    eexists. split; [reflexivity|]. cbn. repeat split.
Qed.

Lemma fallback_on_unavailable_witness :
  module_of only_slm (pick "fire emergency number") = None /\
  exists r,
    route_query only_slm "fire emergency number" = Ok r /\
    success r = true /\
    selected_module r = "SLM" /\
    SLM.format_response SLM.offline
      (SLM.get_response SLM.offline "fire emergency number")
    = Ok (response_text r) /\
    (no_completion SLM.offline "fire emergency number" ->
     exists query_type text,
       In (query_type, text) SLM.fallback_responses /\
       response_text r = text +:+ predefined_footer query_type).
Proof.
  assert (Hpick : pick "fire emergency number" = CAG)
    by (vm_compute; reflexivity).
  split; [now rewrite Hpick|].
  apply (proj1 (fallback_on_unavailable only_slm SLM.offline
                                        "fire emergency number")).
  - reflexivity.
  - now rewrite Hpick.
Defined.

(** C3 as stated fails on both of its conditions.  With the cache module
    absent, the query "fire emergency number" (picked: CAG) is answered
    under the label "SLM", not "fallback".  With the cache module present
    and its answer a failure (the dictionary of its [except] branch), or
    present on an empty cache and its answer empty-handed, that answer is
    returned as it is: no fallback takes place, the response is unsuccessful
    and its text is the cache module's, not a canned response. *)
Lemma fallback_on_unavailable_counterexample :
  (pick "fire emergency number" = CAG /\
   module_of only_slm (pick "fire emergency number") = None /\
   exists r,
     route_query only_slm "fire emergency number" = Ok r /\
     selected_module r = "SLM" /\
     selected_module r <> "fallback") /\
  (module_of failing_cache (pick "fire emergency number") = Some failing_cag /\
   get_response failing_cag "fire emergency number"
   = Ok (CAG.failed "TypeError") /\
   exists r,
     route_query failing_cache "fire emergency number" = Ok r /\
     success r = false /\
     selected_module r = "CAG" /\
     response_text r
     = "I couldn't find that information in my cache. Let me search other sources for you.") /\
  (module_of empty_cache (pick "fire emergency number") = Some (of_cag []) /\
   CAG.success (CAG.get_response [] "fire emergency number") = false /\
   exists r,
     route_query empty_cache "fire emergency number" = Ok r /\
     success r = false /\
     selected_module r = "CAG" /\
     response_text r
     = "I couldn't find that information in my cache. Let me search other sources for you.").
Proof.
  assert (Hpick : pick "fire emergency number" = CAG)
    by (vm_compute; reflexivity).
  rewrite !Hpick. split; [|split].
  - split; [reflexivity|]. split; [reflexivity|].
    destruct (route_query only_slm "fire emergency number") as [r|e] eqn:E;
      vm_compute in E; [|discriminate E].
    injection E as <-. eexists. repeat split. discriminate.
  - split; [reflexivity|]. split; [reflexivity|].
    destruct (route_query failing_cache "fire emergency number")
      as [r|e] eqn:E; vm_compute in E; [|discriminate E].
    injection E as <-. eexists. repeat split.
  - split; [reflexivity|]. split; [reflexivity|].
    destruct (route_query empty_cache "fire emergency number") as [r|e] eqn:E;
      vm_compute in E; [|discriminate E].
    injection E as <-. eexists. repeat split.
Qed.

End ControllerFacts.

(** ** Document strategy *)

Section DocumentFacts.
Import RAG ChunkSpec.

Lemma string_ind2 (P : string -> Prop) :
  P "" ->
  (forall c, P (String c "")) ->
  (forall c d s, P s -> P (String d s) -> P (String c (String d s))) ->
  forall s, P s.
Proof.
  intros H0 H1 H2 s.
  assert (H : P s /\ forall c, P (String c s)); [|apply H].
  induction s as [|d s [IHs IHc]]; split; auto.
Qed.

(** One step of the split on a text of at least two characters. *)
Lemma split_nlnl_step (c d : ascii) (rest : string) :
  Py.split_nlnl (String c (String d rest))
  = if Ascii.eqb c Py.nl && Ascii.eqb d Py.nl
    then "" :: Py.split_nlnl rest
    else match Py.split_nlnl (String d rest) with
         | p :: ps => String c p :: ps
         | [] => [String c ""]
         end.
Proof. reflexivity. Qed.

Lemma split_nlnl_nonempty (s : string) : Py.split_nlnl s <> [].
Proof.
  induction s as [|c|c d s IH1 IH2] using string_ind2; try easy.
  rewrite split_nlnl_step.
  destruct (Ascii.eqb c Py.nl && Ascii.eqb d Py.nl); [easy|].
  destruct (Py.split_nlnl (String d s)); easy.
Qed.

Lemma concat_cons_head (sep : string) (c : ascii) (p : string)
      (ps : list string) :
  String.concat sep (String c p :: ps) = String c (String.concat sep (p :: ps)).
Proof. destruct ps; reflexivity. Qed.

(** Joining the fields of a split with the separator gives the text back. *)
Lemma join_split (s : string) : String.concat Py.nlnl (Py.split_nlnl s) = s.
Proof.
  induction s as [|c|c d s IH1 IH2] using string_ind2; try reflexivity.
  rewrite split_nlnl_step.
  destruct (Ascii.eqb c Py.nl && Ascii.eqb d Py.nl) eqn:E.
  - apply andb_true_iff in E as [->%Ascii.eqb_eq ->%Ascii.eqb_eq].
    pose proof (split_nlnl_nonempty s) as Hne.
    destruct (Py.split_nlnl s) as [|p ps]; [congruence|].
    cbn [String.concat] in *. rewrite IH1. reflexivity.
  - destruct (Py.split_nlnl (String d s)) as [|p ps] eqn:Es.
    + now apply split_nlnl_nonempty in Es.
    + rewrite concat_cons_head. now rewrite IH2.
Qed.

Lemma join_snoc (sep x : string) (l : list string) :
  l <> [] ->
  String.concat sep (l ++ [x]) = String.concat sep l +:+ sep +:+ x.
Proof.
  induction l as [|a l IH]; [congruence|]. intros _.
  destruct l as [|b l]; [reflexivity|].
  change (String.concat sep ((a :: b :: l) ++ [x]))
    with (a +:+ sep +:+ String.concat sep ((b :: l) ++ [x])).
  rewrite IH by discriminate.
  change (String.concat sep (a :: b :: l))
    with (a +:+ sep +:+ String.concat sep (b :: l)).
  now rewrite !app_assoc_str.
Qed.

Lemma tidy_solid (x : string) :
  tidy x -> x <> "" /\ Py.rstrip x = x /\ Py.lstrip x = x.
Proof. intros [Hne Hs]. split; [exact Hne|]. now apply strip_fixed. Qed.

(** Stripping a tidy text followed by the separator gives the text back. *)
Lemma strip_tidy_nlnl (x : string) : tidy x -> Py.strip (x +:+ Py.nlnl) = x.
Proof.
  intros (Hne & Hr & Hl)%tidy_solid. unfold Py.strip.
  now rewrite (rstrip_app_blank x Py.nlnl rstrip_nlnl), Hr.
Qed.

Lemma tidy_glue (x p : string) : tidy x -> tidy p -> tidy (x +:+ Py.nlnl +:+ p).
Proof.
  intros (Hx & Hxr & Hxl)%tidy_solid (Hp & Hpr & Hpl)%tidy_solid. split.
  - destruct x; [congruence | discriminate].
  - unfold Py.strip.
    rewrite <- app_assoc_str.
    rewrite (rstrip_app_solid (x +:+ Py.nlnl) p) by congruence.
    rewrite Hpr, app_assoc_str.
    now apply lstrip_app_solid.
Qed.

Lemma truthy_nonempty (x : string) : x <> "" -> Py.truthy x = true.
Proof. destruct x; [congruence | reflexivity]. Qed.

(** The loop invariant for documents of tidy paragraphs: the running chunk
    is a tidy text followed by the separator, and the bodies closed so far
    together with that text join up to the paragraphs read so far. *)
Lemma split_step_tidy (filename : string) (chunk_size : nat)
      (st : splitter) (seen : list string) (x p : string) :
  seen <> [] ->
  current_chunk st = x +:+ Py.nlnl ->
  tidy x ->
  String.concat Py.nlnl (map content (chunks st) ++ [x])
  = String.concat Py.nlnl seen ->
  tidy p ->
  exists x',
    current_chunk (split_step filename chunk_size st p) = x' +:+ Py.nlnl /\
    tidy x' /\
    String.concat Py.nlnl
      (map content (chunks (split_step filename chunk_size st p)) ++ [x'])
    = String.concat Py.nlnl (seen ++ [p]).
Proof.
  intros Hseen Hcur Hx Hjoin Hp. unfold split_step.
  rewrite (join_snoc _ p seen Hseen), <- Hjoin.
  destruct (String.length (current_chunk st +:+ p) <? chunk_size).
  - exists (x +:+ Py.nlnl +:+ p). cbn [current_chunk chunks].
    split; [now rewrite Hcur, !app_assoc_str|].
    split; [now apply tidy_glue|].
    destruct (map content (chunks st)) as [|b bs]; [reflexivity|].
    rewrite !join_snoc by discriminate. now rewrite !app_assoc_str.
  - exists p. cbn [current_chunk chunks].
    split; [reflexivity|]. split; [exact Hp|].
    unfold flush. rewrite Hcur, (strip_tidy_nlnl x Hx).
    rewrite truthy_nonempty by apply Hx.
    cbn [chunks]. rewrite map_app. cbn [map content].
    apply join_snoc. now destruct (map content (chunks st)).
Qed.

Lemma fold_tidy (filename : string) (chunk_size : nat) (ps : list string) :
  forall (st : splitter) (seen : list string) (x : string),
    seen <> [] ->
    current_chunk st = x +:+ Py.nlnl ->
    tidy x ->
    String.concat Py.nlnl (map content (chunks st) ++ [x])
    = String.concat Py.nlnl seen ->
    Forall tidy ps ->
    exists x',
      current_chunk (fold_left (split_step filename chunk_size) ps st)
      = x' +:+ Py.nlnl /\
      tidy x' /\
      String.concat Py.nlnl
        (map content
             (chunks (fold_left (split_step filename chunk_size) ps st))
         ++ [x'])
      = String.concat Py.nlnl (seen ++ ps).
Proof.
  induction ps as [|p ps IH]; intros st seen x Hseen Hcur Hx Hjoin Hps.
  - exists x. rewrite app_nil_r. auto.
  - inversion Hps as [|? ? Hp Hrest]; subst.
    destruct (split_step_tidy filename chunk_size st seen x p)
      as (x' & Hcur' & Hx' & Hjoin'); auto.
    cbn [fold_left].
    destruct (IH (split_step filename chunk_size st p) (seen ++ [p]) x')
      as (x'' & ? & ? & Hj); auto.
    { now destruct seen. }
    exists x''. rewrite <- app_assoc in Hj. auto.
Qed.

(** On a document of tidy paragraphs the chunk bodies, joined with the
    paragraph separator, are the document. *)
Lemma bodies_join (content filename : string) (chunk_size : nat) :
  Forall tidy (Py.split_nlnl content) ->
  String.concat Py.nlnl (bodies content filename chunk_size) = content.
Proof.
  intros Hps. unfold bodies, _split_document.
  pose proof (join_split content) as Hjs.
  destruct (Py.split_nlnl content) as [|p ps] eqn:Es;
    [now apply split_nlnl_nonempty in Es|].
  apply Forall_cons_iff in Hps as [Hp Hrest].
  cbn [fold_left].
  set (st1 := split_step filename chunk_size _ p).
  assert (H1 : current_chunk st1 = p +:+ Py.nlnl /\ chunks st1 = []).
  { unfold st1, split_step. cbn [current_chunk chunks next_id].
    destruct (_ <? _); cbn; auto. }
  destruct H1 as [Hcur Hch].
  destruct (fold_tidy filename chunk_size ps st1 [p] p)
    as (x & Hcur' & Hx & Hjoin); auto; try discriminate.
  { now rewrite Hch. }
  unfold flush. rewrite Hcur', (strip_tidy_nlnl x Hx).
  rewrite truthy_nonempty by apply Hx.
  cbn [chunks]. rewrite map_app. cbn [map RAG.content].
  rewrite Hjoin. exact Hjs.
Qed.

Lemma longest_bound (ps : list string) (p : string) :
  In p ps -> String.length p <= longest ps.
Proof.
  unfold longest. induction ps as [|q ps IH]; intros [].
  - subst. cbn. lia.
  - cbn. specialize (IH H). lia.
Qed.

(** A closed chunk is no longer than the text before the separator. *)
Lemma strip_before_nlnl (x : string) :
  String.length (Py.strip (x +:+ Py.nlnl)) <= String.length x.
Proof.
  unfold Py.strip.
  pose proof (lstrip_length (Py.rstrip (x +:+ Py.nlnl))) as Hl.
  rewrite (rstrip_app_blank x Py.nlnl rstrip_nlnl) in *.
  pose proof (rstrip_length x). lia.
Qed.

Lemma flush_bounded (filename : string) (bound : nat) (st : splitter) :
  bounded_state bound st ->
  Forall (fun b => String.length b <= bound)
         (map content (chunks (flush filename st))).
Proof.
  intros [Hb Hc]. unfold flush.
  destruct (Py.truthy (Py.strip (current_chunk st))) eqn:E; [|exact Hb].
  cbn [chunks]. rewrite map_app. apply Forall_app. split; [exact Hb|].
  constructor; [|constructor]. cbn [content].
  destruct Hc as [Hc | (x & Hc & Hx)]; rewrite Hc in *.
  - discriminate E.
  - pose proof (strip_before_nlnl x). lia.
Qed.

Lemma split_step_bounded (filename : string) (chunk_size bound : nat)
      (st : splitter) (p : string) :
  chunk_size <= bound ->
  String.length p <= bound ->
  bounded_state bound st ->
  bounded_state bound (split_step filename chunk_size st p).
Proof.
  intros Hsize Hp Hst. unfold split_step.
  destruct (Nat.ltb_spec (String.length (current_chunk st +:+ p)) chunk_size).
  - split; [apply Hst|]. right. exists (current_chunk st +:+ p).
    cbn [current_chunk]. split; [now rewrite app_assoc_str | lia].
  - split; [now apply flush_bounded|]. right. exists p. auto.
Qed.

Lemma fold_bounded (filename : string) (chunk_size bound : nat)
      (ps : list string) : forall st : splitter,
  chunk_size <= bound ->
  Forall (fun p => String.length p <= bound) ps ->
  bounded_state bound st ->
  bounded_state bound (fold_left (split_step filename chunk_size) ps st).
Proof.
  induction ps as [|p ps IH]; intros st Hsize Hps Hst; [exact Hst|].
  inversion Hps; subst. cbn [fold_left].
  apply IH; auto. now apply split_step_bounded.
Qed.

(** No chunk body is longer than the chunk size plus the largest paragraph. *)
Lemma bodies_bounded (content filename : string) (chunk_size : nat)
      (body : string) :
  In body (bodies content filename chunk_size) ->
  String.length body <= chunk_size + largest_paragraph content.
Proof.
  unfold bodies, _split_document, largest_paragraph.
  set (bound := chunk_size + longest (Py.split_nlnl content)).
  intros Hin.
  assert (Hall : Forall (fun b => String.length b <= bound)
                   (map RAG.content
                      (chunks (flush filename
                         (fold_left (split_step filename chunk_size)
                            (Py.split_nlnl content)
                            {| chunks := []; current_chunk := "";
                               next_id := 0 |}))))).
  { apply flush_bounded, fold_bounded.
    - unfold bound. lia.
    - apply List.Forall_forall. intros p Hp.
      pose proof (longest_bound _ _ Hp). unfold bound. lia.
    - split; [constructor | now left]. }
  rewrite List.Forall_forall in Hall. now apply Hall.
Qed.

(** Splitting after a text that does not end in white space: the separator
    that follows it is found where it stands. *)
Lemma split_app_nlnl (rest : string) (b : string) :
  Py.rstrip b = b ->
  Py.split_nlnl (b +:+ Py.nlnl +:+ rest)
  = Py.split_nlnl b ++ Py.split_nlnl rest.
Proof.
  induction b as [|c|c d b IH1 IH2] using string_ind2; intros Hb.
  - reflexivity.
  - assert (Hc : Ascii.eqb c Py.nl = false).
    { destruct (Ascii.eqb_spec c Py.nl) as [->|]; [discriminate Hb | reflexivity]. }
    change (Py.split_nlnl (String c (String Py.nl (String Py.nl rest)))
            = [String c ""] ++ Py.split_nlnl rest).
    cbn [Py.split_nlnl]. rewrite Hc. cbn [andb].
    rewrite Ascii.eqb_refl. reflexivity.
  - assert (Hd : Py.rstrip (String d b) = String d b).
    { cbn [Py.rstrip] in Hb |- *.
      destruct (Py.rstrip b) as [|e r] eqn:Er.
      - destruct (Py.is_space d); [|injection Hb as <-; reflexivity].
        destruct (Py.is_space c); discriminate Hb.
      - now injection Hb as ->. }
    rewrite !app_cons, !split_nlnl_step.
    destruct (Ascii.eqb c Py.nl && Ascii.eqb d Py.nl) eqn:E.
    + rewrite IH1; [reflexivity|].
      apply andb_true_iff in E as [_ ->%Ascii.eqb_eq].
      cbn [Py.rstrip] in Hd.
      destruct (Py.rstrip b) as [|e r] eqn:Er;
        [discriminate Hd | now injection Hd as ->].
    + change (String d (b +:+ Py.nlnl +:+ rest))
        with (String d b +:+ Py.nlnl +:+ rest).
      rewrite (IH2 Hd).
      pose proof (split_nlnl_nonempty (String d b)) as Hne.
      destruct (Py.split_nlnl (String d b)); [congruence | reflexivity].
Qed.

Lemma concat_empty_app (l1 l2 : list string) :
  String.concat "" (l1 ++ l2) = String.concat "" l1 +:+ String.concat "" l2.
Proof.
  induction l1 as [|a l1 IH]; [reflexivity|].
  assert (Hc : forall l, String.concat "" (a :: l) = a +:+ String.concat "" l).
  { intros [|? ?]; cbn [String.concat];
      [now rewrite app_empty_r | reflexivity]. }
  cbn [app]. now rewrite !Hc, IH, app_assoc_str.
Qed.

(** Removing the separators from a join of stripped texts removes them from
    each text and the ones in between. *)
Lemma remove_nlnl_join (bs : list string) :
  Forall (fun b => Py.rstrip b = b) bs ->
  remove_nlnl (String.concat Py.nlnl bs)
  = String.concat "" (map remove_nlnl bs).
Proof.
  unfold remove_nlnl.
  induction bs as [|b bs IH]; intros Hbs; [reflexivity|].
  inversion Hbs as [|? ? Hb Hrest]; subst.
  destruct bs as [|b' bs]; [reflexivity|].
  change (String.concat Py.nlnl (b :: b' :: bs))
    with (b +:+ Py.nlnl +:+ String.concat Py.nlnl (b' :: bs)).
  rewrite (split_app_nlnl _ b Hb), concat_empty_app, (IH Hrest).
  reflexivity.
Qed.

Lemma rstrip_idem (s : string) : Py.rstrip (Py.rstrip s) = Py.rstrip s.
Proof.
  induction s as [|c s IH]; [reflexivity|]. cbn [Py.rstrip].
  destruct (Py.rstrip s) as [|d r] eqn:E.
  - destruct (Py.is_space c) eqn:Ec; [reflexivity|]. cbn. now rewrite Ec.
  - cbn [Py.rstrip] in IH |- *. now rewrite IH.
Qed.

Lemma rstrip_lstrip (s : string) :
  Py.rstrip s = s -> Py.rstrip (Py.lstrip s) = Py.lstrip s.
Proof.
  induction s as [|c s IH]; [reflexivity|]. intros H. cbn [Py.lstrip].
  destruct (Py.is_space c) eqn:Ec; [|exact H].
  apply IH. cbn [Py.rstrip] in H. rewrite Ec in H.
  destruct (Py.rstrip s) as [|d r]; [discriminate H | now injection H].
Qed.

Lemma flush_stripped (filename : string) (st : splitter) :
  Forall (fun b => Py.rstrip b = b) (map RAG.content (chunks st)) ->
  Forall (fun b => Py.rstrip b = b)
         (map RAG.content (chunks (flush filename st))).
Proof.
  intros Hst. unfold flush.
  destruct (Py.truthy _); [|exact Hst].
  cbn [chunks]. rewrite map_app. apply Forall_app. split; [exact Hst|].
  constructor; [|constructor]. cbn [RAG.content].
  apply rstrip_lstrip, rstrip_idem.
Qed.

Lemma fold_stripped (filename : string) (chunk_size : nat)
      (ps : list string) : forall st : splitter,
  Forall (fun b => Py.rstrip b = b) (map RAG.content (chunks st)) ->
  Forall (fun b => Py.rstrip b = b)
         (map RAG.content
              (chunks (fold_left (split_step filename chunk_size) ps st))).
Proof.
  induction ps as [|p ps IH]; intros st Hst; [exact Hst|].
  cbn [fold_left]. apply IH. unfold split_step.
  destruct (_ <? _); cbn [chunks]; [exact Hst | now apply flush_stripped].
Qed.

(** Every chunk body is stripped. *)
Lemma bodies_stripped (content filename : string) (chunk_size : nat) :
  Forall (fun b => Py.rstrip b = b) (bodies content filename chunk_size).
Proof.
  unfold bodies, _split_document.
  apply flush_stripped, fold_stripped. constructor.
Qed.

(** C7 (chunking invariant), as the code has it.  No chunk body is longer
    than the chunk size (500 by default) plus the largest paragraph of the
    document.  When every paragraph of the document is tidy (not empty, no
    white space at either end), the chunk bodies joined with the paragraph
    separator are the document, and the bodies concatenated with their
    separators removed are the document with its separators removed. *)
Theorem chunking_invariant (content filename : string) :
  (forall body,
      In body (bodies content filename default_chunk_size) ->
      String.length body <= 500 + largest_paragraph content) /\
  (Forall tidy (Py.split_nlnl content) ->
   String.concat Py.nlnl (bodies content filename default_chunk_size)
   = content /\
   String.concat "" (map remove_nlnl (bodies content filename default_chunk_size))
   = remove_nlnl content).
Proof.
  split.
  - intros body. apply bodies_bounded.
  - intros Htidy.
    pose proof (bodies_join content filename default_chunk_size Htidy) as Hj.
    split; [exact Hj|].
    rewrite <- (remove_nlnl_join _ (bodies_stripped content filename _)).
    now rewrite Hj.
Qed.

Lemma chunking_invariant_witness :
  Forall tidy (Py.split_nlnl two_paragraphs) /\
  String.concat Py.nlnl (bodies two_paragraphs "notice.txt" default_chunk_size)
  = two_paragraphs /\
  String.concat ""
    (map remove_nlnl (bodies two_paragraphs "notice.txt" default_chunk_size))
  = remove_nlnl two_paragraphs.
Proof.
  assert (H : Forall tidy (Py.split_nlnl two_paragraphs)).
  { vm_compute Py.split_nlnl.
    repeat constructor; try discriminate; vm_compute; reflexivity. }
  split; [exact H|].
  apply (proj2 (chunking_invariant two_paragraphs "notice.txt") H).
Defined.

(** C7 as stated fails: a document that starts with a blank loses it.  The
    only chunk body of [" a"] is ["a"], which is not the document, whether
    or not paragraph separators are removed or put back. *)
Lemma chunking_invariant_counterexample :
  bodies " a" "notice.txt" default_chunk_size = ["a"] /\
  String.concat "" (bodies " a" "notice.txt" default_chunk_size) <> " a" /\
  remove_nlnl (String.concat "" (bodies " a" "notice.txt" default_chunk_size))
  <> " a" /\
  String.concat "" (map remove_nlnl (bodies " a" "notice.txt" default_chunk_size))
  <> remove_nlnl " a" /\
  String.concat Py.nlnl (bodies " a" "notice.txt" default_chunk_size) <> " a".
Proof. repeat split; vm_compute; discriminate. Qed.

(** C10 (the empty branch of the document strategy).  Whatever the local
    search yields, the simulated web search called by [get_response] yields
    two results, so [get_response] reports success with both lists and
    never gives the "no relevant documents" answer. *)
Theorem document_empty_branch_unreachable (self : RAGModule) (query : string) :
  length (search_web query 2) = 2 /\
  success (get_response self query) = true /\
  (exists found,
      data (get_response self query) = Some found /\
      found_documents found = search_documents self query 3 /\
      web_sources found = search_web query 2) /\
  message (get_response self query) <> no_sources_message.
Proof.
  unfold get_response.
  change (length (search_web query 2)) with 2.
  cbn [Nat.eqb negb]. rewrite orb_true_r. cbn [success data message].
  split; [reflexivity|]. split; [reflexivity|]. split; [eauto|].
  discriminate.
Qed.

End DocumentFacts.

(** ** Knowledge graph *)

Section GraphFacts.
Import KAG GraphSpec.

Lemma ensure_node_keeps (n m : string) (ns : gmap string attrs) :
  is_Some (ns !! m) -> is_Some (ensure_node n ns !! m).
Proof.
  unfold ensure_node. destruct (ns !! n) eqn:E; [auto|].
  intros H. destruct (decide (n = m)) as [->|Hne].
  - rewrite lookup_insert_eq. eauto.
  - now rewrite lookup_insert_ne.
Qed.

Lemma ensure_node_has (n : string) (ns : gmap string attrs) :
  is_Some (ensure_node n ns !! n).
Proof.
  unfold ensure_node. destruct (ns !! n) eqn:E; [rewrite E; eauto|].
  rewrite lookup_insert_eq. eauto.
Qed.

(** [add_edge] makes the edge and both endpoints, and keeps what was there. *)
Lemma add_edge_has (u v : string) (a : attrs) (g : graph) :
  has_edge (add_edge u v a g) u v /\
  has_node (add_edge u v a g) u /\
  has_node (add_edge u v a g) v.
Proof.
  unfold has_edge, has_node, add_edge. cbn [nodes edges].
  rewrite lookup_insert_eq. split; [eauto|]. split.
  - apply ensure_node_keeps, ensure_node_has.
  - apply ensure_node_has.
Qed.

Lemma add_edge_keeps (u v : string) (a : attrs) (g : graph) :
  (forall x y, has_edge g x y -> has_edge (add_edge u v a g) x y) /\
  (forall n, has_node g n -> has_node (add_edge u v a g) n).
Proof.
  unfold has_edge, has_node, add_edge. cbn [nodes edges]. split.
  - intros x y H. destruct (decide ((u, v) = (x, y))) as [->|Hne].
    + rewrite lookup_insert_eq. eauto.
    + now rewrite lookup_insert_ne.
  - intros n H. now apply ensure_node_keeps, ensure_node_keeps.
Qed.

Lemma relationships_keep (rels : list relationship) : forall g : graph,
  (forall x y, has_edge g x y ->
               has_edge (fold_left add_relationship rels g) x y) /\
  (forall n, has_node g n ->
             has_node (fold_left add_relationship rels g) n).
Proof.
  induction rels as [|r rels IH]; intros g; cbn [fold_left]; [auto|].
  destruct (IH (add_relationship g r)) as [IHe IHn].
  destruct (add_edge_keeps (rel_from r) (rel_to r)
                           (relation (rel_type r)) g) as [He Hn].
  split; intros; [apply IHe, He | apply IHn, Hn]; assumption.
Qed.

(** Every relationship of the list ends up as an edge between two nodes. *)
Lemma relationships_admitted (rels : list relationship) (rel : relationship) :
  In rel rels ->
  forall g : graph,
    has_edge (fold_left add_relationship rels g) (rel_from rel) (rel_to rel) /\
    has_node (fold_left add_relationship rels g) (rel_from rel) /\
    has_node (fold_left add_relationship rels g) (rel_to rel).
Proof.
  induction rels as [|r rels IH]; intros Hin g; [destruct Hin|].
  cbn [fold_left]. destruct Hin as [->|Hin]; [|now apply IH].
  destruct (relationships_keep rels (add_relationship g rel)) as [He Hn].
  destruct (add_edge_has (rel_from rel) (rel_to rel)
                         (relation (rel_type rel)) g) as (H1 & H2 & H3).
  split; [apply He, H1 | split; [apply Hn, H2 | apply Hn, H3]].
Qed.

(** Whether the build raises is decided by the logger alone. *)
Lemma build_outcome (self : KAGModule) :
  snd (build_knowledge_graph self)
  = if logger self then Ok tt else Raise "AttributeError".
Proof. reflexivity. Qed.

(** The constructor calls the logger before binding it: it raises on every
    knowledge file. *)
Lemma init_raises (file : option (result knowledge)) :
  init file = Raise "AttributeError".
Proof. unfold init. destruct file as [[kd|e]|]; reflexivity. Qed.

Lemma ensure_node_bare (m n : string) (ns : gmap string attrs) :
  ns !! n = None \/ ns !! n = Some ∅ ->
  ensure_node m ns !! n = None \/ ensure_node m ns !! n = Some ∅.
Proof.
  unfold ensure_node. destruct (ns !! m) eqn:E; [auto|].
  destruct (decide (m = n)) as [->|Hne].
  - rewrite lookup_insert_eq. auto.
  - now rewrite lookup_insert_ne.
Qed.

Lemma add_edge_bare (u v n : string) (a : attrs) (g : graph) :
  bare g n -> bare (add_edge u v a g) n.
Proof.
  unfold bare, add_edge. cbn [nodes]. intros H.
  now apply ensure_node_bare, ensure_node_bare.
Qed.

Lemma add_node_bare (m n : string) (a : attrs) (g : graph) :
  m <> n -> bare g n -> bare (add_node m a g) n.
Proof.
  unfold bare, add_node. cbn [nodes]. intros Hne H.
  now rewrite lookup_insert_ne.
Qed.

Lemma fold_bare {A : Type} (f : graph -> A -> graph) (l : list A)
      (n : string) :
  (forall g a, In a l -> bare g n -> bare (f g a) n) ->
  forall g, bare g n -> bare (fold_left f l g) n.
Proof.
  induction l as [|a l IH]; intros Hf g Hg; [exact Hg|].
  cbn [fold_left]. apply IH.
  - intros g' a' Hin. apply Hf. now right.
  - apply Hf; [now left | exact Hg].
Qed.

(** A node id that the snapshot does not declare is left without
    attributes by the whole build. *)
Lemma build_bare (kd : knowledge) (g : graph) (n : string) :
  ~ In n (declared kd) -> bare g n -> bare (build kd g) n.
Proof.
  unfold declared, build. rewrite !in_app_iff. intros Hn Hg.
  apply fold_bare; [intros; now apply add_edge_bare|].
  apply fold_bare.
  { intros g' [proc_id proc_data] Hin. apply add_node_bare.
    intros Heq. apply Hn. do 3 right. rewrite <- Heq.
    change proc_id with (fst (proc_id, proc_data)). now apply in_map. }
  apply fold_bare.
  { intros g' i Hin Hb. apply add_edge_bare, add_node_bare; [|exact Hb].
    intros Heq. apply Hn. right; right; left. rewrite <- Heq.
    now apply in_map. }
  apply fold_bare.
  { intros g' sv Hin Hb. apply add_edge_bare, add_node_bare; [|exact Hb].
    intros Heq. apply Hn. right; left. rewrite <- Heq. now apply in_map. }
  apply fold_bare; [|exact Hg].
  intros g' d Hin. apply add_node_bare.
  intros Heq. apply Hn. left. rewrite <- Heq. now apply in_map.
Qed.



End GraphFacts.

(** * Further properties *)

(** ** Router: selection, confidence, explanation *)

Section RouterMore.
Import Router RouterSpec RouterNotes.

Lemma quad_eq {V : Type} (a b c d a' b' c' d' : V) :
  a = a' -> b = b' -> c = c' -> d = d' -> quad a b c d = quad a' b' c' d'.
Proof. congruence. Qed.

Lemma note_quad (m : module_name) (note : string) (a b c d : list string) :
  Py.update module_eqb m (fun l => l ++ [note]) (quad a b c d)
  = quad (a ++ notes_for m CAG [note]) (b ++ notes_for m RAG [note])
         (c ++ notes_for m KAG [note]) (d ++ notes_for m SLM [note]).
Proof.
  destruct m; cbn; apply quad_eq; now rewrite ?app_nil_r.
Qed.

Lemma notes_for_app (m m' : module_name) (l1 l2 : list string) :
  notes_for m m' (l1 ++ l2) = notes_for m m' l1 ++ notes_for m m' l2.
Proof. unfold notes_for. now destruct (module_eqb m m'). Qed.

Lemma keyword_notes_fold ql m kws : forall (t : tally) a b c d,
  snd t = quad a b c d ->
  snd (fold_left (keyword_step ql m) kws t)
  = quad (a ++ notes_for m CAG (keyword_notes ql kws))
         (b ++ notes_for m RAG (keyword_notes ql kws))
         (c ++ notes_for m KAG (keyword_notes ql kws))
         (d ++ notes_for m SLM (keyword_notes ql kws)).
Proof.
  unfold keyword_notes.
  induction kws as [|kw kws IH]; intros t a b c d Ht;
    cbn [fold_left List.filter map].
  - rewrite Ht. unfold notes_for.
    apply quad_eq; destruct (module_eqb _ _); now rewrite app_nil_r.
  - unfold keyword_step at 2. destruct (Py.contains kw ql) eqn:E.
    + erewrite IH
        by (unfold record_match; cbn [snd]; rewrite Ht; apply note_quad).
      cbn [map].
      change (?x :: map ?f ?l) with ([x] ++ map f l).
      rewrite !notes_for_app, <- !app_assoc. reflexivity.
    + now apply IH.
Qed.

Lemma pattern_notes_fold ql m ps : forall (t : tally) a b c d,
  snd t = quad a b c d ->
  snd (fold_left (pattern_step ql m) ps t)
  = quad (a ++ notes_for m CAG (pattern_notes ql ps))
         (b ++ notes_for m RAG (pattern_notes ql ps))
         (c ++ notes_for m KAG (pattern_notes ql ps))
         (d ++ notes_for m SLM (pattern_notes ql ps)).
Proof.
  unfold pattern_notes.
  induction ps as [|p ps IH]; intros t a b c d Ht;
    cbn [fold_left List.filter map].
  - rewrite Ht. unfold notes_for.
    apply quad_eq; destruct (module_eqb _ _); now rewrite app_nil_r.
  - unfold pattern_step at 2. destruct (Re.search (compiled p) ql) eqn:E.
    + erewrite IH
        by (unfold record_match; cbn [snd]; rewrite Ht; apply note_quad).
      cbn [map].
      change (?x :: map ?f ?l) with ([x] ++ map f l).
      rewrite !notes_for_app, <- !app_assoc. reflexivity.
    + now apply IH.
Qed.

Lemma module_notes_fold ql m cfg (t : tally) a b c d :
  snd t = quad a b c d ->
  let l := keyword_notes ql (keywords cfg) ++ pattern_notes ql (patterns cfg) in
  snd (module_step ql t (m, cfg))
  = quad (a ++ notes_for m CAG l) (b ++ notes_for m RAG l)
         (c ++ notes_for m KAG l) (d ++ notes_for m SLM l).
Proof.
  intros Ht. unfold module_step.
  erewrite pattern_notes_fold by (apply keyword_notes_fold; exact Ht).
  cbn zeta. rewrite !notes_for_app, <- !app_assoc. reflexivity.
Qed.

(** The scoring loop leaves, for each module, the notes of its own matches. *)
Lemma query_notes_quad query :
  snd (tally_of (Py.lower query))
  = quad (notes_of query CAG) (notes_of query RAG)
         (notes_of query KAG) (notes_of query SLM).
Proof.
  unfold tally_of, routing_patterns. cbn [fold_left].
  erewrite module_notes_fold; cycle 1.
  { erewrite module_notes_fold; cycle 1.
    { erewrite module_notes_fold; cycle 1.
      { erewrite module_notes_fold by reflexivity. reflexivity. }
      reflexivity. }
    reflexivity. }
  unfold notes_of, notes_for.
  cbn [module_eqb config_of keywords patterns app].
  apply quad_eq; cbn -[keyword_notes pattern_notes];
    now rewrite ?app_nil_r.
Qed.

(** Everything [analyze_query] returns, field by field. *)
Lemma analyze_query_fields query :
  let best := Py.max_from (score query) CAG [RAG; KAG; SLM] in
  analyze_query query
  = Ok {| selected_module := if score query best =? 0 then SLM else best;
          scores := query_scores query;
          matched_patterns := snd (tally_of (Py.lower query));
          why := if score query best =? 0 then NoSpecificPatterns
                 else HighestScore (score query best)
                        (matched_of (snd (tally_of (Py.lower query))) best);
          confidence :=
            Z.of_nat (score query best)
            # Pos.of_nat (Nat.max (Py.sum (Py.values (query_scores query))) 1) |}.
Proof.
  intros best. unfold analyze_query.
  pose proof (query_scores_four query) as Hfour.
  unfold query_scores in Hfour |- *.
  assert (Hs : forall m, score_of (fst (tally_of (Py.lower query))) m
                         = score query m) by reflexivity.
  destruct (tally_of (Py.lower query)) as [sc mp] eqn:Et.
  cbn [fst snd] in *.
  assert (Hbest : Py.max_by (score_of sc) (Py.keys sc)
                  = Some (Py.max_from (score_of sc) CAG [RAG; KAG; SLM])).
  { rewrite Hfour at 2. reflexivity. }
  rewrite Hbest.
  assert (Hb : Py.max_from (score_of sc) CAG [RAG; KAG; SLM] = best).
  { unfold best. cbn [Py.max_from]. now rewrite !Hs. }
  rewrite Hb, Hs.
  now destruct (score query best =? 0).
Qed.

Lemma matched_of_quad (a b c d : list string) (m : module_name) :
  matched_of (quad a b c d) m
  = match m with CAG => a | RAG => b | KAG => c | SLM => d end.
Proof. now destruct m. Qed.

Lemma score_of_four (a b c d : nat) (m : module_name) :
  score_of (four a b c d) m
  = match m with CAG => a | RAG => b | KAG => c | SLM => d end.
Proof. now destruct m. Qed.

(** X1.  [analyze_query] never raises, and the module it selects always
    has the highest score of the query: the first top-scoring key, or SLM
    when the highest score is 0 (every score is then 0). *)
Theorem selected_attains_highest (query : string) :
  exists a,
    analyze_query query = Ok a /\
    (forall m, score_of (scores a) m <= score_of (scores a) (selected_module a)) /\
    (score_of (scores a) (selected_module a) = 0 ->
     selected_module a = SLM /\ why a = NoSpecificPatterns).
Proof.
  eexists. split; [apply analyze_query_fields|].
  cbn [scores selected_module why].
  destruct (max_four (score query)) as [Hmax _].
  set (best := Py.max_from (score query) CAG [RAG; KAG; SLM]) in *.
  fold (score query).
  destruct (Nat.eqb_spec (score query best) 0) as [Hz|Hnz].
  - split; [|auto].
    intros m. specialize (Hmax m). unfold score in *. lia.
  - split; [exact Hmax|]. unfold score in *. intros Hc. lia.
Qed.

Lemma score_capped (query : string) (m : module_name) :
  score query m <= cap m.
Proof.
  rewrite score_weighted. unfold weighted_hits, keyword_hits, pattern_hits, cap.
  pose proof (List.filter_length_le
                (fun kw => Py.contains kw (Py.lower query))
                (keywords (config_of m))).
  pose proof (List.filter_length_le
                (fun p => Re.search (compiled p) (Py.lower query))
                (patterns (config_of m))).
  lia.
Qed.

(** The division of the router, checked on every pair of scores that the
    routing table allows. *)
Lemma quotients_checked : quotients_in_unit total_cap = true.
Proof. vm_compute. reflexivity. Qed.

Lemma quotient_in_unit (b t : nat) :
  b <= t -> 1 <= t -> t <= total_cap ->
  in_unit (Confidence.true_div b t) = true.
Proof.
  intros Hb Ht Hcap. pose proof quotients_checked as H.
  unfold quotients_in_unit in H.
  rewrite forallb_forall in H. specialize (H t).
  rewrite forallb_forall in H. apply H; apply in_seq; lia.
Qed.

(** X2.  The confidence that [analyze_query] returns is the double
    [best / max(total, 1)], where [best] is the score of the selected module
    and [total] the sum of the four scores; it is never below 0.0 and never
    above 1.0. *)
Theorem confidence_bounds (query : string) :
  exists a,
    analyze_query query = Ok a /\
    Confidence.reported a
    = Confidence.true_div
        (score_of (scores a) (selected_module a))
        (Nat.max (score_of (scores a) CAG + score_of (scores a) RAG
                  + score_of (scores a) KAG + score_of (scores a) SLM) 1) /\
    in_unit (Confidence.reported a) = true.
Proof.
  eexists. split; [apply analyze_query_fields|].
  unfold Confidence.reported.
  cbn [scores selected_module confidence Qnum Qden].
  destruct (max_four (score query)) as [Hmax _].
  set (best := Py.max_from (score query) CAG [RAG; KAG; SLM]) in *.
  set (sc := score_of (query_scores query)).
  assert (Hsc : forall m, score query m = sc m) by reflexivity.
  rewrite !Hsc. setoid_rewrite Hsc in Hmax.
  assert (Hsel : sc (if sc best =? 0 then SLM else best) = sc best).
  { destruct (Nat.eqb_spec (sc best) 0) as [Hz|]; [|reflexivity].
    specialize (Hmax SLM). lia. }
  rewrite Hsel.
  assert (Hsum : Py.sum (Py.values (query_scores query))
                 = sc CAG + sc RAG + sc KAG + sc SLM).
  { unfold sc. rewrite query_scores_four, !score_of_four. reflexivity. }
  rewrite Hsum.
  set (total := sc CAG + sc RAG + sc KAG + sc SLM).
  rewrite Nat2Z.id, Nat2Pos.id by lia.
  split; [reflexivity|].
  apply quotient_in_unit; [unfold total; destruct best; lia | lia |].
  assert (Hcap : forall m, sc m <= cap m)
    by (intros m; rewrite <- Hsc; apply score_capped).
  pose proof (Hcap CAG). pose proof (Hcap RAG).
  pose proof (Hcap KAG). pose proof (Hcap SLM).
  change total_cap with 91. unfold total.
  change (cap CAG) with 24 in *. change (cap RAG) with 23 in *.
  change (cap KAG) with 23 in *. change (cap SLM) with 21 in *.
  lia.
Qed.

(** X3.  The explanation matches the scores: for every module, the
    matched-pattern list holds the notes of its keywords found in the
    lower-cased query, then of its patterns that match, in table order, so
    that the score is the number of keyword notes plus twice the number of
    pattern notes. *)
Theorem explanation_lists_matches (query : string) (m : module_name) :
  exists a,
    analyze_query query = Ok a /\
    matched_of (matched_patterns a) m
    = keyword_notes (Py.lower query) (keywords (config_of m))
      ++ pattern_notes (Py.lower query) (patterns (config_of m)) /\
    score_of (scores a) m
    = length (keyword_notes (Py.lower query) (keywords (config_of m)))
      + 2 * length (pattern_notes (Py.lower query) (patterns (config_of m))).
Proof.
  eexists. split; [apply analyze_query_fields|].
  cbn [scores matched_patterns]. split.
  - rewrite query_notes_quad, matched_of_quad. now destruct m.
  - fold (score query m). rewrite score_weighted.
    unfold weighted_hits, keyword_hits, pattern_hits,
      keyword_notes, pattern_notes.
    now rewrite !length_map.
Qed.

End RouterMore.

Section ConfidenceExample.
Import PrimFloat.

(** On "phone steps report" the selected module scores 3 of 7 points, and
    the confidence is the double nearest to 3/7, 0.42857142857142855. *)
Example confidence_three_sevenths :
  exists a,
    Router.analyze_query "phone steps report" = Ok a /\
    Confidence.reported a = 0x1.b6db6db6db6dbp-2%float.
Proof. eexists. split; vm_compute; reflexivity. Qed.

End ConfidenceExample.

(** ** Dispatch: what [route_query] returns in every case *)

Section DispatchMore.
Import Router RouterSpec Controller ControllerSpec DispatchSpec.

Lemma dispatch_none (self : AgentController) (query : string)
      (selected : module_name) :
  module_of self selected = None ->
  slm_module self = None ->
  dispatch self query selected = Ok (false, no_modules_text, name selected).
Proof.
  unfold dispatch. intros Hm Hs.
  destruct selected; cbn [module_of] in Hm; rewrite ?Hm, ?Hs;
    repeat match goal with
           | |- context [match ?x with Some _ => _ | None => _ end] =>
               destruct x
           end; reflexivity.
Qed.

(** The [try] body in terms of the module consulted. *)
Lemma dispatch_consulted (self : AgentController) (query : string)
      (selected : module_name) :
  dispatch self query selected
  = match consulted self selected with
    | None => Ok (false, no_modules_text, name selected)
    | Some m =>
        match ask m query with
        | Ok (ok, formatted) =>
            Ok (ok, formatted,
                if available (module_of self selected)
                then name selected else "SLM")
        | Raise e => Raise e
        end
    end.
Proof.
  unfold consulted.
  destruct (module_of self selected) as [m|] eqn:Hm.
  - now rewrite (dispatch_present self m).
  - destruct (slm_module self) as [s|] eqn:Hs.
    + now rewrite (dispatch_absent self s).
    + now apply dispatch_none.
Qed.

(** X4.  [route_query] never raises, whatever the module objects do: it
    returns a response that carries the router's analysis and one of the
    four module names as its label. *)
Theorem route_query_returns (self : AgentController) (query : string) :
  exists r,
    route_query self query = Ok r /\
    analyze_query query = Ok (routing_analysis r) /\
    In (selected_module r) module_names.
Proof.
  destruct (pick_analysis query) as (a & Ha & Hpick).
  unfold route_query. rewrite Ha. cbn zeta. rewrite dispatch_consulted.
  assert (Hname : forall m, In (name m) module_names)
    by (intros []; cbn; tauto).
  destruct (consulted self (Router.selected_module a)) as [m|].
  - destruct (ask m query) as [[ok formatted]|e].
    + eexists. split; [reflexivity|]. split; [reflexivity|].
      cbn [selected_module].
      destruct (available _); [apply Hname | cbn; tauto].
    + eexists. split; [reflexivity|]. split; [reflexivity|]. apply Hname.
  - eexists. split; [reflexivity|]. split; [reflexivity|]. apply Hname.
Qed.

(** X5.  When the module consulted raises, in [get_response] or in
    [format_response], the exception is absorbed: the response is
    unsuccessful, its text is the generic error sentence, it records the
    exception, and its label is the router's pick, also when the module
    that raised was the conversational one standing in for an absent pick. *)
Theorem module_error_absorbed (self : AgentController) (query : string)
        (m : AIModule) (e : string) :
  consulted self (pick query) = Some m ->
  ask m query = Raise e ->
  exists r,
    route_query self query = Ok r /\
    success r = false /\
    response_text r = routing_error_text /\
    selected_module r = name (pick query) /\
    error r = Some e.
Proof.
  intros Hm He.
  destruct (pick_analysis query) as (a & Ha & Hpick).
  unfold route_query. rewrite Ha, Hpick. cbn zeta. rewrite dispatch_consulted, Hm, He.
  eexists. split; [reflexivity|]. cbn. auto.
Qed.

Lemma module_error_absorbed_witness :
  exists r,
    route_query raising_fallback "fire emergency number" = Ok r /\
    success r = false /\
    response_text r = routing_error_text /\
    selected_module r = name (pick "fire emergency number") /\
    error r = Some "RuntimeError".
Proof.
  assert (Hpick : pick "fire emergency number" = CAG)
    by (vm_compute; reflexivity).
  apply (module_error_absorbed raising_fallback "fire emergency number"
                               raising_module "RuntimeError").
  - now rewrite Hpick.
  - reflexivity.
Defined.

(** X6.  When neither the picked module nor the conversational module is
    present, the response is unsuccessful, its text is the apology
    sentence, and its label is the router's pick. *)
Theorem no_module_apology (self : AgentController) (query : string) :
  consulted self (pick query) = None ->
  exists r,
    route_query self query = Ok r /\
    success r = false /\
    response_text r = no_modules_text /\
    selected_module r = name (pick query) /\
    error r = None.
Proof.
  intros Hm.
  destruct (pick_analysis query) as (a & Ha & Hpick).
  unfold route_query. rewrite Ha, Hpick. cbn zeta. rewrite dispatch_consulted, Hm.
  eexists. split; [reflexivity|]. cbn. auto.
Qed.

Lemma no_module_apology_witness :
  exists r,
    route_query no_modules "hello" = Ok r /\
    success r = false /\
    response_text r = no_modules_text /\
    selected_module r = name (pick "hello") /\
    error r = None.
Proof.
  apply (no_module_apology no_modules "hello").
  unfold consulted. now destruct (pick "hello").
Defined.

End DispatchMore.

(** ** Construction: what the controller holds once it is built *)

Section StartupMore.
Import Router Controller ControllerSpec DispatchSpec Startup.

(** The cache constructor logs before its logger is bound. *)
Lemma cag_init_raises (file : option (result CAG.cache)) :
  cag_init file = Raise "AttributeError".
Proof. destruct file as [[c|e]|]; reflexivity. Qed.

(** So does the document constructor, whatever the directory holds. *)
Lemma rag_init_raises (dir : option (list (string * result string)))
      (searcher : list RAG.chunk -> string -> nat -> list RAG.doc_hit) :
  rag_init dir searcher = Raise "AttributeError".
Proof. destruct dir; reflexivity. Qed.

(** X7.  Each of the three knowledge-backed constructors calls
    [self.logger] before binding it, so [AgentController()] always ends up
    with the document, graph and cache modules absent and the
    conversational module present; every query is then answered by the
    conversational module, successfully and under the label "SLM",
    whatever the router picked. *)
Theorem constructed_controller_answers
        (of_rag : RAG.RAGModule -> AIModule)
        (of_kag : KAG.KAGModule -> AIModule)
        (env : environment) (query : string) :
  let self := controller_init of_rag of_kag env in
  let slm := slm_init (openai_installed env) None (env_api_key env)
                      "gpt-3.5-turbo" (chat_completion env) (clock env) in
  rag_module self = None /\
  kag_module self = None /\
  cag_module self = None /\
  slm_module self = Some (of_slm slm) /\
  exists r,
    route_query self query = Ok r /\
    success r = true /\
    selected_module r = "SLM" /\
    SLM.format_response slm (SLM.get_response slm query)
    = Ok (response_text r).
Proof.
  intros self slm.
  assert (Hrag : rag_module self = None).
  { unfold self, controller_init. cbn [rag_module].
    now rewrite rag_init_raises. }
  assert (Hkag : kag_module self = None).
  { unfold self, controller_init. cbn [kag_module].
    now rewrite init_raises. }
  assert (Hcag : cag_module self = None).
  { unfold self, controller_init. cbn [cag_module].
    now rewrite cag_init_raises. }
  assert (Hslm : slm_module self = Some (of_slm slm)) by reflexivity.
  repeat (split; [assumption|]).
  destruct (pick_analysis query) as (a & Ha & Hpick).
  destruct (format_response_answers slm query) as (Hok & text & Htext).
  assert (Hcons : consulted self (pick query) = Some (of_slm slm)).
  { unfold consulted.
    destruct (pick query); cbn [module_of];
      rewrite ?Hrag, ?Hkag, ?Hcag, ?Hslm; reflexivity. }
  assert (Hlabel : (if available (module_of self (pick query))
                    then name (pick query) else "SLM") = "SLM").
  { destruct (pick query); cbn [module_of];
      rewrite ?Hrag, ?Hkag, ?Hcag, ?Hslm; reflexivity. }
  unfold route_query. rewrite Ha, Hpick. cbn zeta.
  rewrite dispatch_consulted, Hcons, Hlabel.
  unfold ask. cbn [get_response format_response succeeded of_slm].
  rewrite Htext, Hok.
  eexists. split; [reflexivity|]. cbn. auto.
Qed.

End StartupMore.

(** ** Cache strategy: what a lookup can return *)

Section CacheMoreFacts.
Import CAG CacheSpec CacheMore.

Lemma first_hit_in (data : partition) (query : string)
      (table : Py.dict string string) (h : hit) :
  first_hit table data query = Some h ->
  In (hit_keyword h, hit_key h) table /\
  Py.contains (hit_keyword h) query = true /\
  Py.sget (hit_key h) data = Some (hit_value h).
Proof.
  intros H. destruct (first_hit_sound _ _ _ _ H) as (pre & post & -> & ? & ? & _).
  split; [|auto]. apply in_elt.
Qed.

(** The quick-info loop returns a hit of an entry naming one key, or the
    website list. *)
Lemma quick_loop_sound (data : partition) (query : string) (r : cached) :
  quick_loop info_keywords data query = Some r ->
  (exists h, first_hit quick_keywords data query = Some h /\
             r = quick_info (Py.title (hit_keyword h)) (hit_value h)) \/
  (Py.contains "website" query = true /\
   r = websites (pick website_keys data)).
Proof.
  unfold quick_keywords, info_keywords. cbn [quick_loop first_hit].
  repeat match goal with
         | |- context [Py.contains ?k query] =>
             destruct (Py.contains k query) eqn:?
         | |- context [Py.sget ?k data] =>
             destruct (Py.sget k data) eqn:?
         end;
    intros [= <-] || discriminate;
    (left; eexists; split; reflexivity) || (right; split; reflexivity).
Qed.

(** Every result of [search_cache] is explained by the tables and the
    cache. *)
Lemma search_cache_accounted (cache_data : cache) (query : string) (r : cached) :
  search_cache cache_data query = Some r ->
  explained cache_data (Py.lower query) r.
Proof.
  rewrite search_cache_route. unfold explained.
  destruct (route (Py.lower query)) as [t|] eqn:Hroute; [|discriminate].
  assert (Hhit : forall h,
             first_hit (table t) (category (partition_name t) cache_data)
                       (Py.lower query) = Some h ->
             exists t0 keyword key value,
               Some t = Some t0 /\
               In (keyword, key) (table t0) /\
               Py.contains keyword (Py.lower query) = true /\
               loaded cache_data t0 key = Some value /\
               found t (hit_keyword h) (hit_key h) (hit_value h)
               = found t0 keyword key value).
  { intros h Hh. apply first_hit_in in Hh as (Hin & Hc & Hv).
    exists t, (hit_keyword h), (hit_key h), (hit_value h). auto. }
  destruct t; cbn [table partition_name] in Hhit.
  - unfold _search_emergency_contacts.
    destruct (first_hit _ _ _) as [h|] eqn:Hh.
    + intros [= <-]. left. now apply Hhit.
    + destruct (Py.contains "emergency" _) eqn:He; [|discriminate].
      destruct (Py.contains "all" _) eqn:Ha; [|discriminate].
      intros [= <-]. right; left. auto.
  - unfold _search_government_contacts.
    destruct (first_hit _ _ _) as [h|] eqn:Hh; [|discriminate].
    intros [= <-]. left. now apply Hhit.
  - unfold _search_civic_services.
    destruct (first_hit _ _ _) as [h|] eqn:Hh; [|discriminate].
    intros [= <-]. left. now apply Hhit.
  - unfold _search_zone_info.
    destruct (first_hit _ _ _) as [h|] eqn:Hh; [|discriminate].
    intros [= <-]. left. now apply Hhit.
  - unfold _search_quick_info. intros Hq.
    apply quick_loop_sound in Hq as [(h & Hh & ->)|[Hw ->]].
    + left. now apply Hhit.
    + right; right. auto.
Qed.

(** X8.  Every result of [search_cache] is accounted for by the tables: it
    is built from a keyword that occurs in the lower-cased query, of the
    table the first-pass test sends the query to, and from the value loaded
    under that keyword's cache key; or it is the list of all emergency
    contacts (query naming "emergency" and "all") or the list of websites
    (query naming "website").  No contact value is ever made up. *)
Theorem search_cache_sound (cache_data : cache) (query : string) (r : cached) :
  search_cache cache_data query = Some r ->
  explained cache_data (Py.lower query) r.
Proof. apply search_cache_accounted. Qed.

Lemma search_cache_sound_witness :
  explained civic_cache (Py.lower "Fire emergency number")
            (emergency_contact "Fire" "101" "24x7").
Proof.
  apply (search_cache_sound civic_cache "Fire emergency number").
  reflexivity.
Defined.

Lemma first_hit_empty (table : Py.dict string string) (query : string) :
  first_hit table [] query = None.
Proof.
  induction table as [|[keyword key] table IH]; [reflexivity|].
  cbn [first_hit]. destruct (Py.contains keyword query); exact IH.
Qed.

Lemma quick_loop_empty (query : string) :
  quick_loop info_keywords [] query
  = if Py.contains "website" query then Some (websites []) else None.
Proof.
  unfold info_keywords. cbn [quick_loop].
  repeat match goal with
         | |- context [Py.contains ?k query] =>
             destruct (Py.contains k query) eqn:?
         end; reflexivity.
Qed.

(** X9.  Where the category a table reads is missing from the cache (or
    empty), no keyword of the table finds anything, but the two list
    results are still returned, without entries: a query sent to the
    emergency table that names "emergency" and "all" gets the empty contact
    list, a query sent to the quick-info table that names "website" gets
    the empty website list, and [get_response] reports both as successes;
    every other query gets nothing and a failure. *)
Theorem missing_category (cache_data : cache) (query : string) (t : table_id) :
  route (Py.lower query) = Some t ->
  category (partition_name t) cache_data = [] ->
  search_cache cache_data query = list_answer t (Py.lower query) /\
  success (get_response cache_data query)
  = answered (list_answer t (Py.lower query)).
Proof.
  intros Hroute Hempty.
  assert (Hs : search_cache cache_data query = list_answer t (Py.lower query)).
  { rewrite search_cache_route, Hroute.
    destruct t; cbn [partition_name] in Hempty;
      unfold _search_emergency_contacts, _search_government_contacts,
        _search_civic_services, _search_zone_info, _search_quick_info;
      cbn zeta; rewrite Hempty, ?first_hit_empty, ?quick_loop_empty;
      reflexivity. }
  split; [exact Hs|]. unfold get_response. rewrite Hs.
  now destruct (list_answer t (Py.lower query)).
Qed.

Lemma missing_category_witness :
  search_cache [] "All emergency contacts" = Some (all_emergency_contacts []) /\
  success (get_response [] "All emergency contacts") = true.
Proof.
  apply (missing_category [] "All emergency contacts" Emergency);
    reflexivity.
Defined.

Lemma contains_prefix (x s : string) :
  String.prefix x s = true -> Py.contains x s = true.
Proof. intros H. destruct s; cbn [Py.contains]; now rewrite H. Qed.

Lemma prefix_here (x b : string) : String.prefix x (x +:+ b) = true.
Proof.
  induction x as [|c x IH]; [now destruct b|].
  rewrite app_cons. cbn [String.prefix].
  destruct (Ascii.ascii_dec c c); [exact IH | congruence].
Qed.

Lemma contains_here (x b : string) : Py.contains x (x +:+ b) = true.
Proof. apply contains_prefix, prefix_here. Qed.

Lemma contains_end (x : string) : Py.contains x x = true.
Proof. rewrite <- (app_empty_r x) at 2. apply contains_here. Qed.

Lemma contains_app_r (x a s : string) :
  Py.contains x s = true -> Py.contains x (a +:+ s) = true.
Proof.
  intros H. induction a as [|c a IH]; [exact H|].
  rewrite app_cons. cbn [Py.contains]. rewrite IH. apply orb_true_r.
Qed.

(** X10.  A keyword hit is shown to the user: when the lookup returns the
    entry built from a keyword and its cached value, [format_response]
    applied to [get_response]'s answer returns (it does not raise) a text
    that contains the cached value and the keyword in title case. *)
Theorem cached_answer_shows_value (cache_data : cache) (query : string)
        (t : table_id) (keyword key value : string) :
  search_cache cache_data query = Some (found t keyword key value) ->
  exists text,
    format_response (get_response cache_data query) = Ok text /\
    Py.contains (Py.title keyword) text = true /\
    Py.contains value text = true.
Proof.
  intros H. unfold get_response. rewrite H. unfold format_response.
  cbn [success data negb]. eexists. split; [reflexivity|].
  destruct t; cbn [found format_cached]; split;
    repeat first [ apply contains_here | apply contains_end
                 | apply contains_app_r ].
Qed.

Lemma cached_answer_shows_value_witness :
  exists text,
    format_response (get_response civic_cache "Property Tax") = Ok text /\
    Py.contains (Py.title "property tax") text = true /\
    Py.contains "1913" text = true.
Proof.
  apply (cached_answer_shows_value civic_cache "Property Tax"
           Civic "property tax" "property_tax" "1913").
  reflexivity.
Defined.

(** X11.  The first-pass test for emergency words shadows every other
    table: a query that holds one of "emergency", "helpline", "contact",
    "phone", "number" but none of the emergency keywords (and is not the
    "all emergency" query) gets no cached answer, whatever the cache holds
    for the other tables.  So "Property tax helpline" finds nothing although
    the property-tax helpline is cached. *)
Theorem emergency_words_shadow (cache_data : cache) (query : string) :
  Py.any_in emergency_gate (Py.lower query) = true ->
  (forall keyword key,
      In (keyword, key) emergency_keywords ->
      Py.contains keyword (Py.lower query) = false) ->
  Py.contains "all" (Py.lower query) = false ->
  search_cache cache_data query = None.
Proof.
  intros Hgate Hnone Hall.
  assert (Hroute : route (Py.lower query) = Some Emergency)
    by (unfold route; now rewrite Hgate).
  destruct (search_cache cache_data query) as [r|] eqn:Hr; [|reflexivity].
  apply search_cache_accounted in Hr.
  destruct Hr as [(t & kw & key & v & Ht & Hin & Hc & _)
                 |[(_ & _ & Ha & _)|(Ht & _)]].
  - rewrite Hroute in Ht. injection Ht as Ht. subst t.
    cbn [table] in Hin. rewrite (Hnone _ _ Hin) in Hc. discriminate Hc.
  - rewrite Hall in Ha. discriminate Ha.
  - rewrite Hroute in Ht. discriminate Ht.
Qed.

Lemma emergency_words_shadow_witness :
  search_cache civic_cache "Property tax helpline" = None /\
  Py.sget "property_tax" (category "civic_services_helplines" civic_cache)
  = Some "1913".
Proof.
  split; [|reflexivity].
  apply (emergency_words_shadow civic_cache "Property tax helpline").
  - reflexivity.
  - intros keyword key Hin.
    repeat (destruct Hin as [[= <- <-]|Hin]; [reflexivity|]).
    destruct Hin.
  - reflexivity.
Defined.

End CacheMoreFacts.

(** ** Conversational strategy: completion or canned text *)

Section ConversationalMore.
Import SLM ConversationalSpec.

(** X12.  The answer carries a generated text exactly when the client is
    available, the completion call returns, and its content is not blank;
    the text is then the stripped content, under the module's model name.
    In every other case (no client, an error of the call, a content of white
    space only) the answer is the predefined one. *)
Theorem generated_iff_usable (self : SLMModule) (query text m : string) :
  data (get_response self query) = Some (openai_api text m) <->
  client_available self = true /\ m = model self /\ text <> "" /\
  exists content,
    chat_completion self query = Ok content /\ text = Py.strip content.
Proof.
  unfold get_response, generate_openai_response. split.
  - destruct (client_available self); cbn [negb].
    + destruct (chat_completion self query) as [content|e].
      * destruct (Py.strip content) as [|c rest] eqn:Hs; cbn [Py.truthy].
        -- destruct (predefined_canned query) as (t & -> & _). discriminate.
        -- cbn [data]. intros [= <- <-].
           repeat split; [easy|]. exists content. now rewrite Hs.
      * destruct (predefined_canned query) as (t & -> & _). discriminate.
    + destruct (predefined_canned query) as (t & -> & _). discriminate.
  - intros (-> & -> & Hne & content & -> & ->). cbn [negb].
    now rewrite (truthy_nonempty _ Hne).
Qed.

(** X13.  The classification always names an entry of the table of
    predefined texts: the lookup's default is never needed, and the
    predefined answer carries exactly that entry's (non-empty) text. *)
Theorem classification_has_text (query : string) :
  exists text,
    Py.sget (classify_query_type query) fallback_responses = Some text /\
    text <> "" /\
    data (predefined query)
    = Some (fallback_response text (classify_query_type query)).
Proof.
  unfold predefined, classify_query_type.
  repeat match goal with
         | |- context [Py.any_in ?ks ?q] => destruct (Py.any_in ks q)
         end;
    eexists; (split; [reflexivity|split; [easy|reflexivity]]).
Qed.

(** X14.  [format_response] never raises on an answer of [get_response]:
    the text shown is the response text, a blank line, and a footer that
    names the query type of a predefined answer or the model and the time
    of a generated one. *)
Theorem formatted_is_text_and_footer (self : SLMModule) (query : string) :
  exists footer,
    format_response self (get_response self query)
    = Ok (response_text (get_response self query) +:+ NL +:+ NL +:+ footer) /\
    (footer = predefined_note query \/ footer = generated_note self).
Proof.
  destruct (get_response_cases self query) as [-> | (c & r & _ & ->)].
  - destruct (predefined_canned query) as (text & -> & _ & _).
    exists (predefined_note query). split; [reflexivity | now left].
  - exists (generated_note self). split; [reflexivity | now right].
Qed.

Lemma lower_app (a b : string) :
  Py.lower (a +:+ b) = Py.lower a +:+ Py.lower b.
Proof.
  unfold Py.lower. induction a as [|c a IH]; [reflexivity|].
  rewrite app_cons. cbn [Py.map_str]. now rewrite IH, app_cons.
Qed.

(** X15.  Intent words are matched as substrings, not as words, and the
    greeting rule comes first: any text in which the letters "hi" occur
    anywhere (as in "this" or "which") is classified as a greeting, whatever
    else it says. *)
Theorem greeting_by_substring (before after : string) :
  classify_query_type (before +:+ "hi" +:+ after) = "greeting".
Proof.
  unfold classify_query_type. rewrite !lower_app.
  change (Py.lower "hi") with "hi".
  assert (H : Py.contains "hi" (Py.lower before +:+ "hi" +:+ Py.lower after)
              = true)
    by apply contains_app_r, contains_here.
  unfold Py.any_in. cbn [existsb]. rewrite H.
  now rewrite orb_true_r.
Qed.

End ConversationalMore.

(** ** Document strategy: labels of the chunks, short documents,
       simulated web results *)

Section DocumentMore.
Import RAG ChunkSpec ChunkMore.

Lemma lstrip_idem (s : string) : Py.lstrip (Py.lstrip s) = Py.lstrip s.
Proof.
  induction s as [|c s IH]; [reflexivity|]. cbn [Py.lstrip].
  destruct (Py.is_space c) eqn:Ec; [exact IH|]. cbn [Py.lstrip].
  now rewrite Ec.
Qed.

Lemma strip_idem (s : string) : Py.strip (Py.strip s) = Py.strip s.
Proof.
  unfold Py.strip.
  rewrite (rstrip_lstrip (Py.rstrip s) (rstrip_idem s)).
  apply lstrip_idem.
Qed.

Lemma flush_labelled (filename : string) (st : splitter) :
  labelled filename st -> labelled filename (flush filename st).
Proof.
  intros [Hn Hc]. unfold flush.
  destruct (Py.truthy (Py.strip (current_chunk st))) eqn:E; [|now split].
  split; cbn [chunks next_id].
  - rewrite length_app. cbn [length]. lia.
  - intros k c Hk.
    destruct (Nat.lt_ge_cases k (length (chunks st))) as [Hlt|Hge].
    + rewrite nth_error_app1 in Hk by exact Hlt. now apply Hc.
    + rewrite nth_error_app2 in Hk by exact Hge.
      destruct (k - length (chunks st)) as [|j] eqn:Ej;
        [|destruct j; discriminate Hk].
      injection Hk as <-. assert (k = next_id st) as -> by lia.
      repeat split; try reflexivity; cbn [content].
      * intros H0. rewrite H0 in E. discriminate E.
      * apply strip_idem.
Qed.

Lemma fold_labelled (filename : string) (chunk_size : nat)
      (ps : list string) : forall st : splitter,
  labelled filename st ->
  labelled filename (fold_left (split_step filename chunk_size) ps st).
Proof.
  induction ps as [|p ps IH]; intros st Hst; [exact Hst|].
  cbn [fold_left]. apply IH. unfold split_step.
  destruct (_ <? _); [exact Hst|].
  destruct (flush_labelled filename st Hst) as [Hn Hc]. now split.
Qed.

(** X16.  The chunks of a document are labelled by their position: the
    [k]-th chunk (from 0) has [chunk_id] [k], the identifier
    [<filename>_<k>] and the file name as its source; and its body is never
    empty and has no white space at either end. *)
Theorem chunks_labelled_in_order (content filename : string)
        (chunk_size k : nat) (c : chunk) :
  nth_error (_split_document content filename chunk_size) k = Some c ->
  numbered filename k c.
Proof.
  unfold _split_document.
  apply (flush_labelled filename), fold_labelled.
  split; [reflexivity|]. intros j d Hj. destruct j; discriminate Hj.
Qed.

Lemma chunks_labelled_in_order_witness :
  numbered "notice.txt" 1
           {| id := "notice.txt_1"; content := run_of "b" 300;
              source := "notice.txt"; chunk_id := 1 |}.
Proof.
  apply (chunks_labelled_in_order two_paragraphs "notice.txt" 500 1).
  vm_compute. reflexivity.
Defined.

(** While everything read so far and still to come fits the chunk size,
    the loop closes no chunk and only appends to the running one. *)
Lemma fold_short (filename : string) (chunk_size : nat) (ps : list string) :
  forall st : splitter,
    ps <> [] ->
    String.length (current_chunk st)
    + String.length (String.concat Py.nlnl ps) < chunk_size ->
    let st' := fold_left (split_step filename chunk_size) ps st in
    chunks st' = chunks st /\ next_id st' = next_id st /\
    current_chunk st'
    = current_chunk st +:+ String.concat Py.nlnl ps +:+ Py.nlnl.
Proof.
  induction ps as [|p ps IH]; intros st Hne Hlen; [congruence|].
  destruct ps as [|q rest].
  - cbn [fold_left String.concat] in *. unfold split_step.
    rewrite length_app_str.
    destruct (Nat.ltb_spec (String.length (current_chunk st) + String.length p)
                           chunk_size); [|lia].
    cbn [chunks next_id current_chunk]. auto.
  - change (String.concat Py.nlnl (p :: q :: rest))
      with (p +:+ Py.nlnl +:+ String.concat Py.nlnl (q :: rest)) in *.
    rewrite !length_app_str in Hlen.
    change (String.length Py.nlnl) with 2 in Hlen.
    change (fold_left (split_step filename chunk_size) (p :: q :: rest) st)
      with (fold_left (split_step filename chunk_size) (q :: rest)
                      (split_step filename chunk_size st p)).
    set (st1 := split_step filename chunk_size st p).
    assert (H1 : chunks st1 = chunks st /\ next_id st1 = next_id st /\
                 current_chunk st1 = current_chunk st +:+ p +:+ Py.nlnl).
    { unfold st1, split_step. rewrite length_app_str.
      destruct (Nat.ltb_spec
                  (String.length (current_chunk st) + String.length p)
                  chunk_size); [|lia].
      cbn [chunks next_id current_chunk]. auto. }
    destruct H1 as (Hc1 & Hn1 & Hcur1).
    destruct (IH st1) as (Hc & Hn & Hcur); [discriminate| |].
    + rewrite Hcur1, !length_app_str.
      change (String.length Py.nlnl) with 2. lia.
    + cbn zeta. rewrite Hc, Hn, Hcur, Hcur1, Hc1, Hn1.
      split; [reflexivity|]. split; [reflexivity|].
      now rewrite !app_assoc_str.
Qed.

(** X17.  A document shorter than the chunk size is not split: it becomes
    one chunk, labelled [<filename>_0], whose body is the stripped document;
    or no chunk at all when the document is blank. *)
Theorem short_document_one_chunk (content filename : string)
        (chunk_size : nat) :
  String.length content < chunk_size ->
  _split_document content filename chunk_size
  = if Py.truthy (Py.strip content) then [whole content filename] else [].
Proof.
  intros Hlen. unfold _split_document.
  set (st0 := {| chunks := []; current_chunk := ""; next_id := 0 |}).
  destruct (fold_short filename chunk_size (Py.split_nlnl content) st0)
    as (Hc & Hn & Hcur).
  - apply split_nlnl_nonempty.
  - rewrite join_split. cbn. exact Hlen.
  - rewrite join_split in Hcur. cbn [st0 current_chunk] in Hcur.
    change ("" +:+ content +:+ Py.nlnl) with (content +:+ Py.nlnl) in Hcur.
    assert (Hs : Py.strip (content +:+ Py.nlnl) = Py.strip content).
    { unfold Py.strip. now rewrite (rstrip_app_blank _ _ rstrip_nlnl). }
    unfold flush. rewrite Hcur, Hs.
    destruct (Py.truthy (Py.strip content)); cbn [chunks];
      rewrite Hc, ?Hn; reflexivity.
Qed.

Lemma short_document_one_chunk_witness :
  _split_document (" Water supply: 6 AM" +:+ Py.nlnl +:+ "Daily ")
                  "water.txt" 500
  = [ {| id := "water.txt_0";
         content := "Water supply: 6 AM" +:+ Py.nlnl +:+ "Daily";
         source := "water.txt";
         chunk_id := 0 |} ].
Proof.
  apply (short_document_one_chunk
           (" Water supply: 6 AM" +:+ Py.nlnl +:+ "Daily ") "water.txt" 500).
  vm_compute. lia.
Defined.

Lemma slice_to_incl {A : Type} (n : Z) (xs : list A) (x : A) :
  In x (Py.slice_to n xs) -> In x xs.
Proof.
  unfold Py.slice_to. destruct (0 <=? n)%Z; intros H.
  - rewrite <- (firstn_skipn (Z.to_nat n) xs). apply in_or_app. now left.
  - rewrite <- (firstn_skipn (length xs - Z.to_nat (- n)) xs).
    apply in_or_app. now left.
Qed.

(** X18.  The web search is simulated: whatever the query and the number
    of results asked for, it returns at most three results, each from one
    of three fixed addresses, each with the query pasted into its text and
    with the relevance score 0.85. *)
Theorem web_results_simulated (query : string) (num_results : Z) :
  length (search_web query num_results) <= 3 /\
  forall r, In r (search_web query num_results) ->
            In (url r) simulated_urls /\
            Py.contains query (snippet r) = true /\
            relevance_score r = Some (85 # 100).
Proof.
  unfold search_web. split.
  - rewrite length_map. unfold Py.slice_to.
    destruct (0 <=? num_results)%Z; rewrite length_firstn;
      apply Nat.le_min_r.
  - intros r (r0 & <- & Hin%slice_to_incl)%in_map_iff.
    cbn [url snippet relevance_score with_relevance].
    split; [|split; [|reflexivity]].
    + destruct Hin as [<-|[<-|[<-|[]]]]; cbn; auto.
    + destruct Hin as [<-|[<-|[<-|[]]]]; cbn [snippet];
        apply contains_app_r, contains_here.
Qed.

End DocumentMore.

(** ** Knowledge graph: shape of the built graph, procedure lookup *)

Section GraphMoreFacts.
Import KAG GraphSpec KAGQuery GraphMore.

Lemma extends_refl (g : graph) : extends g g.
Proof. split; auto. Qed.

Lemma extends_trans (g1 g2 g3 : graph) :
  extends g1 g2 -> extends g2 g3 -> extends g1 g3.
Proof. intros [He1 Hn1] [He2 Hn2]. split; auto. Qed.

Lemma add_node_extends (n : string) (a : attrs) (g : graph) :
  extends g (add_node n a g) /\ has_node (add_node n a g) n.
Proof.
  unfold extends, has_edge, has_node, add_node. cbn [nodes edges].
  split; [split; [auto|]|].
  - intros m H. destruct (decide (n = m)) as [->|Hne].
    + rewrite lookup_insert_eq. eauto.
    + now rewrite lookup_insert_ne.
  - rewrite lookup_insert_eq. eauto.
Qed.

Lemma add_edge_extends (u v : string) (a : attrs) (g : graph) :
  extends g (add_edge u v a g).
Proof. apply add_edge_keeps. Qed.

Lemma add_node_closed (n : string) (a : attrs) (g : graph) :
  closed g -> closed (add_node n a g).
Proof.
  intros Hg x y Hxy.
  destruct (add_node_extends n a g) as [[_ Hn] _].
  destruct (Hg x y Hxy) as [Hx Hy]. split; now apply Hn.
Qed.

Lemma add_edge_closed (u v : string) (a : attrs) (g : graph) :
  closed g -> closed (add_edge u v a g).
Proof.
  intros Hg x y Hxy.
  destruct (add_edge_has u v a g) as (_ & Hu & Hv).
  destruct (add_edge_keeps u v a g) as [_ Hn].
  unfold has_edge, add_edge in Hxy. cbn [edges] in Hxy.
  destruct (decide ((u, v) = (x, y))) as [[= <- <-]|Hne]; [now split|].
  rewrite lookup_insert_ne in Hxy by exact Hne.
  destruct (Hg x y Hxy) as [Hx Hy]. split; now apply Hn.
Qed.

(** The five statements that extend the graph. *)
Lemma add_department_step (g : graph) (d : department) :
  extends g (add_department g d) /\ (closed g -> closed (add_department g d)).
Proof.
  split; [apply add_node_extends | apply add_node_closed].
Qed.

Lemma add_service_step (g : graph) (s : service) :
  extends g (add_service g s) /\ (closed g -> closed (add_service g s)).
Proof.
  unfold add_service. split.
  - eapply extends_trans; [apply add_node_extends | apply add_edge_extends].
  - intros H. now apply add_edge_closed, add_node_closed.
Qed.

Lemma add_issue_step (g : graph) (i : issue) :
  extends g (add_issue g i) /\ (closed g -> closed (add_issue g i)).
Proof.
  unfold add_issue. split.
  - eapply extends_trans; [apply add_node_extends | apply add_edge_extends].
  - intros H. now apply add_edge_closed, add_node_closed.
Qed.

Lemma add_procedure_step (g : graph) (e : string * procedure) :
  extends g (add_procedure g e) /\ (closed g -> closed (add_procedure g e)).
Proof.
  destruct e as [proc_id p]. unfold add_procedure.
  split; [apply add_node_extends | apply add_node_closed].
Qed.

Lemma add_relationship_step (g : graph) (r : relationship) :
  extends g (add_relationship g r) /\ (closed g -> closed (add_relationship g r)).
Proof.
  split; [apply add_edge_extends | apply add_edge_closed].
Qed.

Lemma fold_step {A : Type} (f : graph -> A -> graph) (l : list A) :
  (forall g a, extends g (f g a) /\ (closed g -> closed (f g a))) ->
  forall g, extends g (fold_left f l g) /\
            (closed g -> closed (fold_left f l g)).
Proof.
  intros Hf. induction l as [|a l IH]; intros g; cbn [fold_left].
  - split; [apply extends_refl | auto].
  - destruct (Hf g a) as [He Hc]. destruct (IH (f g a)) as [IHe IHc].
    split; [eapply extends_trans; eauto | auto].
Qed.

Lemma fold_closed {A : Type} (f : graph -> A -> graph) (l : list A) :
  (forall g a, extends g (f g a) /\ (closed g -> closed (f g a))) ->
  forall g, closed g -> closed (fold_left f l g).
Proof. intros Hf g. apply (fold_step f l Hf). Qed.

(** What a statement establishes for its own item stays established. *)
Lemma fold_reaches {A : Type} (f : graph -> A -> graph) (l : list A)
      (Q : A -> graph -> Prop) :
  (forall g a, extends g (f g a) /\ (closed g -> closed (f g a))) ->
  (forall a g g', extends g g' -> Q a g -> Q a g') ->
  (forall g a, Q a (f g a)) ->
  forall a, In a l -> forall g, Q a (fold_left f l g).
Proof.
  intros Hf Hmono Hq a. induction l as [|b l IH]; intros Hin g; [destruct Hin|].
  cbn [fold_left]. destruct Hin as [->|Hin]; [|now apply IH].
  eapply Hmono; [apply (fold_step f l Hf)|apply Hq].
Qed.

Lemma build_stages (kd : knowledge) (g : graph) :
  let g1 := fold_left add_department (departments kd) g in
  let g2 := fold_left add_service (services kd) g1 in
  let g3 := fold_left add_issue (issues kd) g2 in
  let g4 := fold_left add_procedure (procedures kd) g3 in
  build kd g = fold_left add_relationship (relationships kd) g4 /\
  extends g g1 /\ extends g1 g2 /\ extends g2 g3 /\ extends g3 g4 /\
  extends g4 (build kd g).
Proof.
  cbn zeta. split; [reflexivity|].
  repeat split;
    first [ apply (fold_step add_department), add_department_step
          | apply (fold_step add_service), add_service_step
          | apply (fold_step add_issue), add_issue_step
          | apply (fold_step add_procedure), add_procedure_step
          | apply (fold_step add_relationship), add_relationship_step ].
Qed.

(** X19.  In the graph left by [build_knowledge_graph] started on a graph
    whose edges join nodes, every edge joins two nodes; every identifier
    the snapshot declares is a node; every service has an edge to its
    department and every issue an edge to its service. *)
Theorem built_graph_linked (self : KAGModule) :
  let kd := knowledge_data self in
  let after := knowledge_graph (fst (build_knowledge_graph self)) in
  (closed (knowledge_graph self) -> closed after) /\
  (forall n, In n (declared kd) -> has_node after n) /\
  (forall s, In s (services kd) ->
             has_edge after (service_id s) (service_department s)) /\
  (forall i, In i (issues kd) ->
             has_edge after (issue_id i) (issue_service i)).
Proof.
  cbn zeta. cbn [build_knowledge_graph fst knowledge_graph].
  set (kd := knowledge_data self). set (g := knowledge_graph self).
  destruct (build_stages kd g) as (_ & E1 & E2 & E3 & E4 & E5).
  cbn zeta in *.
  set (g1 := fold_left add_department (departments kd) g) in *.
  set (g2 := fold_left add_service (services kd) g1) in *.
  set (g3 := fold_left add_issue (issues kd) g2) in *.
  set (g4 := fold_left add_procedure (procedures kd) g3) in *.
  assert (Hnode : forall g' g'' n, extends g' g'' -> has_node g' n ->
                                   has_node g'' n)
    by (intros ? ? ? [_ H]; apply H).
  assert (Hedge : forall g' g'' u v, extends g' g'' -> has_edge g' u v ->
                                     has_edge g'' u v)
    by (intros ? ? ? ? [H _]; apply H).
  split; [|split; [|split]].
  - intros Hg. unfold build.
    apply fold_closed; [apply add_relationship_step|].
    apply fold_closed; [apply add_procedure_step|].
    apply fold_closed; [apply add_issue_step|].
    apply fold_closed; [apply add_service_step|].
    apply fold_closed; [apply add_department_step|].
    exact Hg.
  - intros n. unfold declared. rewrite !in_app_iff.
    intros [Hn|[Hn|[Hn|Hn]]]; apply in_map_iff in Hn as (x & <- & Hx).
    + apply (Hnode g1); [repeat (eapply extends_trans; [eassumption|]);
                         apply extends_refl|].
      apply (fold_reaches add_department (departments kd)
               (fun d g' => has_node g' (dept_id d)));
        [apply add_department_step | intros; eapply Hnode; eauto
        | intros; apply add_node_extends | exact Hx].
    + apply (Hnode g2); [repeat (eapply extends_trans; [eassumption|]);
                         apply extends_refl|].
      apply (fold_reaches add_service (services kd)
               (fun s g' => has_node g' (service_id s)));
        [apply add_service_step | intros; eapply Hnode; eauto
        | intros; apply add_edge_has | exact Hx].
    + apply (Hnode g3); [repeat (eapply extends_trans; [eassumption|]);
                         apply extends_refl|].
      apply (fold_reaches add_issue (issues kd)
               (fun i g' => has_node g' (issue_id i)));
        [apply add_issue_step | intros; eapply Hnode; eauto
        | intros; apply add_edge_has | exact Hx].
    + apply (Hnode g4); [exact E5|].
      apply (fold_reaches add_procedure (procedures kd)
               (fun e g' => has_node g' (fst e)));
        [apply add_procedure_step | intros; eapply Hnode; eauto
        | intros ? [? ?]; apply add_node_extends | exact Hx].
  - intros s Hs.
    apply (Hedge g2); [repeat (eapply extends_trans; [eassumption|]);
                       apply extends_refl|].
    apply (fold_reaches add_service (services kd)
             (fun s g' => has_edge g' (service_id s) (service_department s)));
      [apply add_service_step | intros; eapply Hedge; eauto
      | intros; apply add_edge_has | exact Hs].
  - intros i Hi.
    apply (Hedge g3); [repeat (eapply extends_trans; [eassumption|]);
                       apply extends_refl|].
    apply (fold_reaches add_issue (issues kd)
             (fun i g' => has_edge g' (issue_id i) (issue_service i)));
      [apply add_issue_step | intros; eapply Hedge; eauto
      | intros; apply add_edge_has | exact Hi].
Qed.

Lemma ensure_node_same (n m : string) (a : attrs) (ns : gmap string attrs) :
  ns !! m = Some a -> ensure_node n ns !! m = Some a.
Proof.
  unfold ensure_node. destruct (ns !! n) eqn:E; [auto|]. intros H.
  destruct (decide (n = m)) as [->|Hne]; [congruence|].
  now rewrite lookup_insert_ne.
Qed.

Lemma relationships_same (rels : list relationship) (n : string) (a : attrs) :
  forall g, nodes g !! n = Some a ->
            nodes (fold_left add_relationship rels g) !! n = Some a.
Proof.
  induction rels as [|r rels IH]; intros g H; [exact H|].
  cbn [fold_left]. apply IH. unfold add_relationship, add_edge. cbn [nodes].
  now apply ensure_node_same, ensure_node_same.
Qed.

(** Procedures under other identifiers leave a node as it is. *)
Lemma procedures_skip (ps : Py.dict string procedure) (n : string) :
  ~ In n (Py.keys ps) ->
  forall g, nodes (fold_left add_procedure ps g) !! n = nodes g !! n.
Proof.
  induction ps as [|[k p] ps IH]; intros Hn g; [reflexivity|].
  cbn [fold_left]. rewrite IH by (intros H; apply Hn; now right).
  unfold add_procedure, add_node. cbn [nodes].
  apply lookup_insert_ne. intros ->. apply Hn. now left.
Qed.

Lemma add_procedure_carries (g : graph) (proc_id : string) (p : procedure) :
  carries (add_procedure g (proc_id, p)) proc_id p.
Proof.
  unfold carries, add_procedure, add_node. cbn [nodes].
  eexists. split; [apply lookup_insert_eq|].
  split; apply lookup_union_Some_l.
  - apply lookup_insert_eq.
  - unfold attrs. rewrite !lookup_insert_ne by easy. apply lookup_insert_eq.
Qed.

(** With one entry per identifier, every procedure of the snapshot has its
    node after the procedures are added. *)
Lemma procedures_carried (ps : Py.dict string procedure) (proc_id : string)
      (p : procedure) :
  List.NoDup (Py.keys ps) ->
  Py.sget proc_id ps = Some p ->
  forall g, carries (fold_left add_procedure ps g) proc_id p.
Proof.
  induction ps as [|[k p0] ps IH]; intros Hnd Hget g; [discriminate Hget|].
  cbn [Py.keys map fst] in Hnd. apply List.NoDup_cons_iff in Hnd as [Hk Hnd].
  unfold Py.sget in Hget. cbn [Py.get] in Hget. cbn [fold_left].
  destruct (String.eqb_spec proc_id k) as [->|Hne].
  - injection Hget as ->.
    destruct (add_procedure_carries g k p) as (a & Ha & Hname & Hdept).
    exists a. split; [|auto].
    now rewrite procedures_skip by exact Hk.
  - now apply IH.
Qed.

Lemma build_carries (kd : knowledge) (g : graph) (proc_id : string)
      (p : procedure) :
  List.NoDup (Py.keys (procedures kd)) ->
  Py.sget proc_id (procedures kd) = Some p ->
  carries (build kd g) proc_id p.
Proof.
  intros Hnd Hget. unfold build.
  destruct (procedures_carried _ _ _ Hnd Hget
              (fold_left add_issue (issues kd)
                 (fold_left add_service (services kd)
                    (fold_left add_department (departments kd) g))))
    as (a & Ha & Hrest).
  exists a. split; [|exact Hrest]. now apply relationships_same.
Qed.

(** The loop of [find_procedure] on a graph that carries the snapshot's
    procedures. *)
Lemma find_loop_carried (kd : knowledge) (g : graph) (query_lower : string)
      (table : Py.dict string string) :
  (forall proc_id p, Py.sget proc_id (procedures kd) = Some p ->
                     carries g proc_id p) ->
  exists r,
    find_loop table g kd query_lower = Ok r /\
    (forall info, r = Some info -> explained kd query_lower table info) /\
    (forall keyword proc_id,
        In (keyword, proc_id) table ->
        Py.contains keyword query_lower = true ->
        is_Some (Py.sget proc_id (procedures kd)) ->
        is_Some r).
Proof.
  intros Hg. induction table as [|[kw pid] table (r & Hr & Hsound & Hfound)].
  - exists None. split; [reflexivity|]. split; [discriminate|]. intros ? ? [].
  - cbn [find_loop].
    assert (Hskip : Py.contains kw query_lower = false \/
                    Py.sget pid (procedures kd) = None ->
                    exists r0,
                      find_loop table g kd query_lower = Ok r0 /\
                      (forall info, r0 = Some info ->
                          explained kd query_lower ((kw, pid) :: table) info) /\
                      (forall keyword proc_id,
                          In (keyword, proc_id) ((kw, pid) :: table) ->
                          Py.contains keyword query_lower = true ->
                          is_Some (Py.sget proc_id (procedures kd)) ->
                          is_Some r0)).
    { intros Hno. exists r. split; [exact Hr|]. split.
      - intros info Hi. destruct (Hsound info Hi) as (k & p & Hin & Hrest).
        exists k, p. split; [now right | exact Hrest].
      - intros k i [[= <- <-]|Hin] Hc Hs; [|now eapply Hfound; eauto].
        destruct Hno as [Hno|Hno];
          [congruence | rewrite Hno in Hs; now destruct Hs]. }
    destruct (Py.contains kw query_lower) eqn:Hc; [|now apply Hskip; left].
    destruct (Py.sget pid (procedures kd)) as [p|] eqn:Hp.
    + destruct (Hg pid p Hp) as (a & -> & -> & ->).
      eexists. split; [reflexivity|]. split; [|eauto].
      intros info [= <-]. exists kw, p. cbn [procedure_id].
      split; [now left|]. auto.
    + destruct (nodes g !! pid); now apply Hskip; right.
Qed.

(** X20.  On the graph built from a snapshot that has one entry per
    procedure identifier, [find_procedure] never raises.  What it returns
    is a procedure of the snapshot whose keyword occurs in the lower-cased
    query, with the title and the department of that entry; and it returns
    one whenever some keyword of the table occurs in the query and names a
    procedure of the snapshot. *)
Theorem find_procedure_on_built_graph (self0 : KAGModule) (query : string) :
  List.NoDup (Py.keys (procedures (knowledge_data self0))) ->
  let self := fst (build_knowledge_graph self0) in
  let kd := knowledge_data self0 in
  exists r,
    find_procedure self query = Ok r /\
    (forall info, r = Some info ->
        explained kd (Py.lower query) procedure_keywords info) /\
    (forall keyword proc_id,
        In (keyword, proc_id) procedure_keywords ->
        Py.contains keyword (Py.lower query) = true ->
        is_Some (Py.sget proc_id (procedures kd)) ->
        is_Some r).
Proof.
  intros Hnd. cbn zeta. unfold find_procedure.
  cbn [build_knowledge_graph fst knowledge_graph knowledge_data].
  apply find_loop_carried. intros proc_id p Hp. now apply build_carries.
Qed.

Lemma find_procedure_on_built_graph_witness :
  exists r,
    find_procedure (fst (build_knowledge_graph (holding tax_snapshot true)))
                   "How do I pay Property Tax?" = Ok r /\
    (forall info, r = Some info ->
        explained tax_snapshot (Py.lower "How do I pay Property Tax?")
                  procedure_keywords info) /\
    (forall keyword proc_id,
        In (keyword, proc_id) procedure_keywords ->
        Py.contains keyword (Py.lower "How do I pay Property Tax?") = true ->
        is_Some (Py.sget proc_id (procedures tax_snapshot)) ->
        is_Some r).
Proof.
  apply (find_procedure_on_built_graph (holding tax_snapshot true)
           "How do I pay Property Tax?").
  cbn. apply List.NoDup_cons; [intros [] | apply List.NoDup_nil].
Defined.

(** X23.  [build_knowledge_graph] makes no check of the relationships:
    every relationship of the snapshot becomes an edge between two nodes of
    the graph, and an endpoint that the snapshot does not declare and that
    was not yet in the graph becomes a node without attributes. *)
Theorem relationships_become_edges (self : KAGModule) (rel : relationship) :
  In rel (relationships (knowledge_data self)) ->
  let after := knowledge_graph (fst (build_knowledge_graph self)) in
  has_edge after (rel_from rel) (rel_to rel) /\
  has_node after (rel_from rel) /\
  has_node after (rel_to rel) /\
  (forall n,
      n = rel_from rel \/ n = rel_to rel ->
      ~ In n (declared (knowledge_data self)) ->
      nodes (knowledge_graph self) !! n = None ->
      nodes after !! n = Some ∅).
Proof.
  intros Hin. cbn [build_knowledge_graph fst knowledge_graph].
  unfold build at 1 2 3.
  destruct (relationships_admitted _ rel Hin
    (fold_left add_procedure (procedures (knowledge_data self))
       (fold_left add_issue (issues (knowledge_data self))
          (fold_left add_service (services (knowledge_data self))
             (fold_left add_department (departments (knowledge_data self))
                (knowledge_graph self))))))
    as (He & Hf & Ht).
  split; [exact He|]. split; [exact Hf|]. split; [exact Ht|].
  intros n Hn Hundeclared Hfresh.
  assert (Hhas : has_node (build (knowledge_data self) (knowledge_graph self)) n)
    by (destruct Hn as [->| ->]; assumption).
  destruct (build_bare (knowledge_data self) (knowledge_graph self) n
                       Hundeclared (or_introl Hfresh)) as [Hnone|Hsome].
  - unfold has_node in Hhas. rewrite Hnone in Hhas. now destruct Hhas.
  - exact Hsome.
Qed.

Lemma relationships_become_edges_witness :
  let after :=
    knowledge_graph (fst (build_knowledge_graph (holding stray_snapshot true))) in
  has_edge after "pothole" "roads_dept" /\
  has_node after "pothole" /\
  has_node after "roads_dept" /\
  (forall n,
      n = "pothole" \/ n = "roads_dept" ->
      ~ In n (declared stray_snapshot) ->
      nodes empty_graph !! n = None ->
      nodes after !! n = Some ∅).
Proof.
  apply (relationships_become_edges (holding stray_snapshot true)
                                    stray_relationship).
  cbn. now left.
Defined.

End GraphMoreFacts.

(** ** Status report of the constructed controller *)

Section StatusFacts.
Import Router Controller Startup Status.

(** X21.  The status report of a controller made by [AgentController()]
    never raises and always shows one module out of four: the document,
    graph and cache modules unavailable, the conversational one
    available. *)
Theorem status_after_construction
        (of_rag : RAG.RAGModule -> AIModule)
        (of_kag : KAG.KAGModule -> AIModule) (env : environment) :
  exists s,
    get_module_status (controller_init of_rag of_kag env) = Ok s /\
    total_available s = 1 /\
    map (fun e => (fst e, is_available (snd e))) (modules s)
    = [("RAG", false); ("KAG", false); ("CAG", false); ("SLM", true)].
Proof.
  unfold get_module_status, controller_init.
  unfold rag_available, kag_available, cag_available, slm_available.
  cbn [rag_module kag_module cag_module slm_module].
  rewrite rag_init_raises, init_raises, cag_init_raises.
  cbn [attempt available]. eexists. split; [reflexivity|].
  split; reflexivity.
Qed.

End StatusFacts.

(** ** Letter case *)

Section LetterCase.

(** X22.  A query reaches the keyword tests only through its lower-cased
    form: two queries with the same lower-cased form get the same routing
    analysis, the same cached entry, the same conversational query type,
    the same procedure and the same reasoning chain. *)
Theorem letter_case_ignored (query query' : string) :
  Py.lower query = Py.lower query' ->
  Router.analyze_query query = Router.analyze_query query' /\
  (forall cache_data,
      CAG.search_cache cache_data query
      = CAG.search_cache cache_data query') /\
  SLM.classify_query_type query = SLM.classify_query_type query' /\
  (forall self,
      KAGQuery.find_procedure self query
      = KAGQuery.find_procedure self query') /\
  KAGQuery.multi_hop_reasoning query = KAGQuery.multi_hop_reasoning query'.
Proof.
  intros H.
  unfold Router.analyze_query, CAG.search_cache, SLM.classify_query_type,
    KAGQuery.find_procedure, KAGQuery.multi_hop_reasoning.
  rewrite H. repeat split.
Qed.

Lemma letter_case_ignored_witness :
  Router.analyze_query "FIRE Emergency Number"
  = Router.analyze_query "fire emergency number" /\
  (forall cache_data,
      CAG.search_cache cache_data "FIRE Emergency Number"
      = CAG.search_cache cache_data "fire emergency number") /\
  SLM.classify_query_type "FIRE Emergency Number"
  = SLM.classify_query_type "fire emergency number" /\
  (forall self,
      KAGQuery.find_procedure self "FIRE Emergency Number"
      = KAGQuery.find_procedure self "fire emergency number") /\
  KAGQuery.multi_hop_reasoning "FIRE Emergency Number"
  = KAGQuery.multi_hop_reasoning "fire emergency number".
Proof.
  apply (letter_case_ignored "FIRE Emergency Number" "fire emergency number").
  reflexivity.
Defined.

End LetterCase.
